(** * Packager: package assembly and requirement resolution

    A shallow embedding of [direct/src/p3d/Packager.py]: the [PackFile]
    classifier, the exclusion test, [Package.addFile], the descriptor
    reader and writer, the import-package scan with its version tuples,
    the [require] directive and the start of [installMultifile]. *)

From stdpp Require Import base strings gmap list.
From Stdlib Require Import NArith Ascii Sorted.

Local Open Scope string_scope.
Set Warnings "-register-all,-notation-for-abbreviation".
Set Default Proof Using "Type".

(** ** Python results *)

(** The exceptions the modelled code raises. [notify.error] of
    DirectNotify raises a [StandardError]. *)
Inductive PyExn : Type :=
| PackagerError (msg : string)
| OutsideOfPackageError
| KeyError (key : string)
| TypeError (msg : string)
| AttributeError (msg : string)
| StandardError (msg : string).

Inductive Result (A : Type) : Type :=
| Ok (a : A)
| Raise (e : PyExn).
Arguments Ok {A} a.
Arguments Raise {A} e.

(** Code that mutates an object and may raise: the state reached is
    returned on both outcomes, as the mutation made before a [raise]
    stays visible in Python. *)
Definition M (S A : Type) : Type := S -> S * Result A.

Definition ret {S A} (a : A) : M S A := fun s => (s, Ok a).
Definition raise {S A} (e : PyExn) : M S A := fun s => (s, Raise e).
Definition bind {S A B} (m : M S A) (k : A -> M S B) : M S B :=
  fun s => match m s with
           | (s', Ok a) => k a s'
           | (s', Raise e) => (s', Raise e)
           end.
Definition get {S} : M S S := fun s => (s, Ok s).
Definition modify {S} (f : S -> S) : M S unit := fun s => (f s, Ok tt).

Notation "'let*' x ':=' m 'in' k" := (bind m (fun x => k))
  (at level 10, x name, m at level 100, k at level 200, only parsing).
Notation "m ;;; k" := (bind m (fun _ => k))
  (at level 100, k at level 200, right associativity, only parsing).

(** [for x in l: body x] *)
Fixpoint forM_ {S A} (l : list A) (body : A -> M S unit) : M S unit :=
  match l with
  | [] => ret tt
  | x :: l' => body x ;;; forM_ l' body
  end.

(** ** Filename *)

Module Filename.

(** Splits [s] at the last occurrence of [c]: the text before it and
    the text after it. *)
Fixpoint rsplit (c : ascii) (s : string) : option (string * string) :=
  match s with
  | EmptyString => None
  | String a s' =>
      match rsplit c s' with
      | Some (pre, post) => Some (String a pre, post)
      | None => if Ascii.eqb a c then Some (EmptyString, s') else None
      end
  end.

(** Modelled from the spec: [Filename.getBasename] of the file name
    class is not among the sources; the basename is the text after the
    last slash. *)
Definition getBasename (s : string) : string :=
  match rsplit "/" s with
  | Some (_, b) => b
  | None => s
  end.

(** Modelled from the spec: [Filename.getDirname], the text before the
    last slash. *)
Definition getDirname (s : string) : string :=
  match rsplit "/" s with
  | Some (d, _) => d
  | None => EmptyString
  end.

(** Modelled from the spec: [Filename.getExtension] of the file name
    class is not among the sources; the extension is the text after
    the last dot of the basename, empty when the basename has no
    dot. *)
Definition getExtension (s : string) : string :=
  match rsplit "." (getBasename s) with
  | Some (_, e) => e
  | None => EmptyString
  end.

(** Modelled from the spec: [Filename.setExtension('')], which removes
    the last dot of the basename and what follows it. *)
Definition stripExtension (s : string) : string :=
  match rsplit "/" s with
  | Some (d, b) =>
      match rsplit "." b with
      | Some (stem, _) => d +:+ "/" +:+ stem
      | None => s
      end
  | None =>
      match rsplit "." s with
      | Some (stem, _) => stem
      | None => s
      end
  end.

(** [Filename(dirname, basename)] *)
Definition join (d b : string) : string :=
  if String.eqb d EmptyString then b else d +:+ "/" +:+ b.

End Filename.

(** Python truth value of a string or [None]. *)
Definition truthy (o : option string) : bool :=
  match o with
  | Some s => negb (String.eqb s EmptyString)
  | None => false
  end.

(** [x is None] *)
Definition isNone {A} (o : option A) : bool :=
  match o with
  | Some _ => false
  | None => true
  end.

(** [x in l] for a list of strings. *)
Definition str_in (x : string) (l : list string) : bool :=
  existsb (String.eqb x) l.

(** ** Data model *)

(** [GlobPattern]: the pattern text and its case flag. *)
Record GlobPattern : Type := mkGlob {
  pattern : string;
  globCaseSensitive : bool
}.

(** [Packager.ExcludeFilename] *)
Record ExcludeFilename : Type := mkExclude {
  localOnly : bool;
  glob : GlobPattern
}.

(** The keyword arguments of [PackFile.__init__] after [package]. *)
Record PackFileArgs : Type := mkArgs {
  a_filename : string;
  a_newName : option string;
  a_deleteTemp : bool;
  a_explicit : bool;
  a_compress : option bool;
  a_extract : option bool;
  a_text : option string;
  a_unprocessed : option bool;
  a_executable : option bool;
  a_platformSpecific : option bool
}.

(** [Packager.PackFile] *)
Record PackFile : Type := mkPackFile {
  filename : string;
  newName : string;
  deleteTemp : bool;
  explicit : bool;
  compress : bool;
  extract : bool;
  text : option string;
  unprocessed : bool;
  executable : bool;
  platformSpecific : bool
}.

#[global] Instance PackFile_eq_dec : EqDecision PackFile.
Proof. solve_decision. Defined.

(** The extension tables and file-system convention the [Packager]
    constructor fills in from the platform. *)
Record Extensions : Type := mkExtensions {
  caseSensitive : bool;
  imageExtensions : list string;
  executableExtensions : list string;
  extractExtensions : list string;
  platformSpecificExtensions : list string;
  uncompressibleExtensions : list string;
  unprocessedExtensions : list string;
  excludeSystemFiles : list string;
  excludeSystemGlobs : list GlobPattern
}.

(** The virtual file system as [Filename] sees it. *)
Record FileSystem : Type := mkFS {
  (** [Filename.exists] *)
  fs_exists : string -> bool;
  (** [Filename.isLocal] *)
  fs_isLocal : string -> bool;
  (** [Filename.resolveFilename(packager.executablePath)]: the name
      found along the search path, or the name itself *)
  fs_resolve : string -> string;
  (** [Filename.makeTrueCase] *)
  fs_trueCase : string -> string;
  (** [Filename.makeCanonical] *)
  fs_canonical : string -> string
}.


(** [FreezeTool.Freezer.ModuleDef], as far as the packager reads it. *)
Record ModuleDef : Type := mkModuleDef {
  md_moduleName : string;
  md_exclude : bool;
  md_forbid : bool;
  md_allowChildren : bool
}.

#[global] Instance ModuleDef_eq_dec : EqDecision ModuleDef.
Proof. solve_decision. Defined.

(** A [TiXmlElement]: its tag, its attributes in order and its child
    elements in order. *)
Inductive XmlElement : Type :=
| XElem (tag : string) (attrs : list (string * string))
        (children : list XmlElement).

Definition xtag (x : XmlElement) : string :=
  match x with XElem t _ _ => t end.
Definition xattrs (x : XmlElement) : list (string * string) :=
  match x with XElem _ a _ => a end.
Definition xchildren (x : XmlElement) : list XmlElement :=
  match x with XElem _ _ c => c end.

(** A node of a [TiXmlDocument]. *)
Inductive XmlNode : Type :=
| XDeclaration (xversion encoding standalone : string)
| XElement (x : XmlElement).

(** A package as [readImportDescFile] fills it in: the fields of a
    [Package] that a requirement is read for. *)
Inductive ImportPackage : Type := mkImport {
  imp_packageName : string;
  imp_platform : option string;
  imp_version : option string;
  imp_host : option string;
  imp_requires : list ImportPackage;
  imp_targetFilenames : list string;
  imp_moduleNames : list (string * ModuleDef)
}.

(** Packages are compared by [==] in [p2 not in self.requires]; two
    packages read from the same import descriptor are the same. *)
Fixpoint ImportPackage_eq_dec (p q : ImportPackage) : {p = q} + {p <> q}.
Proof.
  decide equality.
  - exact (decide _).
  - exact (decide _).
  - apply (List.list_eq_dec ImportPackage_eq_dec).
  - exact (decide _).
  - exact (decide _).
  - exact (decide _).
  - exact (decide _).
Defined.

#[global] Instance ImportPackage_EqDecision : EqDecision ImportPackage :=
  ImportPackage_eq_dec.

(** A value of the [configs] dictionary. *)
Inductive ConfigValue : Type :=
| CUnicode (s : string)
| CBool (b : bool)
| COther (str_value : string).

(** The calls the package makes on its [Freezer], oldest first. *)
Inductive FreezerCall : Type :=
| FAddModule (moduleName : string) (fnewName : option string)
             (ffilename : option string) (implicit : bool)
| FExcludeModule (moduleName : string) (fallowChildren fforbid : bool).

(** The calls the package makes on its [Multifile], oldest first. *)
Inductive MultifileCall : Type :=
| MSetHeaderPrefix (prefix : string)
| MOpenReadWrite (path : string)
| MAddSubfile (name sourceFilename : string) (level : nat)
| MAddSubfileStream (name data : string) (level : nat)
| MFlush
| MRepack
| MClose.

(** What reaches the [notify] category. *)
Inductive LogRecord : Type :=
| Warning (msg : string)
| Notice (msg : string).

(** [Packager.Package]. The attributes from [multifile] on are assigned
    during [installMultifile]; [platformSpecificConfig] is assigned in
    [close] and is [None] while the attribute does not exist yet. The
    values of [sourceFilenames] and [targetFilenames] are the objects of
    [files]. *)
Record Package : Type := mkPackage {
  packageName : string;
  platform : option string;
  version : option string;
  host : option string;
  p3dApplication : bool;
  solo : bool;
  compressionLevel : nat;
  mainModule : option (string * string);
  requires : list ImportPackage;
  configs : gmap string ConfigValue;
  skipFilenames : gmap string bool;
  skipModules : gmap string ModuleDef;
  excludedFilenames : list ExcludeFilename;
  files : list PackFile;
  sourceFilenames : gmap string PackFile;
  targetFilenames : gmap string PackFile;
  freezer : list FreezerCall;
  platformSpecificConfig : option (option bool);
  multifile : list MultifileCall;
  extracts : list (string * XmlElement);
  components : list (string * string * XmlElement);
  packageBasename : string;
  packageDesc : string;
  packageFullpath : string;
  patchVersion : string;
  patches : list XmlElement
}.

(** [Package.__init__] *)
Definition Package_init (name : string) : Package :=
  {| packageName := name; platform := None; version := None; host := None;
     p3dApplication := false; solo := false; compressionLevel := 0;
     mainModule := None; requires := []; configs := ∅;
     skipFilenames := ∅; skipModules := ∅; excludedFilenames := [];
     files := []; sourceFilenames := ∅; targetFilenames := ∅;
     freezer := []; platformSpecificConfig := None; multifile := [];
     extracts := []; components := []; packageBasename := EmptyString;
     packageDesc := EmptyString; packageFullpath := EmptyString;
     patchVersion := EmptyString;
     patches := [] |}.

(** Attribute assignment [self.x = v], one setter per attribute the
    modelled methods assign. *)
Definition set_requires (v : list ImportPackage) (p : Package) : Package :=
  {| packageName := packageName p; platform := platform p;
     version := version p; host := host p;
     p3dApplication := p3dApplication p; solo := solo p;
     compressionLevel := compressionLevel p; mainModule := mainModule p;
     requires := v; configs := configs p; skipFilenames := skipFilenames p;
     skipModules := skipModules p;
     excludedFilenames := excludedFilenames p; files := files p;
     sourceFilenames := sourceFilenames p;
     targetFilenames := targetFilenames p; freezer := freezer p;
     platformSpecificConfig := platformSpecificConfig p;
     multifile := multifile p; extracts := extracts p;
     components := components p; packageBasename := packageBasename p;
     packageDesc := packageDesc p; packageFullpath := packageFullpath p;
     patchVersion := patchVersion p; patches := patches p |}.
Definition set_skipFilenames (v : gmap string bool) (p : Package) : Package :=
  {| packageName := packageName p; platform := platform p;
     version := version p; host := host p;
     p3dApplication := p3dApplication p; solo := solo p;
     compressionLevel := compressionLevel p; mainModule := mainModule p;
     requires := requires p; configs := configs p; skipFilenames := v;
     skipModules := skipModules p;
     excludedFilenames := excludedFilenames p; files := files p;
     sourceFilenames := sourceFilenames p;
     targetFilenames := targetFilenames p; freezer := freezer p;
     platformSpecificConfig := platformSpecificConfig p;
     multifile := multifile p; extracts := extracts p;
     components := components p; packageBasename := packageBasename p;
     packageDesc := packageDesc p; packageFullpath := packageFullpath p;
     patchVersion := patchVersion p; patches := patches p |}.
Definition set_skipModules (v : gmap string ModuleDef) (p : Package) : Package :=
  {| packageName := packageName p; platform := platform p;
     version := version p; host := host p;
     p3dApplication := p3dApplication p; solo := solo p;
     compressionLevel := compressionLevel p; mainModule := mainModule p;
     requires := requires p; configs := configs p;
     skipFilenames := skipFilenames p; skipModules := v;
     excludedFilenames := excludedFilenames p; files := files p;
     sourceFilenames := sourceFilenames p;
     targetFilenames := targetFilenames p; freezer := freezer p;
     platformSpecificConfig := platformSpecificConfig p;
     multifile := multifile p; extracts := extracts p;
     components := components p; packageBasename := packageBasename p;
     packageDesc := packageDesc p; packageFullpath := packageFullpath p;
     patchVersion := patchVersion p; patches := patches p |}.
Definition set_files (v : list PackFile) (p : Package) : Package :=
  {| packageName := packageName p; platform := platform p;
     version := version p; host := host p;
     p3dApplication := p3dApplication p; solo := solo p;
     compressionLevel := compressionLevel p; mainModule := mainModule p;
     requires := requires p; configs := configs p;
     skipFilenames := skipFilenames p; skipModules := skipModules p;
     excludedFilenames := excludedFilenames p; files := v;
     sourceFilenames := sourceFilenames p;
     targetFilenames := targetFilenames p; freezer := freezer p;
     platformSpecificConfig := platformSpecificConfig p;
     multifile := multifile p; extracts := extracts p;
     components := components p; packageBasename := packageBasename p;
     packageDesc := packageDesc p; packageFullpath := packageFullpath p;
     patchVersion := patchVersion p; patches := patches p |}.
Definition set_sourceFilenames (v : gmap string PackFile) (p : Package) : Package :=
  {| packageName := packageName p; platform := platform p;
     version := version p; host := host p;
     p3dApplication := p3dApplication p; solo := solo p;
     compressionLevel := compressionLevel p; mainModule := mainModule p;
     requires := requires p; configs := configs p;
     skipFilenames := skipFilenames p; skipModules := skipModules p;
     excludedFilenames := excludedFilenames p; files := files p;
     sourceFilenames := v; targetFilenames := targetFilenames p;
     freezer := freezer p;
     platformSpecificConfig := platformSpecificConfig p;
     multifile := multifile p; extracts := extracts p;
     components := components p; packageBasename := packageBasename p;
     packageDesc := packageDesc p; packageFullpath := packageFullpath p;
     patchVersion := patchVersion p; patches := patches p |}.
Definition set_targetFilenames (v : gmap string PackFile) (p : Package) : Package :=
  {| packageName := packageName p; platform := platform p;
     version := version p; host := host p;
     p3dApplication := p3dApplication p; solo := solo p;
     compressionLevel := compressionLevel p; mainModule := mainModule p;
     requires := requires p; configs := configs p;
     skipFilenames := skipFilenames p; skipModules := skipModules p;
     excludedFilenames := excludedFilenames p; files := files p;
     sourceFilenames := sourceFilenames p; targetFilenames := v;
     freezer := freezer p;
     platformSpecificConfig := platformSpecificConfig p;
     multifile := multifile p; extracts := extracts p;
     components := components p; packageBasename := packageBasename p;
     packageDesc := packageDesc p; packageFullpath := packageFullpath p;
     patchVersion := patchVersion p; patches := patches p |}.
Definition set_freezer (v : list FreezerCall) (p : Package) : Package :=
  {| packageName := packageName p; platform := platform p;
     version := version p; host := host p;
     p3dApplication := p3dApplication p; solo := solo p;
     compressionLevel := compressionLevel p; mainModule := mainModule p;
     requires := requires p; configs := configs p;
     skipFilenames := skipFilenames p; skipModules := skipModules p;
     excludedFilenames := excludedFilenames p; files := files p;
     sourceFilenames := sourceFilenames p;
     targetFilenames := targetFilenames p; freezer := v;
     platformSpecificConfig := platformSpecificConfig p;
     multifile := multifile p; extracts := extracts p;
     components := components p; packageBasename := packageBasename p;
     packageDesc := packageDesc p; packageFullpath := packageFullpath p;
     patchVersion := patchVersion p; patches := patches p |}.
Definition set_multifile (v : list MultifileCall) (p : Package) : Package :=
  {| packageName := packageName p; platform := platform p;
     version := version p; host := host p;
     p3dApplication := p3dApplication p; solo := solo p;
     compressionLevel := compressionLevel p; mainModule := mainModule p;
     requires := requires p; configs := configs p;
     skipFilenames := skipFilenames p; skipModules := skipModules p;
     excludedFilenames := excludedFilenames p; files := files p;
     sourceFilenames := sourceFilenames p;
     targetFilenames := targetFilenames p; freezer := freezer p;
     platformSpecificConfig := platformSpecificConfig p; multifile := v;
     extracts := extracts p; components := components p;
     packageBasename := packageBasename p; packageDesc := packageDesc p;
     packageFullpath := packageFullpath p; patchVersion := patchVersion p;
     patches := patches p |}.
Definition set_extracts (v : list (string * XmlElement)) (p : Package) : Package :=
  {| packageName := packageName p; platform := platform p;
     version := version p; host := host p;
     p3dApplication := p3dApplication p; solo := solo p;
     compressionLevel := compressionLevel p; mainModule := mainModule p;
     requires := requires p; configs := configs p;
     skipFilenames := skipFilenames p; skipModules := skipModules p;
     excludedFilenames := excludedFilenames p; files := files p;
     sourceFilenames := sourceFilenames p;
     targetFilenames := targetFilenames p; freezer := freezer p;
     platformSpecificConfig := platformSpecificConfig p;
     multifile := multifile p; extracts := v; components := components p;
     packageBasename := packageBasename p; packageDesc := packageDesc p;
     packageFullpath := packageFullpath p; patchVersion := patchVersion p;
     patches := patches p |}.
Definition set_components (v : list (string * string * XmlElement)) (p : Package) : Package :=
  {| packageName := packageName p; platform := platform p;
     version := version p; host := host p;
     p3dApplication := p3dApplication p; solo := solo p;
     compressionLevel := compressionLevel p; mainModule := mainModule p;
     requires := requires p; configs := configs p;
     skipFilenames := skipFilenames p; skipModules := skipModules p;
     excludedFilenames := excludedFilenames p; files := files p;
     sourceFilenames := sourceFilenames p;
     targetFilenames := targetFilenames p; freezer := freezer p;
     platformSpecificConfig := platformSpecificConfig p;
     multifile := multifile p; extracts := extracts p; components := v;
     packageBasename := packageBasename p; packageDesc := packageDesc p;
     packageFullpath := packageFullpath p; patchVersion := patchVersion p;
     patches := patches p |}.
Definition set_patchVersion (v : string) (p : Package) : Package :=
  {| packageName := packageName p; platform := platform p;
     version := version p; host := host p;
     p3dApplication := p3dApplication p; solo := solo p;
     compressionLevel := compressionLevel p; mainModule := mainModule p;
     requires := requires p; configs := configs p;
     skipFilenames := skipFilenames p; skipModules := skipModules p;
     excludedFilenames := excludedFilenames p; files := files p;
     sourceFilenames := sourceFilenames p;
     targetFilenames := targetFilenames p; freezer := freezer p;
     platformSpecificConfig := platformSpecificConfig p;
     multifile := multifile p; extracts := extracts p;
     components := components p; packageBasename := packageBasename p;
     packageDesc := packageDesc p; packageFullpath := packageFullpath p;
     patchVersion := v; patches := patches p |}.
Definition set_patches (v : list XmlElement) (p : Package) : Package :=
  {| packageName := packageName p; platform := platform p;
     version := version p; host := host p;
     p3dApplication := p3dApplication p; solo := solo p;
     compressionLevel := compressionLevel p; mainModule := mainModule p;
     requires := requires p; configs := configs p;
     skipFilenames := skipFilenames p; skipModules := skipModules p;
     excludedFilenames := excludedFilenames p; files := files p;
     sourceFilenames := sourceFilenames p;
     targetFilenames := targetFilenames p; freezer := freezer p;
     platformSpecificConfig := platformSpecificConfig p;
     multifile := multifile p; extracts := extracts p;
     components := components p; packageBasename := packageBasename p;
     packageDesc := packageDesc p; packageFullpath := packageFullpath p;
     patchVersion := patchVersion p; patches := v |}.

Definition set_excludedFilenames (v : list ExcludeFilename) (p : Package) : Package :=
  {| packageName := packageName p; platform := platform p;
     version := version p; host := host p;
     p3dApplication := p3dApplication p; solo := solo p;
     compressionLevel := compressionLevel p; mainModule := mainModule p;
     requires := requires p; configs := configs p;
     skipFilenames := skipFilenames p; skipModules := skipModules p;
     excludedFilenames := v; files := files p;
     sourceFilenames := sourceFilenames p;
     targetFilenames := targetFilenames p; freezer := freezer p;
     platformSpecificConfig := platformSpecificConfig p;
     multifile := multifile p; extracts := extracts p;
     components := components p; packageBasename := packageBasename p;
     packageDesc := packageDesc p; packageFullpath := packageFullpath p;
     patchVersion := patchVersion p; patches := patches p |}.

(** The state a [Package] method runs in: the package itself, the
    shared [notify] category and the XML documents on disk. *)
Record PState : Type := mkPState {
  self : Package;
  notify : list LogRecord;
  disk : gmap string (list XmlNode)
}.

Definition on_self (f : Package -> Package) : M PState unit :=
  modify (fun st => mkPState (f (self st)) (notify st) (disk st)).

(** [notify.warning(msg)] *)
Definition warning (msg : string) : M PState unit :=
  modify (fun st => mkPState (self st) (notify st ++ [Warning msg]) (disk st)).

(** A pure computation that may raise. *)
Definition lift {S A} (r : Result A) : M S A := fun s => (s, r).

(** The key of the [Packager.packages] table as [findPackage] uses it:
    name, platform, version and host. *)
Definition PackageKey : Type :=
  (string * option string * option string * option string)%type.

(** The state of the [Packager] that the directives change. *)
Record Packager : Type := mkPackager {
  currentPackage : option Package;
  packages : gmap (string * option string * option string * option string)
                  ImportPackage;
  pk_notify : list LogRecord;
  pk_disk : gmap string (list XmlNode)
}.

(** A method of the current package, called from the packager. *)
Definition onCurrent {A} (m : M PState A) : M Packager A :=
  fun w =>
    match currentPackage w with
    | None =>
        (w, Raise (AttributeError "'NoneType' object has no attribute"))
    | Some p =>
        let '(st, r) := m (mkPState p (pk_notify w) (pk_disk w)) in
        (mkPackager (Some (self st)) (packages w) (notify st) (disk st), r)
    end.

(** [notify.warning(msg)] from the packager *)
Definition pk_warning (msg : string) : M Packager unit :=
  modify (fun w =>
    mkPackager (currentPackage w) (packages w)
               (pk_notify w ++ [Warning msg]) (pk_disk w)).

(** The double-quote character, as a string *)
Definition dquote : string := String (ascii_of_nat 34) EmptyString.

(** [str(x)] for a string or [None] *)
Definition str_option (o : option string) : string :=
  match o with
  | Some s => s
  | None => "None"
  end.

(** [del d[key]] *)
Definition py_del {S V} (key : string) (d : gmap string V)
    : M S (gmap string V) :=
  match d !! key with
  | Some _ => ret (delete key d)
  | None => raise (KeyError key)
  end.

(** ** Strings *)

Definition lower_ascii (c : ascii) : ascii :=
  let n := nat_of_ascii c in
  if (65 <=? n)%nat && (n <=? 90)%nat then ascii_of_nat (n + 32) else c.

(** [str.lower] *)
Fixpoint lower (s : string) : string :=
  match s with
  | EmptyString => EmptyString
  | String c s' => String (lower_ascii c) (lower s')
  end.

(** [c in s] for a character [c] *)
Fixpoint has_char (c : ascii) (s : string) : bool :=
  match s with
  | EmptyString => false
  | String a s' => Ascii.eqb a c || has_char c s'
  end.

(** [s.split(c, 1)] when [c] occurs in [s] *)
Fixpoint lsplit (c : ascii) (s : string) : string * string :=
  match s with
  | EmptyString => (EmptyString, EmptyString)
  | String a s' =>
      if Ascii.eqb a c then (EmptyString, s')
      else let '(pre, post) := lsplit c s' in (String a pre, post)
  end.

(** [s.split(c)] *)
Fixpoint split_on (c : ascii) (s : string) : list string :=
  match s with
  | EmptyString => [EmptyString]
  | String a s' =>
      if Ascii.eqb a c then EmptyString :: split_on c s'
      else match split_on c s' with
           | w :: ws => String a w :: ws
           | [] => [String a EmptyString]
           end
  end.

(** [s.replace(a, b)] for characters *)
Fixpoint replace_char (a b : ascii) (s : string) : string :=
  match s with
  | EmptyString => EmptyString
  | String c s' => String (if Ascii.eqb c a then b else c) (replace_char a b s')
  end.

(** [s.rsplit(c, 1)[0]] *)
Definition rsplit_head (c : ascii) (s : string) : string :=
  match Filename.rsplit c s with
  | Some (pre, _) => pre
  | None => s
  end.

(** [s.endswith(suffix)] *)
Definition endswith (s suffix : string) : bool :=
  let n := String.length s in
  let k := String.length suffix in
  (k <=? n)%nat && String.eqb (String.substring (n - k) k s) suffix.
(** ** Version tuples *)

(** An element of the tuple [__makeVersionTuple] builds: a run of
    non-digits, kept as a string, or a run of digits, read as an
    integer. *)
Inductive VersionWord : Type :=
| WStr (s : string)
| WInt (n : N).

(** [c in string.digits] *)
Definition is_digit (c : ascii) : bool :=
  let n := nat_of_ascii c in (48 <=? n)%nat && (n <=? 57)%nat.

(** The inner [while] loops: the longest prefix whose characters
    satisfy [P], and what follows it. *)
Fixpoint scan_while (P : ascii -> bool) (s : string) : string * string :=
  match s with
  | EmptyString => (EmptyString, EmptyString)
  | String c s' =>
      if P c then let '(w, rest) := scan_while P s' in (String c w, rest)
      else (EmptyString, s)
  end.

(** [int(w)] for a string of decimal digits *)
Fixpoint int_of_digits_from (acc : N) (w : string) : N :=
  match w with
  | EmptyString => acc
  | String c w' =>
      int_of_digits_from (acc * 10 + (N.of_nat (nat_of_ascii c) - 48))%N w'
  end.

Definition int_of_digits (w : string) : N := int_of_digits_from 0%N w.

(** The outer [while p < len(version)] loop, on the text from position
    [p] on. Each round consumes at least one character, so the length
    of the text bounds the number of rounds. *)
Fixpoint makeVersionTuple_loop (rounds : nat) (rest : string) : list VersionWord :=
  match rounds with
  | O => []
  | S rounds' =>
      match rest with
      | EmptyString => []
      | _ =>
          let '(w, rest1) := scan_while (fun c => negb (is_digit c)) rest in
          let '(d, rest2) := scan_while is_digit rest1 in
          WStr w ::
          (if String.eqb d EmptyString then [] else [WInt (int_of_digits d)]) ++
          makeVersionTuple_loop rounds' rest2
      end
  end.

(** [Packager.__makeVersionTuple] *)
Definition makeVersionTuple (version : string) : list VersionWord :=
  makeVersionTuple_loop (String.length version) version.

(** Python 2 ordering of two tuple elements: a number sorts before a
    string, numbers by value, strings by their characters. *)
Definition cmp_word (a b : VersionWord) : comparison :=
  match a, b with
  | WInt m, WInt n => N.compare m n
  | WInt _, WStr _ => Lt
  | WStr _, WInt _ => Gt
  | WStr s, WStr t => String.compare s t
  end.

(** Python ordering of two tuples: the first differing element decides,
    and a proper prefix sorts first. *)
Fixpoint cmp_tuple (a b : list VersionWord) : comparison :=
  match a, b with
  | [], [] => Eq
  | [], _ :: _ => Lt
  | _ :: _, [] => Gt
  | x :: a', y :: b' =>
      match cmp_word x y with
      | Eq => cmp_tuple a' b'
      | c => c
      end
  end.

(** [a > b] on version tuples *)
Definition tuple_gt (a b : list VersionWord) : bool :=
  match cmp_tuple a b with
  | Gt => true
  | _ => false
  end.

(** The builtin type [file], which is what the name [file] denotes
    inside [__sortImportPackages]. *)
Inductive PyBuiltin : Type :=
| builtin_file.

(** [tuples.sort(reverse = True)]: every second component is the same
    object, so the version tuple decides; equal tuples keep their
    order. *)
Fixpoint insert_desc (t : list VersionWord * PyBuiltin)
    (l : list (list VersionWord * PyBuiltin)) : list (list VersionWord * PyBuiltin) :=
  match l with
  | [] => [t]
  | u :: l' =>
      if tuple_gt (fst u) (fst t) then u :: insert_desc t l' else t :: l
  end.

Definition sort_desc (l : list (list VersionWord * PyBuiltin))
    : list (list VersionWord * PyBuiltin) :=
  fold_right insert_desc [] l.

(** ** XML elements *)

(** [TiXmlElement.Attribute(name)] *)
Fixpoint assoc_get (k : string) (l : list (string * string)) : option string :=
  match l with
  | [] => None
  | (k', v) :: l' => if String.eqb k' k then Some v else assoc_get k l'
  end.

Definition Attribute (x : XmlElement) (k : string) : option string :=
  assoc_get k (xattrs x).

Fixpoint assoc_set (k v : string) (l : list (string * string))
    : list (string * string) :=
  match l with
  | [] => [(k, v)]
  | (k', v') :: l' =>
      if String.eqb k' k then (k, v) :: l' else (k', v') :: assoc_set k v l'
  end.

(** [TiXmlElement.SetAttribute(name, value)] *)
Definition SetAttribute (k v : string) (x : XmlElement) : XmlElement :=
  XElem (xtag x) (assoc_set k v (xattrs x)) (xchildren x).

(** [TiXmlElement.InsertEndChild(child)] *)
Definition InsertEndChild (c : XmlElement) (x : XmlElement) : XmlElement :=
  XElem (xtag x) (xattrs x) (xchildren x ++ [c]).

(** [TiXmlElement(tag)] *)
Definition TiXmlElement (t : string) : XmlElement := XElem t [] [].

(** [doc.FirstChildElement(tag)] on a document *)
Fixpoint FirstChildElement (t : string) (nodes : list XmlNode)
    : option XmlElement :=
  match nodes with
  | [] => None
  | XElement x :: nodes' =>
      if String.eqb (xtag x) t then Some x else FirstChildElement t nodes'
  | XDeclaration _ _ _ :: nodes' => FirstChildElement t nodes'
  end.

(** The elements that [x.FirstChildElement(tag)] followed by
    [NextSiblingElement(tag)] until exhaustion visits, in order. *)
Definition ChildElements (t : string) (x : XmlElement) : list XmlElement :=
  List.filter (fun c => String.eqb (xtag c) t) (xchildren x).

(** [extracts.sort()] on the name of each pair; pairs of one name keep
    their order. *)
Fixpoint insert_by_name (e : string * XmlElement)
    (l : list (string * XmlElement)) : list (string * XmlElement) :=
  match l with
  | [] => [e]
  | u :: l' =>
      if String.ltb (fst u) (fst e) || String.eqb (fst u) (fst e)
      then u :: insert_by_name e l' else e :: l
  end.

Definition sort_by_name (l : list (string * XmlElement))
    : list (string * XmlElement) :=
  fold_right insert_by_name [] l.

(** ** The packager *)

Section Model.

Variable ext : Extensions.
Variable fs : FileSystem.

Definition default (o : option bool) (d : bool) : bool :=
  match o with
  | Some b => b
  | None => d
  end.

(** The target name [__init__] starts from: [newName], or the source
    file name when [newName] is [None] or empty. *)
Definition requestedName (a : PackFileArgs) : string :=
  match a_newName a with
  | Some n => if String.eqb n EmptyString then a_filename a else n
  | None => a_filename a
  end.

(** [PackFile.__init__] *)
Definition PackFile_init (a : PackFileArgs) : PackFile :=
  let newName0 := requestedName a in
  let ext0 := Filename.getExtension newName0 in
  let pz := String.eqb ext0 "pz" in
  let newName1 := if pz then Filename.stripExtension newName0 else newName0 in
  let ext1 := if pz then Filename.getExtension newName1 else ext0 in
  let compress0 :=
    if pz then Some (default (a_compress a) true) else a_compress a in
  let compress1 :=
    default compress0
      (negb (str_in ext1 (uncompressibleExtensions ext))
       && negb (str_in ext1 (imageExtensions ext))) in
  let executable1 :=
    default (a_executable a) (str_in ext1 (executableExtensions ext)) in
  let extract1 :=
    default (a_extract a)
      (executable1 || str_in ext1 (extractExtensions ext)) in
  let platformSpecific1 :=
    default (a_platformSpecific a)
      (executable1 || str_in ext1 (platformSpecificExtensions ext)) in
  let unprocessed1 :=
    default (a_unprocessed a)
      (executable1 || str_in ext1 (unprocessedExtensions ext)) in
  let filename1 :=
    if executable1 then fs_resolve fs (a_filename a) else a_filename a in
  let filename2 := fs_trueCase fs filename1 in
  let filename3 :=
    if fs_exists fs filename2 || negb (fs_isLocal fs filename2)
    then fs_canonical fs filename2 else filename2 in
  {| filename := filename3;
     newName := newName1;
     deleteTemp := a_deleteTemp a;
     explicit := a_explicit a;
     compress := compress1;
     extract := extract1;
     text := a_text a;
     unprocessed := unprocessed1;
     executable := executable1;
     platformSpecific := platformSpecific1 |}.


(** [GlobPattern.matches] of the pattern-matching class. *)
Variable glob_matches : GlobPattern -> string -> bool.

(** [ExcludeFilename.matches] *)
Definition exclude_matches (x : ExcludeFilename) (fname : string) : bool :=
  if localOnly x then glob_matches (glob x) (Filename.getBasename fname)
  else glob_matches (glob x) fname.

(** [PackFile.isExcluded] *)
Definition isExcluded (f : PackFile) (package : Package) : Result bool :=
  match skipFilenames package !! newName f with
  | Some _ => Ok true
  | None =>
      if negb (explicit f) then
        let basename := Filename.getBasename (newName f) in
        let basename :=
          if negb (caseSensitive ext) then lower basename else basename in
        if str_in basename (excludeSystemFiles ext) then Ok true
        else if existsb (fun g => glob_matches g basename)
                        (excludeSystemGlobs ext) then Ok true
        else if existsb (fun x => exclude_matches x (filename f))
                        (excludedFilenames package) then Ok true
        else if platformSpecific f then
          match platformSpecificConfig package with
          | None =>
              Raise (AttributeError
                "Package instance has no attribute 'platformSpecificConfig'")
          | Some (Some false) => Ok true
          | Some _ => Ok false
          end
        else Ok false
      else Ok false
  end.

(** [Package.addFile] *)
Definition addFile (a : PackFileArgs) : M PState unit :=
  let file := PackFile_init a in
  let* st := get in
  match sourceFilenames (self st) !! filename file with
  | Some _ => ret tt
  | None =>
      match targetFilenames (self st) !! newName file with
      | Some file2 =>
          warning (filename file2 +:+ " is shadowing " +:+ filename file)
      | None =>
          on_self (fun p =>
            set_sourceFilenames (<[filename file := file]> (sourceFilenames p)) p) ;;;
          if isNone (text file) && negb (fs_exists fs (filename file)) then
            let* st1 := get in
            let* excluded := lift (isExcluded file (self st1)) in
            if negb excluded
            then warning ("No such file: " +:+ filename file)
            else ret tt
          else
            on_self (fun p => set_files (files p ++ [file]) p) ;;;
            on_self (fun p =>
              set_targetFilenames (<[newName file := file]> (targetFilenames p)) p)
      end
  end.

(** [PandaSystem.getPlatform()] *)
Variable getPlatform : string.

(** [ExcludeFilename.__init__] *)
Definition ExcludeFilename_init (fname : string) : ExcludeFilename :=
  let local := String.eqb (Filename.getDirname fname) EmptyString in
  let fname := if negb local then fs_canonical fs fname else fname in
  {| localOnly := local;
     glob := mkGlob fname
               (negb (String.prefix "win" getPlatform
                      || String.prefix "osx" getPlatform)) |}.

(** [Package.excludeFile] *)
Definition excludeFile (fname : string) : M PState unit :=
  on_self (fun p =>
    set_excludedFilenames (excludedFilenames p ++ [ExcludeFilename_init fname]) p).

(** The body of the loop of [Package.requirePackage] *)
Definition Package_requirePackage_round (p2 : ImportPackage) : M PState unit :=
  let* st := get in
  if bool_decide (p2 ∈ requires (self st)) then ret tt
  else
    on_self (fun p => set_requires (requires p ++ [p2]) p) ;;;
    forM_ (imp_targetFilenames p2) (fun fname =>
      on_self (fun p =>
        set_skipFilenames (<[fname := true]> (skipFilenames p)) p)) ;;;
    forM_ (imp_moduleNames p2) (fun m =>
      on_self (fun p =>
        set_skipModules (<[fst m := snd m]> (skipModules p)) p)).

(** [Package.requirePackage] *)
Definition Package_requirePackage (package : ImportPackage) : M PState unit :=
  forM_ (imp_requires package ++ [package]) Package_requirePackage_round.

(** *** Finding a required package *)

(** [PandaSystem.getPackageVersionString()], [getPackageHostUrl()] *)
Variable getPackageVersionString : string.
Variable getPackageHostUrl : string.

(** [Packager.platform] and the directories of [Packager.installSearch] *)
Variable packager_platform : string.
Variable installSearch : list string.

(** [glob.glob]: the file names that match a pattern, in the order the
    file system lists them. *)
Variable glob_glob : string -> list string.

(** [Packager.__readPackageImportDescFile]: the package an import
    descriptor holds, with its requirements already resolved, or [None]
    when the file cannot be read. The lookups of these requirements,
    which [readImportDescFile] makes through [findPackage] and which
    enter what they find into the table of packages, are outside of
    the model: the table of the model holds the packages that were
    asked for by name. *)
Variable readPackageImportDescFile : string -> option ImportPackage.

(** [Packager.__findPackageOnHost], which asks the remote host; what
    it downloads and logs is outside of the model. *)
Variable findPackageOnHost :
  string -> option string -> option string -> option string ->
  option ImportPackage.

(** [Packager.__sortImportPackages]. It sorts a list of its own and
    returns the second components; [packages] itself is not touched. *)
Fixpoint sortImportPackages_tuples (packages : list (option ImportPackage))
    : Result (list (list VersionWord * PyBuiltin)) :=
  match packages with
  | [] => Ok []
  | None :: _ =>
      Raise (AttributeError "'NoneType' object has no attribute 'version'")
  | Some package :: rest =>
      match imp_version package with
      | None => Raise (TypeError "object of type 'NoneType' has no len()")
      | Some v =>
          match sortImportPackages_tuples rest with
          | Ok tuples => Ok ((makeVersionTuple v, builtin_file) :: tuples)
          | Raise e => Raise e
          end
      end
  end.

Definition sortImportPackages (packages : list (option ImportPackage))
    : Result (list PyBuiltin) :=
  match sortImportPackages_tuples packages with
  | Ok tuples => Ok (map snd (sort_desc tuples))
  | Raise e => Raise e
  end.

(** [Packager.__findPackageInList] *)
Definition findPackageInList (name : string) (l : list ImportPackage)
    : option ImportPackage :=
  List.find (fun package => String.eqb (imp_packageName package) name) l.

(** [Packager.__packageIsValid] *)
Definition packageIsValid (package : ImportPackage)
    (requires : list ImportPackage) : bool :=
  match requires with
  | [] => true
  | _ =>
      let panda1 :=
        findPackageInList "panda3d" ([package] ++ imp_requires package) in
      let panda2 := findPackageInList "panda3d" requires in
      match panda1, panda2 with
      | Some p1, Some p2 => bool_decide (imp_version p1 = imp_version p2)
      | _, _ => true
      end
  end.

(** [Packager.__scanPackageDir] *)
Definition scanPackageDir (rootDir packageName : string)
    (platform version host : option string)
    (requires : list ImportPackage) : Result (option ImportPackage) :=
  let packageDir := Filename.join rootDir packageName in
  let basename := packageName in
  let '(packageDir, basename) :=
    match version with
    | Some v =>
        if negb (String.eqb v EmptyString)
        then (Filename.join packageDir v, basename +:+ "." +:+ v)
        else (Filename.join packageDir "*", basename +:+ ".*")
    | None => (Filename.join packageDir "*", basename +:+ ".*")
    end in
  let '(packageDir, basename) :=
    match platform with
    | Some pl =>
        if negb (String.eqb pl EmptyString)
        then (Filename.join packageDir pl, basename +:+ "." +:+ pl)
        else (packageDir, basename)
    | None => (packageDir, basename)
    end in
  let basename := basename +:+ ".import.xml" in
  let filelist := glob_glob (Filename.join packageDir basename) in
  let filelist :=
    match filelist with
    | [] => glob_glob (Filename.join rootDir basename)
    | _ => filelist
    end in
  let packages := map readPackageImportDescFile filelist in
  match sortImportPackages packages with
  | Raise e => Raise e
  | Ok _ =>
      Ok (mjoin (List.find
            (fun c => match c with
                      | Some package => packageIsValid package requires
                      | None => false
                      end) packages))
  end.

(** The file list of [__scanPackageDir], as its two calls of
    [glob.glob] give it: the import descriptors under the directory of
    the package, or, when there is none, those in the root
    directory. *)
Definition scanPackageDir_filelist (rootDir packageName : string)
    (platform version : option string) : list string :=
  let packageDir := Filename.join rootDir packageName in
  let basename := packageName in
  let '(packageDir, basename) :=
    match version with
    | Some v =>
        if negb (String.eqb v EmptyString)
        then (Filename.join packageDir v, basename +:+ "." +:+ v)
        else (Filename.join packageDir "*", basename +:+ ".*")
    | None => (Filename.join packageDir "*", basename +:+ ".*")
    end in
  let '(packageDir, basename) :=
    match platform with
    | Some pl =>
        if negb (String.eqb pl EmptyString)
        then (Filename.join packageDir pl, basename +:+ "." +:+ pl)
        else (packageDir, basename)
    | None => (packageDir, basename)
    end in
  let basename := basename +:+ ".import.xml" in
  let filelist := glob_glob (Filename.join packageDir basename) in
  match filelist with
  | [] => glob_glob (Filename.join rootDir basename)
  | _ => filelist
  end.

(** The loop of [findPackage] over the search directories. *)
Fixpoint findPackage_search (dirs : list string) (packageName : string)
    (platform version host : option string)
    (requires : list ImportPackage) : Result (option ImportPackage) :=
  match dirs with
  | [] => Ok None
  | dirname :: dirs' =>
      match scanPackageDir dirname packageName platform version host requires with
      | Raise e => Raise e
      | Ok (Some package) => Ok (Some package)
      | Ok None =>
          match scanPackageDir dirname packageName None version host requires with
          | Raise e => Raise e
          | Ok (Some package) => Ok (Some package)
          | Ok None =>
              findPackage_search dirs' packageName platform version host requires
          end
      end
  end.

(** [Packager.findPackage] *)
Definition findPackage (packageName : string)
    (platform version host : option string)
    (requires : list ImportPackage) : M Packager (option ImportPackage) :=
  let platform :=
    if truthy platform then platform else Some packager_platform in
  let* w := get in
  match packages w !! (packageName, platform, version, host) with
  | Some package => ret (Some package)
  | None =>
      let* scanned :=
        lift (findPackage_search installSearch packageName platform version
                                 host requires) in
      let found :=
        match scanned with
        | Some package => Some package
        | None => findPackageOnHost packageName platform version host
        end in
      match found with
      | Some package =>
          let key := (imp_packageName package, imp_platform package,
                      imp_version package, imp_host package) in
          let package' :=
            match packages w !! key with
            | Some known => known
            | None => package
            end in
          modify (fun w =>
            mkPackager (currentPackage w)
              (<[(packageName, platform, version, host) := package']>
                 (<[key := package']> (packages w)))
              (pk_notify w) (pk_disk w)) ;;;
          ret (Some package')
      | None => ret None
      end
  end.

(** [str(package)] for a package instance *)
Variable str_package : ImportPackage -> string.

(** [Packager.requirePackage] *)
Definition requirePackage (package : ImportPackage) : M Packager unit :=
  let* w := get in
  match currentPackage w with
  | None => raise OutsideOfPackageError
  | Some _ =>
      (if String.eqb (imp_packageName package) "panda3d" then
         if negb (bool_decide
                    (imp_version package = Some getPackageVersionString)) then
           pk_warning
             ("Requiring panda3d version " +:+ str_package package +:+
              ", which does not match the current build of Panda, which is version "
              +:+ getPackageVersionString +:+ ".")
         else if negb (bool_decide
                         (imp_host package = Some getPackageHostUrl)) then
           pk_warning
             ("Requiring panda3d host " +:+ str_package package +:+
              ", which does not match the current build of Panda, which is host "
              +:+ getPackageHostUrl +:+ ".")
         else ret tt
       else ret tt) ;;;
      onCurrent (Package_requirePackage package)
  end.

(** The body of the loop of [do_require] over the package names. *)
Definition do_require_one (version host : option string)
    (packageName : string) : M Packager unit :=
  let pversion :=
    if String.eqb packageName "panda3d" && isNone version
    then Some getPackageVersionString else version in
  let phost :=
    if String.eqb packageName "panda3d" && isNone host
    then Some getPackageHostUrl else host in
  let* w := get in
  let requires :=
    match currentPackage w with
    | Some p => requires p
    | None => []
    end in
  let* found := findPackage packageName None pversion phost requires in
  match found with
  | None =>
      raise (PackagerError
               ("Unknown package " +:+ packageName +:+ ", version " +:+
                dquote +:+ str_option version +:+ dquote))
  | Some package => requirePackage package
  end.

(** [Packager.do_require]. A keyword argument holds a string or
    [None]. *)
Definition do_require (args : list string) (kw : gmap string (option string))
    : M Packager unit :=
  let* w := get in
  match currentPackage w with
  | None => raise OutsideOfPackageError
  | Some _ =>
      let version := mjoin (kw !! "version") in
      let host := mjoin (kw !! "host") in
      let* kw1 :=
        (if bool_decide (is_Some (kw !! "version"))
         then py_del "version" kw else ret kw) in
      let* kw2 :=
        (if bool_decide (is_Some (kw1 !! "host"))
         then py_del "version" kw1 else ret kw1) in
      if negb (bool_decide (kw2 = ∅)) then
        raise (TypeError
                 ("do_require() got an unexpected keyword argument '" +:+
                  match map_to_list kw2 with
                  | (k, _) :: _ => k
                  | [] => EmptyString
                  end +:+ "'"))
      else forM_ args (do_require_one version host)
  end.

(** *** The package descriptor *)

(** [Packager.installDir] *)
Variable installDir : string.

(** [str(pathname.getFileSize())], [str(pathname.getTimestamp())] and
    the hexadecimal [HashVal] of a file *)
Variable file_size : string -> string.
Variable file_timestamp : string -> string.
Variable file_hash : string -> string.

(** [Package.getFileSpec] *)
Definition getFileSpec (element pathname name : string) : XmlElement :=
  SetAttribute "hash" (file_hash pathname)
    (SetAttribute "timestamp" (file_timestamp pathname)
       (SetAttribute "size" (file_size pathname)
          (SetAttribute "filename" name (TiXmlElement element)))).

(** [Package.readDescFile] *)
Definition readDescFile : M PState unit :=
  on_self (set_patchVersion "1") ;;;
  on_self (set_patches []) ;;;
  let* st := get in
  let packageDescFullpath := Filename.join installDir (packageDesc (self st)) in
  match disk st !! packageDescFullpath with
  | None => ret tt
  | Some doc =>
      match FirstChildElement "package" doc with
      | None => ret tt
      | Some xpackage =>
          let patchVersion0 := Attribute xpackage "patch_version" in
          let patchVersion1 :=
            if truthy patchVersion0 then patchVersion0
            else Attribute xpackage "last_patch_version" in
          (match patchVersion1 with
           | Some v =>
               if negb (String.eqb v EmptyString)
               then on_self (set_patchVersion v) else ret tt
           | None => ret tt
           end) ;;;
          on_self (fun p => set_patches (patches p ++ ChildElements "patch" xpackage) p)
      end
  end.

(** The value of a config variable as [__addConfigs] writes it *)
Definition config_text (v : ConfigValue) : string :=
  match v with
  | CUnicode s => s
  | CBool b => if b then "1" else "0"
  | COther s => s
  end.

(** [Package.__addConfigs] *)
Definition addConfigs (p : Package) (xpackage : XmlElement) : XmlElement :=
  if bool_decide (configs p = ∅) then xpackage
  else
    InsertEndChild
      (fold_left (fun xconfig kv => SetAttribute (fst kv) (config_text (snd kv)) xconfig)
                 (map_to_list (configs p)) (TiXmlElement "config"))
      xpackage.

(** The [requires] element [writeDescFile] writes for one package *)
Definition xrequires_of (p : Package) (package : ImportPackage) : XmlElement :=
  let x := SetAttribute "name" (imp_packageName package) (TiXmlElement "requires") in
  let x :=
    match imp_platform package with
    | Some pl =>
        if truthy (platform p) && negb (String.eqb pl EmptyString)
        then SetAttribute "platform" pl x else x
    | None => x
    end in
  let x :=
    match imp_version package with
    | Some v =>
        if negb (String.eqb v EmptyString) then SetAttribute "version" v x else x
    | None => x
    end in
  SetAttribute "host" (str_option (imp_host package)) x.

(** [Package.writeDescFile] *)
Definition writeDescFile : M PState unit :=
  let* st := get in
  let p := self st in
  let packageDescFullpath := Filename.join installDir (packageDesc p) in
  let decl := XDeclaration "1.0" "utf-8" EmptyString in
  let xpackage := SetAttribute "name" (packageName p) (TiXmlElement "package") in
  let xpackage :=
    if truthy (platform p)
    then SetAttribute "platform" (str_option (platform p)) xpackage
    else xpackage in
  let xpackage :=
    if truthy (version p)
    then SetAttribute "version" (str_option (version p)) xpackage
    else xpackage in
  let xpackage := SetAttribute "last_patch_version" (patchVersion p) xpackage in
  let xpackage := addConfigs p xpackage in
  let xpackage :=
    fold_left (fun x package => InsertEndChild (xrequires_of p package) x)
              (requires p) xpackage in
  let xpackage :=
    InsertEndChild
      (getFileSpec "uncompressed_archive" (packageFullpath p) (packageBasename p))
      xpackage in
  let xpackage :=
    InsertEndChild
      (getFileSpec "compressed_archive" (packageFullpath p +:+ ".pz")
                   (packageBasename p +:+ ".pz"))
      xpackage in
  let packageBaseFullpath := packageFullpath p +:+ ".base" in
  let xpackage :=
    if fs_exists fs packageBaseFullpath
    then InsertEndChild
           (getFileSpec "base_version" packageBaseFullpath
                        (packageBasename p +:+ ".base"))
           xpackage
    else xpackage in
  let xpackage :=
    fold_left (fun x xpatch => InsertEndChild xpatch x) (patches p) xpackage in
  on_self (fun p => set_extracts (sort_by_name (extracts p)) p) ;;;
  let xpackage :=
    fold_left (fun x e => InsertEndChild (snd e) x)
              (sort_by_name (extracts p)) xpackage in
  modify (fun st =>
    mkPState (self st) (notify st)
             (<[packageDescFullpath := [decl; XElement xpackage]]> (disk st))).

(** *** Building the Multifile *)

Definition multifile_call (c : MultifileCall) : M PState unit :=
  on_self (fun p => set_multifile (multifile p ++ [c]) p).

Definition freezer_call (c : FreezerCall) : M PState unit :=
  on_self (fun p => set_freezer (freezer p ++ [c]) p).

(** [name in freezer.modules], which the freezer decides from the calls
    it has received. *)
Variable freezer_has_module : list FreezerCall -> string -> bool.

(** [DCFile.read] and the import lines of the file read: each imported
    module with its imported symbols; [None] when the file does not
    parse. *)
Variable dc_read : string -> option (list (string * list string)).

(** [Packager.dcClientSuffixes] *)
Variable dcClientSuffixes : list string.

(** [Filename.temporary(dirname, prefix, suffix)] *)
Variable temporary : string -> string -> string -> string.

(** [Package.addComponent] *)
Definition addComponent (file : PackFile) : M PState unit :=
  let* st := get in
  let level := if compress file then compressionLevel (self st) else 0 in
  (if truthy (text file) then
     multifile_call (MAddSubfileStream (newName file) (str_option (text file)) level) ;;;
     multifile_call MFlush
   else
     multifile_call (MAddSubfile (newName file) (filename file) level)) ;;;
  (if extract file then
     let xextract := getFileSpec "extract" (filename file) (newName file) in
     on_self (fun p =>
       set_extracts (extracts p ++ [(lower (newName file), xextract)]) p)
   else ret tt) ;;;
  let xcomponent :=
    SetAttribute "filename" (newName file) (TiXmlElement "component") in
  on_self (fun p =>
    set_components (components p ++ [("c", lower (newName file), xcomponent)]) p).

(** [Package.addPyFile] *)
Definition addPyFile (file : PackFile) : M PState unit :=
  let fname := rsplit_head "." (newName file) in
  let moduleName := replace_char "/" "." fname in
  let moduleName :=
    if endswith moduleName ".__init__" then rsplit_head "." moduleName
    else moduleName in
  let* st := get in
  if freezer_has_module (freezer (self st)) moduleName then ret tt
  else freezer_call
         (FAddModule moduleName (Some moduleName) (Some (filename file)) false).

(** A name of a dc import line and its suffixes: [name/suffix/...] *)
Definition dc_suffixes (name : string) : string * list string :=
  if has_char "/" name
  then let '(n, suffixes) := lsplit "/" name in (n, split_on "/" suffixes)
  else (name, []).

(** [Package.addDcImports] *)
Definition addDcImports (file : PackFile) : M PState unit :=
  match dc_read (filename file) with
  | None => raise (StandardError ("Unable to parse " +:+ filename file +:+ "."))
  | Some imports =>
      forM_ imports (fun imp =>
        let '(moduleName, moduleSuffixes) := dc_suffixes (fst imp) in
        freezer_call (FAddModule moduleName None None false) ;;;
        forM_ dcClientSuffixes (fun suffix =>
          if str_in suffix moduleSuffixes
          then freezer_call (FAddModule (moduleName +:+ suffix) None None false)
          else ret tt) ;;;
        forM_ (snd imp) (fun symbol =>
          let '(symbolName, symbolSuffixes) := dc_suffixes symbol in
          freezer_call
            (FAddModule (moduleName +:+ "." +:+ symbolName) None None true) ;;;
          forM_ dcClientSuffixes (fun suffix =>
            if str_in suffix symbolSuffixes
            then freezer_call
                   (FAddModule (moduleName +:+ "." +:+ symbolName +:+ suffix)
                               None None true)
            else ret tt)))
  end.

(** The first loop of [installMultifile] over the files: the dc and py
    files that are neither excluded nor unprocessed. *)
Definition addModuleFiles (l : list PackFile) : M PState unit :=
  forM_ l (fun file =>
    let* st := get in
    let* excluded := lift (isExcluded file (self st)) in
    if excluded then ret tt
    else if unprocessed file then ret tt
    else
      let e := Filename.getExtension (newName file) in
      if String.eqb e "dc" then addDcImports file
      else if String.eqb e "py" then addPyFile file
      else ret tt).

(** The start of [installMultifile], up to the check of the main
    module: the Multifile is opened under a temporary name, which is
    returned, and the dc and py files are handed to the freezer. *)
Definition installMultifile_begin : M PState string :=
  on_self (set_multifile []) ;;;
  let* st0 := get in
  (if p3dApplication (self st0) then
     multifile_call
       (MSetHeaderPrefix
          ("#! /usr/bin/env panda3d" +:+ String (ascii_of_nat 10) EmptyString))
   else ret tt) ;;;
  let multifileFilename :=
    temporary EmptyString (packageName (self st0) +:+ ".") ".mf" in
  multifile_call (MOpenReadWrite multifileFilename) ;;;
  on_self (set_extracts []) ;;;
  on_self (set_components []) ;;;
  addModuleFiles (files (self st0)) ;;;
  ret multifileFilename.

(** What [installMultifile] does once the main module has been checked,
    from the registration of the main module to [cleanup], given the
    temporary file name of the Multifile: freezing, the dependency
    scan, the component passes, the move into place and the
    descriptors. *)
Variable installMultifile_rest : string -> M PState unit.

(** [Package.installMultifile] *)
Definition installMultifile : M PState unit :=
  let* multifileFilename := installMultifile_begin in
  let* st1 := get in
  if isNone (mainModule (self st1)) && p3dApplication (self st1) then
    raise (PackagerError
             ("No main_module specified for application " +:+ packageName (self st1)))
  else installMultifile_rest multifileFilename.

End Model.

(** ** More of the packager *)

(** Further attribute assignments. *)
Definition set_platform (v : option string) (p : Package) : Package :=
  {| packageName := packageName p; platform := v; version := version p;
     host := host p; p3dApplication := p3dApplication p; solo := solo p;
     compressionLevel := compressionLevel p; mainModule := mainModule p;
     requires := requires p; configs := configs p;
     skipFilenames := skipFilenames p; skipModules := skipModules p;
     excludedFilenames := excludedFilenames p; files := files p;
     sourceFilenames := sourceFilenames p;
     targetFilenames := targetFilenames p; freezer := freezer p;
     platformSpecificConfig := platformSpecificConfig p;
     multifile := multifile p; extracts := extracts p;
     components := components p; packageBasename := packageBasename p;
     packageDesc := packageDesc p; packageFullpath := packageFullpath p;
     patchVersion := patchVersion p; patches := patches p |}.
Definition set_mainModule (v : option (string * string)) (p : Package) : Package :=
  {| packageName := packageName p; platform := platform p;
     version := version p; host := host p;
     p3dApplication := p3dApplication p; solo := solo p;
     compressionLevel := compressionLevel p; mainModule := v;
     requires := requires p; configs := configs p;
     skipFilenames := skipFilenames p; skipModules := skipModules p;
     excludedFilenames := excludedFilenames p; files := files p;
     sourceFilenames := sourceFilenames p;
     targetFilenames := targetFilenames p; freezer := freezer p;
     platformSpecificConfig := platformSpecificConfig p;
     multifile := multifile p; extracts := extracts p;
     components := components p; packageBasename := packageBasename p;
     packageDesc := packageDesc p; packageFullpath := packageFullpath p;
     patchVersion := patchVersion p; patches := patches p |}.
Definition set_configs (v : gmap string ConfigValue) (p : Package) : Package :=
  {| packageName := packageName p; platform := platform p;
     version := version p; host := host p;
     p3dApplication := p3dApplication p; solo := solo p;
     compressionLevel := compressionLevel p; mainModule := mainModule p;
     requires := requires p; configs := v;
     skipFilenames := skipFilenames p; skipModules := skipModules p;
     excludedFilenames := excludedFilenames p; files := files p;
     sourceFilenames := sourceFilenames p;
     targetFilenames := targetFilenames p; freezer := freezer p;
     platformSpecificConfig := platformSpecificConfig p;
     multifile := multifile p; extracts := extracts p;
     components := components p; packageBasename := packageBasename p;
     packageDesc := packageDesc p; packageFullpath := packageFullpath p;
     patchVersion := patchVersion p; patches := patches p |}.
Definition set_p3dApplication (v : bool) (p : Package) : Package :=
  {| packageName := packageName p; platform := platform p;
     version := version p; host := host p; p3dApplication := v;
     solo := solo p; compressionLevel := compressionLevel p;
     mainModule := mainModule p; requires := requires p;
     configs := configs p; skipFilenames := skipFilenames p;
     skipModules := skipModules p;
     excludedFilenames := excludedFilenames p; files := files p;
     sourceFilenames := sourceFilenames p;
     targetFilenames := targetFilenames p; freezer := freezer p;
     platformSpecificConfig := platformSpecificConfig p;
     multifile := multifile p; extracts := extracts p;
     components := components p; packageBasename := packageBasename p;
     packageDesc := packageDesc p; packageFullpath := packageFullpath p;
     patchVersion := patchVersion p; patches := patches p |}.
Definition set_solo (v : bool) (p : Package) : Package :=
  {| packageName := packageName p; platform := platform p;
     version := version p; host := host p;
     p3dApplication := p3dApplication p; solo := v;
     compressionLevel := compressionLevel p; mainModule := mainModule p;
     requires := requires p; configs := configs p;
     skipFilenames := skipFilenames p; skipModules := skipModules p;
     excludedFilenames := excludedFilenames p; files := files p;
     sourceFilenames := sourceFilenames p;
     targetFilenames := targetFilenames p; freezer := freezer p;
     platformSpecificConfig := platformSpecificConfig p;
     multifile := multifile p; extracts := extracts p;
     components := components p; packageBasename := packageBasename p;
     packageDesc := packageDesc p; packageFullpath := packageFullpath p;
     patchVersion := patchVersion p; patches := patches p |}.

(** Modelled from the spec: [Filename.setExtension(e)] of the file name
    class is not among the sources; an empty [e] removes the extension,
    another one replaces the extension, or is added after a dot when
    the basename has none. *)
Definition setExtension (e : string) (s : string) : string :=
  if String.eqb e EmptyString then Filename.stripExtension s
  else
    match Filename.rsplit "." (Filename.getBasename s) with
    | Some _ => Filename.stripExtension s +:+ "." +:+ e
    | None => s +:+ "." +:+ e
    end.

(** [sep.join(words)] *)
Fixpoint str_join (sep : string) (words : list string) : string :=
  match words with
  | [] => EmptyString
  | [w] => w
  | w :: ws => w +:+ sep +:+ str_join sep ws
  end.

(** [prefix] with a slash added when it is not empty and does not end
    in one *)
Definition with_slash (prefix : string) : string :=
  if negb (String.eqb prefix EmptyString) && negb (endswith prefix "/")
  then prefix +:+ "/" else prefix.

(** An entry of the virtual file system as [vfs.scanDirectory] walks
    it: a file, or a directory with its entries; each carries its full
    path. *)
Inductive DirEntry : Type :=
| DirFile (path : string)
| DirDir (path : string) (entries : list DirEntry).

Definition entry_path (e : DirEntry) : string :=
  match e with
  | DirFile p => p
  | DirDir p _ => p
  end.

Section Directives.

Variable ext : Extensions.
Variable fs : FileSystem.
Variable glob_matches : GlobPattern -> string -> bool.

(** [PandaSystem.getPlatform()] *)
Variable getPlatform : string.

(** The loop of [considerPlatform] over the files; [acc] is the local
    [platformSpecific], which is [None], [True] or [False]. *)
Fixpoint considerPlatform_loop (package : Package) (l : list PackFile)
    (acc : option bool) : Result (option bool) :=
  match l with
  | [] => Ok acc
  | file :: l' =>
      match isExcluded ext glob_matches file package with
      | Raise e => Raise e
      | Ok true => considerPlatform_loop package l' acc
      | Ok false =>
          considerPlatform_loop package l'
            (if platformSpecific file then Some true else acc)
      end
  end.

(** [Package.considerPlatform] *)
Definition considerPlatform : M PState unit :=
  let* st := get in
  match platformSpecificConfig (self st) with
  | None =>
      raise (AttributeError
               "Package instance has no attribute 'platformSpecificConfig'")
  | Some config =>
      let* found :=
        lift (considerPlatform_loop (self st) (files (self st)) config) in
      if bool_decide (found = Some true)
         && negb (bool_decide (config = Some false)) then
        if negb (truthy (platform (self st)))
        then on_self (set_platform (Some getPlatform))
        else ret tt
      else ret tt
  end.

(** [Packager.beginPackage] *)
Definition beginPackage (name : string) (application solo_ : bool)
    : M Packager unit :=
  let* w := get in
  match currentPackage w with
  | Some open =>
      raise (PackagerError ("unclosed endPackage " +:+ packageName open))
  | None =>
      modify (fun w =>
        mkPackager
          (Some (set_solo solo_ (set_p3dApplication application (Package_init name))))
          (packages w) (pk_notify w) (pk_disk w))
  end.

(** [Packager.do_config] *)
Definition do_config (kw : gmap string ConfigValue) : M Packager unit :=
  let* w := get in
  match currentPackage w with
  | None => raise OutsideOfPackageError
  | Some _ =>
      forM_ (map_to_list kw) (fun kv =>
        onCurrent (on_self (fun p =>
          set_configs (<[fst kv := snd kv]> (configs p)) p)))
  end.

(** [Packager.do_exclude] *)
Definition do_exclude (fname : string) : M Packager unit :=
  let* w := get in
  match currentPackage w with
  | None => raise OutsideOfPackageError
  | Some _ => onCurrent (excludeFile fs getPlatform fname)
  end.

(** [Packager.do_mainModule]. The file name is a [Filename] or [None];
    an empty one counts as none. *)
Definition do_mainModule (moduleName : string) (newName fname : option string)
    : M Packager unit :=
  let* w := get in
  match currentPackage w with
  | None => raise OutsideOfPackageError
  | Some p =>
      (match mainModule p with
       | Some (old, _) =>
           if negb (String.eqb old moduleName)
           then pk_warning ("Replacing mainModule " +:+ old +:+ " with "
                            +:+ moduleName)
           else ret tt
       | None => ret tt
       end) ;;;
      let newName := if truthy newName then str_option newName else moduleName in
      (if truthy fname then
         let source := str_option fname in
         let newFilename :=
           setExtension (Filename.getExtension source)
                        (str_join "/" (split_on "." moduleName)) in
         onCurrent (addFile ext fs glob_matches
           {| a_filename := source; a_newName := Some newFilename;
              a_deleteTemp := true; a_explicit := true; a_compress := None;
              a_extract := Some true; a_text := None; a_unprocessed := None;
              a_executable := None; a_platformSpecific := None |})
       else ret tt) ;;;
      onCurrent (on_self (set_mainModule (Some (moduleName, newName))))
  end.

(** *** Adding files and directories *)

(** [Packager.remapExtensions] *)
Variable remapExtensions : list (string * string).

(** [glob.glob] *)
Variable glob_glob : string -> list string.

(** The first loop of [addFiles]: the files each name stands for, with
    the [explicit] flag and the [executable] argument as the loop leaves
    them. File names are as on a Posix host, where [toOsSpecific] and
    [fromOsSpecific] change nothing. *)
Fixpoint addFiles_expand (literal : bool) (filenames files : list string)
    (explicit_ : bool) (executable_ : option bool)
    : list string * bool * option bool :=
  match filenames with
  | [] => (files, explicit_, executable_)
  | fname :: rest =>
      let '(thisFiles, executable_) :=
        if literal then ([fname], executable_)
        else
          let e := Filename.getExtension fname in
          let executable_ :=
            if isNone executable_ && String.eqb e "exe"
            then Some true else executable_ in
          let fname :=
            match assoc_get e remapExtensions with
            | Some newExt => setExtension newExt fname
            | None => fname
            end in
          match glob_glob fname with
          | [] => ([fname], executable_)
          | found => (found, executable_)
          end in
      let explicit_ := if (1 <? length thisFiles)%nat then false else explicit_ in
      addFiles_expand literal rest (files ++ thisFiles) explicit_ executable_
  end.

(** [Packager.addFiles] *)
Definition addFiles (filenames : list string) (text_ newName_ newDir : option string)
    (extract_ executable_ : option bool) (deleteTemp_ literal : bool)
    : M Packager unit :=
  let* w := get in
  match currentPackage w with
  | None => raise OutsideOfPackageError
  | Some _ =>
      let '(files, explicit_, executable_) :=
        addFiles_expand literal filenames [] true executable_ in
      let prefix :=
        match newDir with
        | Some d => with_slash d
        | None => EmptyString
        end in
      if truthy newName_ && negb (length files =? 1)%nat then
        raise (PackagerError
                 ("Cannot install multiple files on target filename " +:+
                  str_option newName_))
      else if truthy text_ && negb (length files =? 1)%nat then
        raise (PackagerError "Cannot install text to multiple files")
      else
        let newName_ :=
          if truthy text_ && negb (truthy newName_)
          then Some (hd EmptyString filenames) else newName_ in
        forM_ files (fun fname =>
          let name :=
            if truthy newName_ then str_option newName_
            else prefix +:+ Filename.getBasename fname in
          onCurrent (addFile ext fs glob_matches
            {| a_filename := fname; a_newName := Some name;
               a_deleteTemp := deleteTemp_; a_explicit := explicit_;
               a_compress := None; a_extract := extract_; a_text := text_;
               a_unprocessed := None; a_executable := executable_;
               a_platformSpecific := None |}))
  end.

(** [Packager.knownExtensions] *)
Variable knownExtensions : list string.

(** The file branch of [__recurseDir] *)
Definition recurseDir_file (fname newName_ : string) (unprocessed_ : option bool)
    : M Packager unit :=
  let add :=
    onCurrent (addFile ext fs glob_matches
      {| a_filename := fname; a_newName := Some newName_;
         a_deleteTemp := false; a_explicit := false; a_compress := None;
         a_extract := None; a_text := None; a_unprocessed := unprocessed_;
         a_executable := None; a_platformSpecific := None |}) in
  let e := Filename.getExtension fname in
  if String.eqb e "py" then add
  else
    let e :=
      if String.eqb e "pz"
      then Filename.getExtension (Filename.stripExtension fname) else e in
    if str_in e knownExtensions then add else ret tt.

(** [Packager.__recurseDir], on the entry that [filename] names. An
    entry that [vfs.scanDirectory] lists nothing for, a file or an
    empty directory, takes the file branch. *)
Fixpoint recurseDir (entry : DirEntry) (newName_ : string)
    (unprocessed_ : option bool) : M Packager unit :=
  match entry with
  | DirDir _ (sub :: subs) =>
      let prefix := with_slash newName_ in
      (fix each (l : list DirEntry) : M Packager unit :=
         match l with
         | [] => ret tt
         | subfile :: l' =>
             recurseDir subfile
               (prefix +:+ Filename.getBasename (entry_path subfile)) None ;;;
             each l'
         end) (sub :: subs)
  | _ => recurseDir_file (entry_path entry) newName_ unprocessed_
  end.

(** The entry of the virtual file system a name stands for. *)
Variable vfs_entry : string -> DirEntry.

(** [Packager.do_dir] *)
Definition do_dir (dirname : string) (newDir : option string)
    (unprocessed_ : option bool) : M Packager unit :=
  let* w := get in
  match currentPackage w with
  | None => raise OutsideOfPackageError
  | Some _ =>
      recurseDir (vfs_entry dirname)
                 (if truthy newDir then str_option newDir else EmptyString)
                 unprocessed_
  end.

End Directives.

(** ** Closing a package *)

(** The attributes that [close] assigns. *)
Definition set_host (v : option string) (p : Package) : Package :=
  {| packageName := packageName p; platform := platform p;
     version := version p; host := v; p3dApplication := p3dApplication p;
     solo := solo p; compressionLevel := compressionLevel p;
     mainModule := mainModule p; requires := requires p;
     configs := configs p; skipFilenames := skipFilenames p;
     skipModules := skipModules p; excludedFilenames := excludedFilenames p;
     files := files p; sourceFilenames := sourceFilenames p;
     targetFilenames := targetFilenames p; freezer := freezer p;
     platformSpecificConfig := platformSpecificConfig p;
     multifile := multifile p; extracts := extracts p;
     components := components p; packageBasename := packageBasename p;
     packageDesc := packageDesc p; packageFullpath := packageFullpath p;
     patchVersion := patchVersion p; patches := patches p |}.
Definition set_version (v : option string) (p : Package) : Package :=
  {| packageName := packageName p; platform := platform p; version := v;
     host := host p; p3dApplication := p3dApplication p; solo := solo p;
     compressionLevel := compressionLevel p; mainModule := mainModule p;
     requires := requires p; configs := configs p;
     skipFilenames := skipFilenames p; skipModules := skipModules p;
     excludedFilenames := excludedFilenames p; files := files p;
     sourceFilenames := sourceFilenames p;
     targetFilenames := targetFilenames p; freezer := freezer p;
     platformSpecificConfig := platformSpecificConfig p;
     multifile := multifile p; extracts := extracts p;
     components := components p; packageBasename := packageBasename p;
     packageDesc := packageDesc p; packageFullpath := packageFullpath p;
     patchVersion := patchVersion p; patches := patches p |}.
Definition set_platformSpecificConfig (v : option (option bool)) (p : Package) : Package :=
  {| packageName := packageName p; platform := platform p;
     version := version p; host := host p;
     p3dApplication := p3dApplication p; solo := solo p;
     compressionLevel := compressionLevel p; mainModule := mainModule p;
     requires := requires p; configs := configs p;
     skipFilenames := skipFilenames p; skipModules := skipModules p;
     excludedFilenames := excludedFilenames p; files := files p;
     sourceFilenames := sourceFilenames p;
     targetFilenames := targetFilenames p; freezer := freezer p;
     platformSpecificConfig := v; multifile := multifile p;
     extracts := extracts p; components := components p;
     packageBasename := packageBasename p; packageDesc := packageDesc p;
     packageFullpath := packageFullpath p; patchVersion := patchVersion p;
     patches := patches p |}.
Definition set_compressionLevel (v : nat) (p : Package) : Package :=
  {| packageName := packageName p; platform := platform p;
     version := version p; host := host p;
     p3dApplication := p3dApplication p; solo := solo p;
     compressionLevel := v; mainModule := mainModule p;
     requires := requires p; configs := configs p;
     skipFilenames := skipFilenames p; skipModules := skipModules p;
     excludedFilenames := excludedFilenames p; files := files p;
     sourceFilenames := sourceFilenames p;
     targetFilenames := targetFilenames p; freezer := freezer p;
     platformSpecificConfig := platformSpecificConfig p;
     multifile := multifile p; extracts := extracts p;
     components := components p; packageBasename := packageBasename p;
     packageDesc := packageDesc p; packageFullpath := packageFullpath p;
     patchVersion := patchVersion p; patches := patches p |}.

(** The text of a config value, which is what the model keeps of a
    version that is given as a config variable. *)
Definition config_str (v : ConfigValue) : string :=
  match v with
  | CUnicode s => s
  | CBool b => if b then "True" else "False"
  | COther s => s
  end.

Section Closing.

Variable ext : Extensions.
Variable glob_matches : GlobPattern -> string -> bool.

(** [PandaSystem.getPlatform()], [getPackageVersionString()] and
    [getPackageHostUrl()] *)
Variable getPlatform : string.
Variable getPackageVersionString : string.
Variable getPackageHostUrl : string.

(** What [findPackage] and [requirePackage] rest on *)
Variable packager_platform : string.
Variable installSearch : list string.
Variable glob_glob : string -> list string.
Variable readPackageImportDescFile : string -> option ImportPackage.
Variable findPackageOnHost :
  string -> option string -> option string -> option string ->
  option ImportPackage.
Variable str_package : ImportPackage -> string.

(** What [installMultifile] rests on *)
Variable freezer_has_module : list FreezerCall -> string -> bool.
Variable dc_read : string -> option (list (string * list string)).
Variable dcClientSuffixes : list string.
Variable temporary : string -> string -> string -> string.
Variable installMultifile_rest : string -> M PState unit.

(** [Packager.installDir] and [Packager.host] *)
Variable installDir : string.
Variable packager_host : string.

(** What Python makes of a config value that is neither unicode text
    nor a boolean: whether it is [None], and its truth value. *)
Variable other_is_None : string -> bool.
Variable other_truthy : string -> bool.

(** [value is None] *)
Definition config_is_None (v : ConfigValue) : bool :=
  match v with
  | COther s => other_is_None s
  | _ => false
  end.

(** [bool(value)] *)
Definition config_bool (v : ConfigValue) : bool :=
  match v with
  | CUnicode s => negb (String.eqb s EmptyString)
  | CBool b => b
  | COther s => other_truthy s
  end.

(** The first part of [Package.close]: the host, the [version] and
    [platform_specific] config variables, and the check of a package
    that is [panda3d] itself. *)
Definition close_configs : M PState unit :=
  let* st := get in
  (if negb (truthy (host (self st)))
   then on_self (set_host (Some packager_host)) else ret tt) ;;;
  let* st := get in
  (match configs (self st) !! "version" with
   | Some v =>
       if config_is_None v then ret tt
       else
         (on_self (set_version (Some (config_str v))) ;;;
          on_self (fun p => set_configs (delete "version" (configs p)) p))
   | None => ret tt
   end) ;;;
  let* st := get in
  (match configs (self st) !! "platform_specific" with
   | Some v =>
       if config_is_None v
       then on_self (set_platformSpecificConfig (Some None))
       else
         (on_self (set_platformSpecificConfig (Some (Some (config_bool v)))) ;;;
          on_self (fun p =>
            set_configs (delete "platform_specific" (configs p)) p))
   | None => on_self (set_platformSpecificConfig (Some None))
   end) ;;;
  let* st := get in
  if String.eqb (packageName (self st)) "panda3d" then
    (if isNone (version (self st))
     then on_self (set_version (Some getPackageVersionString)) else ret tt) ;;;
    let* st := get in
    if negb (bool_decide (version (self st) = Some getPackageVersionString))
    then
      raise (PackagerError
               ("mismatched Panda3D version: requested " +:+
                str_option (version (self st)) +:+
                ", but Panda3D is built as " +:+ getPackageVersionString))
    else if negb (bool_decide (host (self st) = Some getPackageHostUrl))
    then
      raise (PackagerError
               ("mismatched Panda3D host: requested " +:+
                str_option (host (self st)) +:+
                ", but Panda3D is built as " +:+ getPackageHostUrl))
    else ret tt
  else ret tt.

(** The version a package that is not an application inherits from the
    [panda3d] it requires. *)
Definition close_inherit : M PState unit :=
  let* st := get in
  if negb (p3dApplication (self st)) && negb (truthy (version (self st))) then
    match List.find
            (fun p2 => String.eqb (imp_packageName p2) "panda3d"
                       && truthy (imp_version p2))
            (requires (self st)) with
    | Some p2 => on_self (set_version (imp_version p2))
    | None => ret tt
    end
  else ret tt.

(** [Package.close] on the current package, as [endPackage] calls it,
    up to the choice of the installer. An application requires
    [panda3d] through the [require] directive of the packager. *)
Definition close_begin : M Packager unit :=
  onCurrent close_configs ;;;
  let* w := get in
  (match currentPackage w with
   | Some p =>
       if p3dApplication p then
         (onCurrent (on_self (set_compressionLevel 6)) ;;;
          do_require getPackageVersionString getPackageHostUrl
                     packager_platform installSearch glob_glob
                     readPackageImportDescFile findPackageOnHost str_package
                     ["panda3d"] ∅)
       else ret tt
   | None => ret tt
   end) ;;;
  onCurrent close_inherit.

(** [vfs.scanDirectory(installPath)]: the files installed before, none
    when the directory does not exist. *)
Variable scanDirectory : string -> list string.

(** [Filename.unlink()], on the documents the model keeps on disk *)
Definition unlink (path : string) : M PState unit :=
  modify (fun st => mkPState (self st) (notify st) (delete path (disk st))).

(** The files of the package that are not excluded. *)
Fixpoint installSolo_files (package : Package) (l : list PackFile)
    : Result (list PackFile) :=
  match l with
  | [] => Ok []
  | file :: l' =>
      match isExcluded ext glob_matches file package with
      | Raise e => Raise e
      | Ok true => installSolo_files package l'
      | Ok false =>
          match installSolo_files package l' with
          | Raise e => Raise e
          | Ok kept => Ok (file :: kept)
          end
      end
  end.

(** What [installSolo] does with its one file, given the install path
    and the package directory: the directory is made, the file is
    copied, the entry of the contents file is replaced and the
    temporary files are deleted. *)
Variable installSolo_rest : string -> string -> PackFile -> M PState unit.

(** [Package.installSolo] *)
Definition installSolo : M PState unit :=
  considerPlatform ext glob_matches getPlatform ;;;
  let* st := get in
  let p := self st in
  let packageDir := packageName p in
  let packageDir :=
    if truthy (platform p)
    then packageDir +:+ "/" +:+ str_option (platform p) else packageDir in
  let packageDir :=
    if truthy (version p)
    then packageDir +:+ "/" +:+ str_option (version p) else packageDir in
  let installPath := Filename.join installDir packageDir in
  forM_ (scanDirectory installPath) unlink ;;;
  let* kept := lift (installSolo_files p (files p)) in
  match kept with
  | [] => ret tt
  | [file] => installSolo_rest installPath packageDir file
  | _ =>
      raise (PackagerError
               ("Multiple files in " +:+ dquote +:+ "solo" +:+ dquote +:+
                " package " +:+ packageName p))
  end.

(** [Package.close] on the current package *)
Definition close : M Packager unit :=
  close_begin ;;;
  onCurrent
    (let* st := get in
     if solo (self st) then installSolo
     else installMultifile ext glob_matches freezer_has_module dc_read
                           dcClientSuffixes temporary installMultifile_rest).

End Closing.

(** ** Sample environments *)

(** The tables of [Packager.__init__] on a Linux host, with two image
    extensions. *)
Definition linux_extensions : Extensions :=
  {| caseSensitive := true;
     imageExtensions := ["jpg"; "png"];
     executableExtensions := ["so"];
     extractExtensions := ["so"];
     platformSpecificExtensions := ["so"];
     uncompressibleExtensions := ["mp3"; "ogg"];
     unprocessedExtensions := [];
     excludeSystemFiles :=
       ["kernel32.dll"; "user32.dll"; "libsystem.b.dylib"; "libstdc++.6.dylib"];
     excludeSystemGlobs :=
       [mkGlob "d3dx9_*.dll" true; mkGlob "libc.so*" true; mkGlob "libX*.so*" true] |}.

(** A glob matcher for patterns made of literal characters, [?] and
    [*]. *)
Fixpoint simple_glob (pat s : string) : bool :=
  match pat with
  | EmptyString => String.eqb s EmptyString
  | String c pat' =>
      if Ascii.eqb c "*" then
        (fix try (t : string) : bool :=
           simple_glob pat' t ||
           match t with
           | EmptyString => false
           | String _ t' => try t'
           end) s
      else
        match s with
        | EmptyString => false
        | String d s' => (Ascii.eqb c "?" || Ascii.eqb c d) && simple_glob pat' s'
        end
  end.

Definition sample_glob_matches (g : GlobPattern) (s : string) : bool :=
  simple_glob (pattern g) s.

(** A file system that holds the listed files and leaves names as they
    are. *)
Definition sample_fs (present : list string) : FileSystem :=
  {| fs_exists := fun s => str_in s present;
     fs_isLocal := fun s => negb (String.prefix "/" s);
     fs_resolve := fun s => s;
     fs_trueCase := fun s => s;
     fs_canonical := fun s => s |}.

(** [addFile(filename, newName = name, explicit = explicit)] *)
Definition file_args (fname : string) (name : option string) (e : bool)
    : PackFileArgs :=
  {| a_filename := fname; a_newName := name; a_deleteTemp := false;
     a_explicit := e; a_compress := None; a_extract := None;
     a_text := None; a_unprocessed := None; a_executable := None;
     a_platformSpecific := None |}.

(** A package state with nothing logged and nothing on disk. *)
Definition fresh (p : Package) : PState := mkPState p [] ∅.

(** A package as an import descriptor of the sample repository gives
    it: no platform, the given version, and the given requirements. *)
Definition imported (name v : string) (reqs : list ImportPackage)
    : ImportPackage :=
  {| imp_packageName := name; imp_platform := None; imp_version := Some v;
     imp_host := Some "http://runtime.example/"; imp_requires := reqs;
     imp_targetFilenames := []; imp_moduleNames := [] |}.

(** The import descriptors of a sample repository under [/repo]:
    versions 1.0 and 2.0 of [tools], listed in that order by the file
    system, and version 1.0.0 of [panda3d] for [linux_amd64]. *)
Definition repo_glob (pat : string) : list string :=
  if String.eqb pat "/repo/tools/*/tools.*.import.xml" then
    ["/repo/tools/1.0/tools.1.0.import.xml";
     "/repo/tools/2.0/tools.2.0.import.xml"]
  else if String.eqb pat
            "/repo/panda3d/1.0.0/linux_amd64/panda3d.1.0.0.linux_amd64.import.xml"
  then [pat]
  else [].

Definition repo_read (path : string) : option ImportPackage :=
  if String.eqb path "/repo/tools/1.0/tools.1.0.import.xml"
  then Some (imported "tools" "1.0" [])
  else if String.eqb path "/repo/tools/2.0/tools.2.0.import.xml"
  then Some (imported "tools" "2.0" [])
  else if String.eqb path
            "/repo/panda3d/1.0.0/linux_amd64/panda3d.1.0.0.linux_amd64.import.xml"
  then Some (imported "panda3d" "1.0.0" [])
  else None.

(** The same descriptors, where each version of [tools] names the
    [panda3d] it was built with: 1.0 with [panda3d] 1.0.0, and 2.0
    with [panda3d] 1.0.1. *)
Definition pinned_read (path : string) : option ImportPackage :=
  if String.eqb path "/repo/tools/1.0/tools.1.0.import.xml"
  then Some (imported "tools" "1.0" [imported "panda3d" "1.0.0" []])
  else if String.eqb path "/repo/tools/2.0/tools.2.0.import.xml"
  then Some (imported "tools" "2.0" [imported "panda3d" "1.0.1" []])
  else None.

(** No remote host is asked: the packager does not run in a packaged
    environment. *)
Definition no_host (name : string) (platform version host : option string)
    : option ImportPackage := None.

(** A packager in the middle of the definition of package [p]. *)
Definition defining (p : Package) : Packager :=
  {| currentPackage := Some p; packages := ∅; pk_notify := []; pk_disk := ∅ |}.

(** A packager outside of any package definition. *)
Definition idle : Packager :=
  {| currentPackage := None; packages := ∅; pk_notify := []; pk_disk := ∅ |}.

(** The [require] directive against the sample repository, by a
    runtime of version 1.0.1. *)
Definition sample_require (args : list string)
    (kw : gmap string (option string)) : M Packager unit :=
  do_require "1.0.1" "http://runtime.example/" "linux_amd64" ["/repo"]
             repo_glob repo_read no_host (fun p => imp_packageName p) args kw.

(** A package [tools] as it stands when [writeDescFile] is called: the
    third patch version, two patches carried over and one extract
    record. *)
Definition built_tools : Package :=
  {| packageName := "tools"; platform := None; version := Some "1.0";
     host := Some "http://runtime.example/";
     p3dApplication := false; solo := false; compressionLevel := 0;
     mainModule := None; requires := [imported "panda3d" "1.0.0" []];
     configs := ∅; skipFilenames := ∅; skipModules := ∅;
     excludedFilenames := []; files := []; sourceFilenames := ∅;
     targetFilenames := ∅; freezer := []; platformSpecificConfig := Some None;
     multifile := [];
     extracts := [("libtool.so", XElem "extract" [("filename", "libtool.so")] [])];
     components := []; packageBasename := "tools.1.0.mf";
     packageDesc := "tools/1.0/tools.1.0.xml";
     packageFullpath := "/install/tools/1.0/tools.1.0.mf";
     patchVersion := "3";
     patches := [XElem "patch" [("filename", "tools.1.0.mf.2.patch")] [];
                 XElem "patch" [("filename", "tools.1.0.mf.3.patch")] []] |}.

(** File sizes, time stamps and hashes of a sample disk. *)
Definition sample_stat (path : string) : string := "0".

(** A package [game] with one Python file and no main module, as an
    application or not. *)
Definition game (application : bool) : Package :=
  let main_py :=
    PackFile_init linux_extensions (sample_fs ["src/main.py"])
                  (file_args "src/main.py" (Some "main.py") true) in
  {| packageName := "game"; platform := None; version := None; host := None;
     p3dApplication := application; solo := false; compressionLevel := 0;
     mainModule := None; requires := []; configs := ∅;
     skipFilenames := ∅; skipModules := ∅; excludedFilenames := [];
     files := [main_py];
     sourceFilenames := {["src/main.py" := main_py]};
     targetFilenames := {["main.py" := main_py]};
     freezer := []; platformSpecificConfig := Some None; multifile := [];
     extracts := []; components := []; packageBasename := EmptyString;
     packageDesc := EmptyString; packageFullpath := EmptyString;
     patchVersion := EmptyString; patches := [] |}.

(** [installMultifile] with a freezer that knows no module yet, no dc
    file that parses, and remaining steps that do nothing. *)
Definition sample_installMultifile : M PState unit :=
  installMultifile linux_extensions sample_glob_matches
    (fun _ _ => false) (fun _ => None) ["OV"]
    (fun d prefix suffix => "/tmp/" +:+ prefix +:+ "0" +:+ suffix)
    (fun _ => ret tt).

(** [close] for a runtime of version 1.0.0 on the sample repository,
    with an install directory that holds nothing yet, and with an
    [installMultifile] as in [sample_installMultifile]. *)
Definition sample_close : M Packager unit :=
  close linux_extensions sample_glob_matches "linux_amd64" "1.0.0"
        "http://runtime.example/" "linux_amd64" ["/repo"] repo_glob repo_read
        no_host (fun p => imp_packageName p)
        (fun _ _ => false) (fun _ => None) ["OV"]
        (fun d prefix suffix => "/tmp/" +:+ prefix +:+ "0" +:+ suffix)
        (fun _ => ret tt)
        "/install" "http://runtime.example/"
        (fun s => String.eqb s "None") (fun _ => true)
        (fun _ => []) (fun _ _ _ => ret tt).

(** ** Observations and invariants *)

(** The number of [PackFile]s of a package list that come from the
    source file [src]. *)
Definition count_source (src : string) (l : list PackFile) : nat :=
  length (List.filter (fun f => String.eqb (filename f) src) l).

(** Every file of the package has its source recorded in
    [sourceFilenames]. *)
Definition sources_recorded (p : Package) : Prop :=
  forall f, f ∈ files p -> is_Some (sourceFilenames p !! filename f).

(** What [readDescFile] leaves in [patchVersion] and [patches], the
    only method that assigns them: a version that is not empty and
    elements with the tag [patch]. *)
Definition patch_state_ok (p : Package) : Prop :=
  patchVersion p <> EmptyString /\
  Forall (fun x => xtag x = "patch") (patches p).

(** What [addComponent] leaves in [extracts], the only method that
    appends to it: elements with the tag [extract]. *)
Definition extracts_ok (p : Package) : Prop :=
  Forall (fun e => xtag (snd e) = "extract") (extracts p).

(** The [package] element that [writeDescFile] builds for a package. *)
Definition written_xpackage (fs : FileSystem)
    (file_size file_timestamp file_hash : string -> string)
    (p : Package) : XmlElement :=
  let xpackage := SetAttribute "name" (packageName p) (TiXmlElement "package") in
  let xpackage :=
    if truthy (platform p)
    then SetAttribute "platform" (str_option (platform p)) xpackage
    else xpackage in
  let xpackage :=
    if truthy (version p)
    then SetAttribute "version" (str_option (version p)) xpackage
    else xpackage in
  let xpackage := SetAttribute "last_patch_version" (patchVersion p) xpackage in
  let xpackage := addConfigs p xpackage in
  let xpackage :=
    fold_left (fun x package => InsertEndChild (xrequires_of p package) x)
              (requires p) xpackage in
  let xpackage :=
    InsertEndChild
      (getFileSpec file_size file_timestamp file_hash
                   "uncompressed_archive" (packageFullpath p) (packageBasename p))
      xpackage in
  let xpackage :=
    InsertEndChild
      (getFileSpec file_size file_timestamp file_hash
                   "compressed_archive" (packageFullpath p +:+ ".pz")
                   (packageBasename p +:+ ".pz"))
      xpackage in
  let xpackage :=
    if fs_exists fs (packageFullpath p +:+ ".base")
    then InsertEndChild
           (getFileSpec file_size file_timestamp file_hash
                        "base_version" (packageFullpath p +:+ ".base")
                        (packageBasename p +:+ ".base"))
           xpackage
    else xpackage in
  let xpackage :=
    fold_left (fun x xpatch => InsertEndChild xpatch x) (patches p) xpackage in
  fold_left (fun x e => InsertEndChild (snd e) x)
            (sort_by_name (extracts p)) xpackage.

(** The names of the subfiles that the calls on a Multifile add. *)
Definition subfiles (calls : list MultifileCall) : list string :=
  omap (fun c => match c with
                 | MAddSubfile name _ _ => Some name
                 | MAddSubfileStream name _ _ => Some name
                 | _ => None
                 end) calls.

(** Two states that differ in the calls made on the freezer at most. *)
Definition eq_but_freezer (st st' : PState) : Prop :=
  set_freezer [] (self st') = set_freezer [] (self st) /\
  notify st' = notify st /\ disk st' = disk st.

(** A computation that, whatever its outcome, changes the calls made on
    the freezer at most. *)
Definition freezer_only {A} (m : M PState A) : Prop :=
  forall st, eq_but_freezer st (fst (m st)).

(** Every file of the package is the one recorded under its target
    name, every recorded target is a file of the package, and no two
    files share a target name or a source. *)
Definition package_wf (p : Package) : Prop :=
  sources_recorded p /\
  (forall f, f ∈ files p -> targetFilenames p !! newName f = Some f) /\
  (forall k f, targetFilenames p !! k = Some f -> f ∈ files p /\ newName f = k) /\
  NoDup (newName <$> files p) /\
  NoDup (filename <$> files p).

(** The target names of every required package are in the skip-set. *)
Definition skips_cover_requires (p : Package) : Prop :=
  forall q, q ∈ requires p ->
  forall fname, fname ∈ imp_targetFilenames q ->
  is_Some (skipFilenames p !! fname).

(** [s] consists of decimal digits. *)
Fixpoint all_digits (s : string) : bool :=
  match s with
  | EmptyString => true
  | String c s' => is_digit c && all_digits s'
  end.

(** The order [extracts.sort()] sorts by: the names, as strings. *)
Definition name_le (a b : string * XmlElement) : Prop :=
  String.ltb (fst a) (fst b) || String.eqb (fst a) (fst b) = true.

(** The files of [p'] are those of [p], then files that were not added
    explicitly. *)
Definition extended_implicitly (p p' : Package) : Prop :=
  exists added,
    files p' = (files p ++ added)%list /\
    Forall (fun f => explicit f = false) added.

(** A sample tree: a directory [art] with a model, a text file of an
    extension the packager does not know, and a directory of scripts. *)
Definition art_tree : DirEntry :=
  DirDir "art"
    [DirFile "art/tree.egg"; DirFile "art/notes.doc";
     DirDir "art/scripts" [DirFile "art/scripts/grow.py"]].

(** A package [tools] that holds one shared library, with the given
    [platformSpecificConfig]. *)
Definition tools_with_library (config : option (option bool)) : Package :=
  let lib :=
    PackFile_init linux_extensions (sample_fs ["lib/libfoo.so"])
                  (file_args "lib/libfoo.so" (Some "libfoo.so") true) in
  {| packageName := "tools"; platform := None; version := None; host := None;
     p3dApplication := false; solo := false; compressionLevel := 0;
     mainModule := None; requires := []; configs := ∅;
     skipFilenames := ∅; skipModules := ∅; excludedFilenames := [];
     files := [lib];
     sourceFilenames := {["lib/libfoo.so" := lib]};
     targetFilenames := {["libfoo.so" := lib]};
     freezer := []; platformSpecificConfig := config; multifile := [];
     extracts := []; components := []; packageBasename := EmptyString;
     packageDesc := EmptyString; packageFullpath := EmptyString;
     patchVersion := EmptyString; patches := [] |}.

(** Two packages that are installed the same way: the same name, the
    same flags, the same main module and the same Multifile. *)
Definition same_build (p p' : Package) : Prop :=
  packageName p' = packageName p /\
  p3dApplication p' = p3dApplication p /\
  solo p' = solo p /\
  mainModule p' = mainModule p /\
  multifile p' = multifile p.

(** A method of the package that, whatever its outcome, leaves these
    attributes. *)
Definition keeps_build {A} (m : M PState A) : Prop :=
  forall st, same_build (self st) (self (fst (m st))).

(** A method of the packager that, whatever its outcome, leaves the
    current package in place with these attributes. *)
Definition pk_keeps_build {A} (m : M Packager A) : Prop :=
  forall w p,
    currentPackage w = Some p ->
    exists p', currentPackage (fst (m w)) = Some p' /\ same_build p p'.

(** ** Properties *)

(** *** Version tuples *)

Lemma scan_while_length (P : ascii -> bool) (s : string) :
  String.length (fst (scan_while P s)) + String.length (snd (scan_while P s))
  = String.length s.
Proof.
  induction s as [|c s IH]; simpl; [reflexivity|].
  destruct (P c); [|reflexivity].
  destruct (scan_while P s) as [w rest]; simpl in *. lia.
Qed.

Lemma scan_while_rest_le (P : ascii -> bool) (s : string) :
  String.length (snd (scan_while P s)) <= String.length s.
Proof. pose proof (scan_while_length P s). lia. Qed.

(** One round of the outer loop consumes at least one character. *)
Lemma round_consumes (c : ascii) (s : string) :
  String.length
    (snd (scan_while is_digit
            (snd (scan_while (fun c => negb (is_digit c)) (String c s)))))
  <= String.length s.
Proof.
  simpl. destruct (is_digit c) eqn:Hd; simpl.
  - rewrite Hd. destruct (scan_while is_digit s) as [w rest] eqn:E; simpl.
    pose proof (scan_while_rest_le is_digit s) as H. rewrite E in H. exact H.
  - destruct (scan_while (fun c => negb (is_digit c)) s) as [w rest] eqn:E; simpl.
    pose proof (scan_while_rest_le (fun c => negb (is_digit c)) s) as H1.
    rewrite E in H1; simpl in H1.
    pose proof (scan_while_rest_le is_digit rest) as H2. lia.
Qed.

(** The loop of [__makeVersionTuple] ends within as many rounds as the
    version has characters: any larger bound gives the same tuple. *)
Lemma makeVersionTuple_loop_enough (n : nat) (s : string) :
  String.length s <= n ->
  makeVersionTuple_loop n s = makeVersionTuple s.
Proof.
  unfold makeVersionTuple.
  assert (H : forall k m t, String.length t <= k -> String.length t <= m ->
                            makeVersionTuple_loop k t = makeVersionTuple_loop m t).
  { induction k as [|k IH]; intros m t Hk Hm.
    - destruct t; simpl in Hk; [|lia]. destruct m; reflexivity.
    - destruct m as [|m].
      + destruct t; simpl in Hm; [reflexivity|lia].
      + destruct t as [|c t]; [reflexivity|].
        pose proof (round_consumes c t) as Hc.
        cbn [makeVersionTuple_loop].
        destruct (scan_while (fun c => negb (is_digit c)) (String c t)) as [w r1].
        simpl in Hc.
        destruct (scan_while is_digit r1) as [d r2]. simpl in Hc.
        simpl in Hk, Hm.
        rewrite (IH m r2) by lia. reflexivity. }
  intros Hn. apply H; [exact Hn|lia].
Qed.

(** C6: the tuples of "1.2.10", "1.2.9", "1.2", "1.10" and "1.9" hold
    their digit runs as integers, and as tuples "1.2.10" > "1.2.9" >
    "1.2" and "1.10" > "1.9", although "1.10" sorts before "1.9" as a
    string. *)
Theorem makeVersionTuple_order :
  makeVersionTuple "1.2.10"
    = [WStr EmptyString; WInt 1; WStr "."; WInt 2; WStr "."; WInt 10] /\
  makeVersionTuple "1.2.9"
    = [WStr EmptyString; WInt 1; WStr "."; WInt 2; WStr "."; WInt 9] /\
  makeVersionTuple "1.2" = [WStr EmptyString; WInt 1; WStr "."; WInt 2] /\
  tuple_gt (makeVersionTuple "1.2.10") (makeVersionTuple "1.2.9") = true /\
  tuple_gt (makeVersionTuple "1.2.9") (makeVersionTuple "1.2") = true /\
  tuple_gt (makeVersionTuple "1.10") (makeVersionTuple "1.9") = true /\
  String.ltb "1.10" "1.9" = true.
Proof. repeat split; vm_compute; reflexivity. Qed.

(** *** File names *)

Lemma rsplit_absent (c : ascii) (t : string) :
  has_char c t = false -> Filename.rsplit c t = None.
Proof.
  induction t as [|a t IH]; simpl; [reflexivity|].
  intros H. apply orb_false_iff in H as [Ha Ht].
  rewrite (IH Ht), Ha. reflexivity.
Qed.

Lemma rsplit_last (c : ascii) (s t : string) :
  has_char c t = false ->
  Filename.rsplit c (s +:+ String c t) = Some (s, t).
Proof.
  intros Ht. induction s as [|a s IH]; simpl.
  - rewrite (rsplit_absent c t Ht), Ascii.eqb_refl. reflexivity.
  - rewrite IH. reflexivity.
Qed.

Lemma rsplit_app_absent (c : ascii) (s t : string) :
  has_char c t = false ->
  Filename.rsplit c (s +:+ t)
  = match Filename.rsplit c s with
    | Some (d, b) => Some (d, b +:+ t)
    | None => None
    end.
Proof.
  intros Ht. induction s as [|a s IH]; simpl.
  - apply rsplit_absent, Ht.
  - rewrite IH. destruct (Filename.rsplit c s) as [[d b]|]; [reflexivity|].
    destruct (Ascii.eqb a c); reflexivity.
Qed.

Lemma rsplit_join (c : ascii) (s d b : string) :
  Filename.rsplit c s = Some (d, b) -> s = d +:+ String c b.
Proof.
  revert d b. induction s as [|a s IH]; simpl; intros d b H; [discriminate|].
  destruct (Filename.rsplit c s) as [[d' b']|].
  - injection H as <- <-.
    change (String a s = String a (d' +:+ String c b')).
    f_equal. apply IH. reflexivity.
  - destruct (Ascii.eqb a c) eqn:E; [|discriminate].
    injection H as <- <-. apply Ascii.eqb_eq in E. subst a. reflexivity.
Qed.

(** A name that ends in [.pz] has the extension [pz]. *)
Lemma getExtension_pz (stem : string) :
  Filename.getExtension (stem +:+ ".pz") = "pz".
Proof.
  unfold Filename.getExtension, Filename.getBasename.
  rewrite (rsplit_app_absent "/" stem ".pz") by reflexivity.
  destruct (Filename.rsplit "/" stem) as [[d b]|].
  - rewrite (rsplit_last "." b "pz") by reflexivity. reflexivity.
  - rewrite (rsplit_last "." stem "pz") by reflexivity. reflexivity.
Qed.

(** Removing the extension of a name that ends in [.pz] removes
    exactly that suffix. *)
Lemma stripExtension_pz (stem : string) :
  Filename.stripExtension (stem +:+ ".pz") = stem.
Proof.
  unfold Filename.stripExtension.
  rewrite (rsplit_app_absent "/" stem ".pz") by reflexivity.
  destruct (Filename.rsplit "/" stem) as [[d b]|] eqn:E.
  - rewrite (rsplit_last "." b "pz") by reflexivity.
    symmetry. apply (rsplit_join "/" stem d b E).
  - rewrite (rsplit_last "." stem "pz") by reflexivity. reflexivity.
Qed.

(** *** The classifier *)

(** C7: a target name that ends in [.pz], built without a [compress]
    argument, gives a [PackFile] with [compress] true and with the
    target name less its [.pz] suffix; the flags [executable],
    [extract], [platformSpecific] and [unprocessed] that the caller
    leaves out are the defaults of the extension of the stripped
    name. *)
Theorem PackFile_init_pz (ext : Extensions) (fs : FileSystem)
    (a : PackFileArgs) (stem : string) :
  requestedName a = stem +:+ ".pz" ->
  a_compress a = None ->
  let f := PackFile_init ext fs a in
  let e := Filename.getExtension stem in
  compress f = true /\
  newName f = stem /\
  (a_executable a = None ->
   executable f = str_in e (executableExtensions ext)) /\
  (a_extract a = None ->
   extract f = executable f || str_in e (extractExtensions ext)) /\
  (a_platformSpecific a = None ->
   platformSpecific f
   = executable f || str_in e (platformSpecificExtensions ext)) /\
  (a_unprocessed a = None ->
   unprocessed f = executable f || str_in e (unprocessedExtensions ext)).
Proof.
  intros Hname Hc. unfold PackFile_init. rewrite Hname, Hc.
  rewrite getExtension_pz, stripExtension_pz. cbn -[str_in].
  repeat split; intros ->; reflexivity.
Qed.

(** The source file [sound/theme.mp3.pz]: compressed although [mp3] is
    an uncompressible extension, and stored as [sound/theme.mp3]. *)
Lemma PackFile_init_pz_witness :
  let a := file_args "sound/theme.mp3.pz" None true in
  let f := PackFile_init linux_extensions (sample_fs []) a in
  compress f = true /\ newName f = "sound/theme.mp3" /\
  executable f = false /\ extract f = false /\
  platformSpecific f = false /\ unprocessed f = false.
Proof.
  pose proof (PackFile_init_pz linux_extensions (sample_fs [])
                (file_args "sound/theme.mp3.pz" None true) "sound/theme.mp3"
                eq_refl eq_refl) as (Hc & Hn & He & Hx & Hp & Hu).
  cbv zeta.
  rewrite Hc, Hn, (Hx eq_refl), (Hp eq_refl), (Hu eq_refl), (He eq_refl).
  repeat split; reflexivity.
Defined.

(** *** Exclusion *)

(** C3: for a file added explicitly, [isExcluded] answers true exactly
    when the target name is a key of the skip-set of the package; the
    system files, the exclusion patterns of the package and the
    platform rule have no part in the answer. *)
Theorem isExcluded_explicit (ext : Extensions)
    (glob_matches : GlobPattern -> string -> bool)
    (f : PackFile) (package : Package) :
  explicit f = true ->
  isExcluded ext glob_matches f package
  = Ok (bool_decide (newName f ∈ dom (skipFilenames package))).
Proof.
  intros He. unfold isExcluded. rewrite He. simpl.
  destruct (skipFilenames package !! newName f) as [b|] eqn:E.
  - rewrite bool_decide_eq_true_2; [reflexivity|].
    apply elem_of_dom. exists b. exact E.
  - rewrite bool_decide_eq_false_2; [reflexivity|].
    rewrite elem_of_dom, E. intros [x Hx]. discriminate.
Qed.

(** A package that excludes [*.txt]: the explicitly added [readme.txt]
    stays, and [notes.txt], found by walking a directory and so not
    explicit, is excluded. *)
Lemma isExcluded_explicit_witness :
  let fs := sample_fs ["doc/readme.txt"; "doc/notes.txt"] in
  let package :=
    self (fst (excludeFile fs "linux_amd64" "*.txt" (fresh (Package_init "docs")))) in
  let readme :=
    PackFile_init linux_extensions fs (file_args "doc/readme.txt" (Some "readme.txt") true) in
  let notes :=
    PackFile_init linux_extensions fs (file_args "doc/notes.txt" (Some "notes.txt") false) in
  isExcluded linux_extensions sample_glob_matches readme package = Ok false /\
  isExcluded linux_extensions sample_glob_matches notes package = Ok true.
Proof.
  cbv zeta. split.
  - rewrite isExcluded_explicit by reflexivity. reflexivity.
  - reflexivity.
Defined.

(** *** Adding files *)

Ltac run :=
  unfold bind, ret, raise, get, modify, on_self, warning, lift;
  cbn -[PackFile_init isExcluded].

(** Names the file [addFile] builds, so that computing does not open
    it. *)
Ltac name_file ext fs a file :=
  unfold addFile in *;
  generalize dependent (PackFile_init ext fs a); intros file; intros.

(** [addFile] when the source file name is already recorded: nothing
    changes and nothing is logged. *)
Lemma addFile_known_source (ext : Extensions) (fs : FileSystem)
    (glob_matches : GlobPattern -> string -> bool)
    (a : PackFileArgs) (st : PState) :
  is_Some (sourceFilenames (self st) !! filename (PackFile_init ext fs a)) ->
  addFile ext fs glob_matches a st = (st, Ok tt).
Proof.
  name_file ext fs a file. destruct H as [f Hf].
  run. rewrite Hf. reflexivity.
Qed.

(** C1: when the target name of the new file is already a key of
    [targetFilenames], held by a file of another source, [addFile]
    returns without adding: the package is the same afterwards, with the
    same [files] and with the first file still under that target name. *)
Theorem addFile_target_taken (ext : Extensions) (fs : FileSystem)
    (glob_matches : GlobPattern -> string -> bool)
    (a : PackFileArgs) (st : PState) (file2 : PackFile) :
  let file := PackFile_init ext fs a in
  targetFilenames (self st) !! newName file = Some file2 ->
  filename file2 <> filename file ->
  let st' := fst (addFile ext fs glob_matches a st) in
  snd (addFile ext fs glob_matches a st) = Ok tt /\
  self st' = self st /\
  files (self st') = files (self st) /\
  targetFilenames (self st') = targetFilenames (self st) /\
  targetFilenames (self st') !! newName file = Some file2 /\
  (sourceFilenames (self st) !! filename file = None ->
   notify st'
   = (notify st ++
      [Warning (filename file2 +:+ " is shadowing " +:+ filename file)])%list).
Proof.
  cbv zeta. name_file ext fs a file. run.
  destruct (sourceFilenames (self st) !! filename file) as [f|] eqn:Es; simpl.
  - repeat split; try assumption. intros ?; discriminate.
  - rewrite H. simpl. repeat split; assumption.
Qed.

(** Two art files for the target name [logo.png]: the second is
    dropped with a warning and the first stays. *)
Lemma addFile_target_taken_witness :
  let fs := sample_fs ["a/logo.png"; "b/logo.png"] in
  let first := file_args "a/logo.png" (Some "logo.png") true in
  let second := file_args "b/logo.png" (Some "logo.png") true in
  let st1 :=
    fst (addFile linux_extensions fs sample_glob_matches first
                 (fresh (Package_init "art"))) in
  let st2 := fst (addFile linux_extensions fs sample_glob_matches second st1) in
  files (self st2) = [PackFile_init linux_extensions fs first] /\
  targetFilenames (self st2) !! "logo.png"
  = Some (PackFile_init linux_extensions fs first) /\
  notify st2 = [Warning "a/logo.png is shadowing b/logo.png"].
Proof.
  cbv zeta.
  pose proof (addFile_target_taken linux_extensions
                (sample_fs ["a/logo.png"; "b/logo.png"]) sample_glob_matches
                (file_args "b/logo.png" (Some "logo.png") true)
                (fst (addFile linux_extensions
                        (sample_fs ["a/logo.png"; "b/logo.png"])
                        sample_glob_matches
                        (file_args "a/logo.png" (Some "logo.png") true)
                        (fresh (Package_init "art"))))
                (PackFile_init linux_extensions
                   (sample_fs ["a/logo.png"; "b/logo.png"])
                   (file_args "a/logo.png" (Some "logo.png") true)))
    as H.
  cbv zeta in H.
  destruct H as (_ & _ & Hf & _ & Ht & Hn).
  - vm_compute. reflexivity.
  - vm_compute. discriminate.
  - rewrite Hf. split; [vm_compute; reflexivity|].
    split; [exact Ht|]. rewrite Hn; vm_compute; reflexivity.
Defined.

(** The empty package has the invariant. *)
Lemma sources_recorded_init (name : string) :
  sources_recorded (Package_init name).
Proof. intros f Hf. simpl in Hf. inversion Hf. Qed.

(** [addFile] keeps the invariant. *)
Lemma addFile_sources_recorded (ext : Extensions) (fs : FileSystem)
    (glob_matches : GlobPattern -> string -> bool)
    (a : PackFileArgs) (st : PState) :
  sources_recorded (self st) ->
  sources_recorded (self (fst (addFile ext fs glob_matches a st))).
Proof.
  name_file ext fs a file. rename H into Hinv. run.
  destruct (sourceFilenames (self st) !! filename file) as [f|] eqn:Es;
    [exact Hinv|].
  destruct (targetFilenames (self st) !! newName file) as [f2|] eqn:Et;
    [exact Hinv|].
  assert (Hkeep : forall g, g ∈ files (self st) ->
            is_Some (<[filename file := file]> (sourceFilenames (self st))
                     !! filename g)).
  { intros g Hg. destruct (decide (filename file = filename g)) as [->|Hne].
    - rewrite lookup_insert_eq. eauto.
    - rewrite lookup_insert_ne by exact Hne. apply Hinv, Hg. }
  destruct (isNone (text file) && negb (fs_exists fs (filename file))).
  - destruct (isExcluded ext glob_matches file _) as [[|]|e]; simpl;
      intros g Hg; apply Hkeep, Hg.
  - simpl. intros g Hg. simpl in Hg.
    apply elem_of_app in Hg as [Hg|Hg]; [apply Hkeep, Hg|].
    apply list_elem_of_singleton in Hg. subst g.
    cbn. rewrite lookup_insert_eq. eauto.
Qed.

Lemma count_source_unrecorded (p : Package) (src : string) :
  sources_recorded p ->
  sourceFilenames p !! src = None ->
  count_source src (files p) = 0.
Proof.
  intros Hinv Hnone. unfold count_source.
  assert (H : forall f, f ∈ files p -> String.eqb (filename f) src = false).
  { intros f Hf. destruct (String.eqb (filename f) src) eqn:E; [|reflexivity].
    apply String.eqb_eq in E. specialize (Hinv f Hf). rewrite E, Hnone in Hinv.
    destruct Hinv as [x Hx]. discriminate. }
  induction (files p) as [|g l IH]; [reflexivity|].
  simpl. rewrite (H g) by left. apply IH.
  intros f Hf. apply H. right. exact Hf.
Qed.

(** C2, as the code has it: when the first of two [addFile] calls for
    one source file name is accepted (the source is not recorded yet,
    the target name is free, and the file exists or has inline text),
    the package holds exactly one [PackFile] of that source after both
    calls, and the second call changes nothing and logs nothing. *)
Theorem addFile_twice (ext : Extensions) (fs : FileSystem)
    (glob_matches : GlobPattern -> string -> bool)
    (a a' : PackFileArgs) (st : PState) :
  let file := PackFile_init ext fs a in
  sources_recorded (self st) ->
  filename (PackFile_init ext fs a') = filename file ->
  sourceFilenames (self st) !! filename file = None ->
  targetFilenames (self st) !! newName file = None ->
  isNone (text file) && negb (fs_exists fs (filename file)) = false ->
  let st1 := fst (addFile ext fs glob_matches a st) in
  snd (addFile ext fs glob_matches a st) = Ok tt /\
  files (self st1) = (files (self st) ++ [file])%list /\
  addFile ext fs glob_matches a' st1 = (st1, Ok tt) /\
  count_source (filename file)
    (files (self (fst (addFile ext fs glob_matches a' st1)))) = 1.
Proof.
  cbv zeta. intros Hinv Hsame Hs Ht Hex.
  assert (Hfirst :
    addFile ext fs glob_matches a st
    = (mkPState
         (set_targetFilenames
            (<[newName (PackFile_init ext fs a) := PackFile_init ext fs a]>
               (targetFilenames (self st)))
            (set_files (files (self st) ++ [PackFile_init ext fs a])
               (set_sourceFilenames
                  (<[filename (PackFile_init ext fs a) := PackFile_init ext fs a]>
                     (sourceFilenames (self st))) (self st))))
         (notify st) (disk st), Ok tt)).
  { clear Hsame. name_file ext fs a file. run. rewrite Hs, Ht. run.
    rewrite Hex. reflexivity. }
  assert (Hsecond :
    addFile ext fs glob_matches a' (fst (addFile ext fs glob_matches a st))
    = (fst (addFile ext fs glob_matches a st), Ok tt)).
  { apply addFile_known_source. rewrite Hfirst, Hsame. cbn.
    rewrite lookup_insert_eq. eauto. }
  rewrite Hsecond. rewrite Hfirst. cbn -[PackFile_init count_source].
  repeat split.
  pose proof (count_source_unrecorded _ _ Hinv Hs) as Hc.
  unfold count_source in *. rewrite List.filter_app, length_app, Hc.
  cbn -[PackFile_init]. rewrite String.eqb_refl. reflexivity.
Qed.

(** A file that is on disk, added twice under two target names: one
    [PackFile], under the first name. *)
Lemma addFile_twice_witness :
  let fs := sample_fs ["doc/readme.txt"] in
  let a := file_args "doc/readme.txt" (Some "readme.txt") true in
  let a' := file_args "doc/readme.txt" (Some "copy.txt") true in
  let st1 :=
    fst (addFile linux_extensions fs sample_glob_matches a
                 (fresh (Package_init "docs"))) in
  addFile linux_extensions fs sample_glob_matches a' st1 = (st1, Ok tt) /\
  count_source "doc/readme.txt"
    (files (self (fst (addFile linux_extensions fs sample_glob_matches a' st1))))
  = 1.
Proof.
  cbv zeta.
  pose proof (addFile_twice linux_extensions (sample_fs ["doc/readme.txt"])
                sample_glob_matches
                (file_args "doc/readme.txt" (Some "readme.txt") true)
                (file_args "doc/readme.txt" (Some "copy.txt") true)
                (fresh (Package_init "docs"))) as H.
  cbv zeta in H.
  destruct H as (_ & _ & Hnoop & Hcount).
  - apply sources_recorded_init.
  - reflexivity.
  - reflexivity.
  - reflexivity.
  - reflexivity.
  - split; [exact Hnoop | exact Hcount].
Defined.

(** C2 as stated fails for a source file that is not on disk and has
    no inline text: both calls return normally, and the package holds
    no [PackFile] of that source, not one. *)
Lemma addFile_twice_missing_file :
  let fs := sample_fs [] in
  let a := file_args "doc/missing.txt" None true in
  let st1 :=
    fst (addFile linux_extensions fs sample_glob_matches a
                 (fresh (Package_init "docs"))) in
  let st2 := fst (addFile linux_extensions fs sample_glob_matches a st1) in
  snd (addFile linux_extensions fs sample_glob_matches a
         (fresh (Package_init "docs"))) = Ok tt /\
  snd (addFile linux_extensions fs sample_glob_matches a st1) = Ok tt /\
  files (self st2) = [] /\
  count_source (filename (PackFile_init linux_extensions fs a))
               (files (self st2)) <> 1.
Proof. cbv zeta. repeat split; vm_compute; discriminate. Qed.

(** *** The scan of a search directory *)

(** The scan answers with the first valid candidate in the order of the
    file list, whatever the versions are: the sort has no part in the
    answer. *)
Lemma scanPackageDir_file_order
    (glob_glob : string -> list string)
    (readPackageImportDescFile : string -> option ImportPackage)
    (rootDir packageName : string) (platform version host : option string)
    (requires : list ImportPackage) (found : option ImportPackage) :
  scanPackageDir glob_glob readPackageImportDescFile rootDir packageName
                 platform version host requires = Ok found ->
  exists filelist,
    found = mjoin (List.find
              (fun c => match c with
                        | Some package => packageIsValid package requires
                        | None => false
                        end)
              (map readPackageImportDescFile filelist)).
Proof.
  unfold scanPackageDir.
  destruct (match version with
            | Some v => _
            | None => _
            end) as [packageDir basename].
  destruct (match platform with
            | Some pl => _
            | None => _
            end) as [packageDir' basename'].
  match goal with
  | |- context [map readPackageImportDescFile ?l] => set (filelist := l)
  end.
  destruct (sortImportPackages _); [|discriminate].
  intros [= <-]. exists filelist. reflexivity.
Qed.

(** C4 on the sample repository, where the file system lists version
    1.0 of [tools] before version 2.0: the scan for [tools] without a
    version answers with version 1.0, although 2.0 is the greater
    version tuple and is valid as well. *)
Theorem scanPackageDir_not_by_version :
  scanPackageDir repo_glob repo_read "/repo" "tools" None None None []
  = Ok (Some (imported "tools" "1.0" [])) /\
  tuple_gt (makeVersionTuple "2.0") (makeVersionTuple "1.0") = true /\
  packageIsValid (imported "tools" "2.0" []) [] = true.
Proof. repeat split; vm_compute; reflexivity. Qed.

(** *** The require directive *)

(** C10: a [require] with a [host] keyword raises before any package
    is looked up, and the packager is left as it was: inside a package
    definition the keyword loop raises [KeyError] for the key
    [version], with or without a [version] keyword; outside of one the
    guard before the loop raises. *)
Theorem do_require_host_keyword
    (getPackageVersionString getPackageHostUrl packager_platform : string)
    (installSearch : list string)
    (glob_glob : string -> list string)
    (readPackageImportDescFile : string -> option ImportPackage)
    (findPackageOnHost :
       string -> option string -> option string -> option string ->
       option ImportPackage)
    (str_package : ImportPackage -> string)
    (args : list string) (kw : gmap string (option string)) (w : Packager) :
  is_Some (kw !! "host") ->
  do_require getPackageVersionString getPackageHostUrl packager_platform
             installSearch glob_glob readPackageImportDescFile
             findPackageOnHost str_package args kw w
  = (w, Raise (match currentPackage w with
               | Some _ => KeyError "version"
               | None => OutsideOfPackageError
               end)).
Proof.
  intros Hhost. unfold do_require, bind, get, raise.
  destruct (currentPackage w) as [p|]; [|reflexivity].
  destruct (kw !! "version") as [v|] eqn:Ev.
  - rewrite bool_decide_eq_true_2 by eauto.
    unfold py_del at 1. rewrite Ev. unfold ret.
    rewrite bool_decide_eq_true_2
      by (rewrite lookup_delete_ne by discriminate; exact Hhost).
    unfold py_del. rewrite lookup_delete_eq. reflexivity.
  - rewrite bool_decide_eq_false_2 by (intros [x Hx]; discriminate).
    unfold ret. rewrite bool_decide_eq_true_2 by exact Hhost.
    unfold py_del. rewrite Ev. reflexivity.
Qed.

(** [require('tools', host = ...)] and [require('tools', version =
    '2.0', host = ...)] inside a package definition: [KeyError] both
    times, and nothing required. *)
Lemma do_require_host_keyword_witness :
  let w := defining (Package_init "app") in
  sample_require ["tools"] {["host" := Some "http://other.example/"]} w
  = (w, Raise (KeyError "version")) /\
  sample_require ["tools"]
    (<["version" := Some "2.0"]> {["host" := Some "http://other.example/"]}) w
  = (w, Raise (KeyError "version")).
Proof.
  cbv zeta. unfold sample_require. split.
  - rewrite do_require_host_keyword; [reflexivity|].
    rewrite lookup_singleton_eq. eauto.
  - rewrite do_require_host_keyword; [reflexivity|].
    rewrite lookup_insert_ne by discriminate.
    rewrite lookup_singleton_eq. eauto.
Defined.

(** C10 as stated fails outside of a package definition:
    [require('tools', host = ...)] with no package open is stopped by
    the guard before the keyword loop, and the exception is
    [OutsideOfPackageError], not [KeyError]. *)
Lemma do_require_host_keyword_outside :
  sample_require ["tools"] {["host" := Some "http://other.example/"]} idle
  = (idle, Raise OutsideOfPackageError) /\
  forall key, OutsideOfPackageError <> KeyError key.
Proof. split; [reflexivity|discriminate]. Qed.

(** A loop whose body only assigns attributes of the package. *)
Lemma forM_on_self {A} (l : list A) (f : A -> Package -> Package) (st : PState) :
  forM_ l (fun x => on_self (f x)) st
  = (mkPState (fold_left (fun p x => f x p) l (self st)) (notify st) (disk st),
     Ok tt).
Proof.
  revert st. induction l as [|x l IH]; intros st; simpl.
  - destruct st; reflexivity.
  - unfold bind, on_self, modify at 1. simpl. rewrite IH. reflexivity.
Qed.

Lemma fold_left_keeps_requires {A} (l : list A) (f : A -> Package -> Package)
    (p : Package) :
  (forall x q, requires (f x q) = requires q) ->
  requires (fold_left (fun q x => f x q) l p) = requires p.
Proof.
  intros Hf. revert p. induction l as [|x l IH]; intros p; simpl;
    [reflexivity|]. rewrite IH. apply Hf.
Qed.

(** One round of the loop of [Package.requirePackage]. *)
Lemma Package_requirePackage_round_eq (p2 : ImportPackage) (st : PState) :
  Package_requirePackage_round p2 st
  = if bool_decide (p2 ∈ requires (self st)) then (st, Ok tt)
    else
      (mkPState
         (fold_left
            (fun p m => set_skipModules (<[fst m := snd m]> (skipModules p)) p)
            (imp_moduleNames p2)
            (fold_left
               (fun p fname =>
                  set_skipFilenames (<[fname := true]> (skipFilenames p)) p)
               (imp_targetFilenames p2)
               (set_requires (requires (self st) ++ [p2]) (self st))))
         (notify st) (disk st), Ok tt).
Proof.
  unfold Package_requirePackage_round, bind at 1, get.
  destruct (bool_decide (p2 ∈ requires (self st))); [reflexivity|].
  unfold bind, on_self at 1, modify at 1.
  rewrite (forM_on_self (imp_targetFilenames p2)
             (fun fname p =>
                set_skipFilenames (<[fname := true]> (skipFilenames p)) p)).
  rewrite (forM_on_self (imp_moduleNames p2)
             (fun m p => set_skipModules (<[fst m := snd m]> (skipModules p)) p)).
  reflexivity.
Qed.

Lemma Package_requirePackage_round_spec (p2 : ImportPackage) (st : PState) :
  snd (Package_requirePackage_round p2 st) = Ok tt /\
  notify (fst (Package_requirePackage_round p2 st)) = notify st /\
  disk (fst (Package_requirePackage_round p2 st)) = disk st /\
  p2 ∈ requires (self (fst (Package_requirePackage_round p2 st))) /\
  (forall x, x ∈ requires (self st) ->
             x ∈ requires (self (fst (Package_requirePackage_round p2 st)))).
Proof.
  rewrite Package_requirePackage_round_eq.
  destruct (bool_decide (p2 ∈ requires (self st))) eqn:E.
  - apply bool_decide_eq_true in E. cbn. auto.
  - cbn [fst snd self notify disk].
    rewrite !fold_left_keeps_requires by reflexivity.
    cbn [requires set_requires self].
    repeat split.
    + apply elem_of_app. right. apply list_elem_of_singleton. reflexivity.
    + intros x Hx. apply elem_of_app. left. exact Hx.
Qed.

(** [Package.requirePackage] never raises, logs nothing, and leaves the
    package among the requirements. *)
Lemma Package_requirePackage_spec (package : ImportPackage) (st : PState) :
  snd (Package_requirePackage package st) = Ok tt /\
  notify (fst (Package_requirePackage package st)) = notify st /\
  disk (fst (Package_requirePackage package st)) = disk st /\
  package ∈ requires (self (fst (Package_requirePackage package st))).
Proof.
  unfold Package_requirePackage.
  assert (H : forall l st,
    snd (forM_ l Package_requirePackage_round st) = Ok tt /\
    notify (fst (forM_ l Package_requirePackage_round st)) = notify st /\
    disk (fst (forM_ l Package_requirePackage_round st)) = disk st /\
    (forall x, x ∈ l \/ x ∈ requires (self st) ->
       x ∈ requires (self (fst (forM_ l Package_requirePackage_round st))))).
  { induction l as [|p2 l IH]; intros st0.
    - simpl. repeat split. intros x [Hx|Hx]; [inversion Hx|exact Hx].
    - pose proof (Package_requirePackage_round_spec p2 st0)
        as (Hok & Hlog & Hdisk & Hin & Hkeep).
      cbn [forM_]. unfold bind.
      destruct (Package_requirePackage_round p2 st0) as [st1 r1].
      cbn [fst snd] in Hok, Hlog, Hdisk, Hin, Hkeep. subst r1.
      destruct (IH st1) as (IHok & IHlog & IHdisk & IHin).
      repeat split; [exact IHok|congruence|congruence|].
      intros x [Hx|Hx].
      + apply elem_of_cons in Hx as [->|Hx]; apply IHin; auto.
      + apply IHin. right. apply Hkeep, Hx. }
  destruct (H (imp_requires package ++ [package])%list st)
    as (Hok & Hlog & Hdisk & Hin).
  repeat split; [exact Hok|exact Hlog|exact Hdisk|].
  apply Hin. left. apply elem_of_app. right.
  apply list_elem_of_singleton. reflexivity.
Qed.

Section RequireProperties.

Context (getPackageVersionString getPackageHostUrl packager_platform : string)
        (installSearch : list string)
        (glob_glob : string -> list string)
        (readPackageImportDescFile : string -> option ImportPackage)
        (findPackageOnHost :
           string -> option string -> option string -> option string ->
           option ImportPackage)
        (str_package : ImportPackage -> string).

Local Notation findPackage' :=
  (findPackage packager_platform installSearch glob_glob
               readPackageImportDescFile findPackageOnHost).
Local Notation requirePackage' :=
  (requirePackage getPackageVersionString getPackageHostUrl str_package).
Local Notation do_require_one' :=
  (do_require_one getPackageVersionString getPackageHostUrl packager_platform
                  installSearch glob_glob readPackageImportDescFile
                  findPackageOnHost str_package).
Local Notation do_require' :=
  (do_require getPackageVersionString getPackageHostUrl packager_platform
              installSearch glob_glob readPackageImportDescFile
              findPackageOnHost str_package).

(** [findPackage] changes the table of known packages only. *)
Lemma findPackage_keeps (name : string) (pl v h : option string)
    (reqs : list ImportPackage) (w : Packager) :
  currentPackage (fst (findPackage' name pl v h reqs w)) = currentPackage w /\
  pk_notify (fst (findPackage' name pl v h reqs w)) = pk_notify w.
Proof.
  unfold findPackage, bind, get, lift, ret, modify.
  destruct (packages w !! _) as [known|]; [split; reflexivity|].
  destruct (findPackage_search _ _ _ _ _ _ _ _) as [[package|]|e];
    cbn [fst snd].
  - simpl. split; reflexivity.
  - destruct (findPackageOnHost _ _ _ _); simpl; split; reflexivity.
  - split; reflexivity.
Qed.

(** Inside a package definition [Packager.requirePackage] never raises:
    the package ends up among the requirements, and a [panda3d] of
    another version than the runtime costs one warning. *)
Lemma requirePackage_spec (package : ImportPackage) (w : Packager) (p : Package) :
  currentPackage w = Some p ->
  snd (requirePackage' package w) = Ok tt /\
  (exists p', currentPackage (fst (requirePackage' package w)) = Some p' /\
              package ∈ requires p') /\
  (imp_packageName package = "panda3d" ->
   imp_version package <> Some getPackageVersionString ->
   pk_notify (fst (requirePackage' package w))
   = (pk_notify w ++
      [Warning
         ("Requiring panda3d version " +:+ str_package package +:+
          ", which does not match the current build of Panda, which is version "
          +:+ getPackageVersionString +:+ ".")])%list).
Proof.
  intros Hcur.
  pose proof (Package_requirePackage_spec package) as Hspec.
  assert (Heq : exists st,
    requirePackage' package w
    = (mkPackager (Some (self st)) (packages w) (notify st) (disk st), Ok tt) /\
    package ∈ requires (self st) /\
    (imp_packageName package = "panda3d" ->
     imp_version package <> Some getPackageVersionString ->
     notify st
     = (pk_notify w ++
        [Warning
           ("Requiring panda3d version " +:+ str_package package +:+
            ", which does not match the current build of Panda, which is version "
            +:+ getPackageVersionString +:+ ".")])%list)).
  { unfold requirePackage, bind, get. rewrite Hcur.
    destruct w as [cur pk log dsk]. simpl in Hcur. subst cur.
    destruct (String.eqb (imp_packageName package) "panda3d") eqn:En;
      [destruct (bool_decide (imp_version package = Some getPackageVersionString))
         eqn:Ev;
       [destruct (bool_decide (imp_host package = Some getPackageHostUrl))|]|];
      cbn [negb]; unfold pk_warning, ret, modify, onCurrent;
      cbn [currentPackage pk_notify pk_disk packages];
      match goal with
      | |- context [Package_requirePackage package ?s] =>
          destruct (Hspec s) as (Hok & Hn & Hd & Hin);
          destruct (Package_requirePackage package s) as [st r];
          cbn [fst snd] in *; subst r; exists st;
          split; [reflexivity|]; split; [exact Hin|]
      end.
    - apply bool_decide_eq_true in Ev. intros _ Hne. contradiction.
    - apply bool_decide_eq_true in Ev. intros _ Hne. contradiction.
    - intros _ _. exact Hn.
    - apply String.eqb_neq in En. intros Hname. contradiction. }
  destruct Heq as (st & -> & Hin & Hlog). cbn [fst snd currentPackage pk_notify].
  repeat split.
  - exists (self st). split; [reflexivity|exact Hin].
  - exact Hlog.
Qed.

(** A [require] of [panda3d] with at most a [version] keyword comes
    down to one lookup and, when it succeeds, one [requirePackage]. *)
Lemma do_require_panda3d_eq (ov : option string) (w : Packager) (p : Package) :
  currentPackage w = Some p ->
  do_require' ["panda3d"]
    (match ov with
     | Some v => {["version" := Some v]}
     | None => ∅
     end) w
  = match findPackage' "panda3d" None
            (match ov with
             | Some v => Some v
             | None => Some getPackageVersionString
             end)
            (Some getPackageHostUrl) (requires p) w with
    | (w1, Ok (Some package)) =>
        (fst (requirePackage' package w1),
         match snd (requirePackage' package w1) with
         | Ok _ => Ok tt
         | Raise e => Raise e
         end)
    | (w1, Ok None) =>
        (w1, Raise (PackagerError
                      ("Unknown package panda3d, version " +:+ dquote +:+
                       str_option ov +:+ dquote)))
    | (w1, Raise e) => (w1, Raise e)
    end.
Proof.
  intros Hcur. unfold do_require, bind at 1, get. rewrite Hcur.
  assert (Hkw :
    forall k : gmap string (option string) -> M Packager unit,
    bind (if bool_decide (is_Some ((match ov with
                                    | Some v => {["version" := Some v]}
                                    | None => ∅
                                    end : gmap string (option string))
                                   !! "version"))
          then py_del "version" (match ov with
                                 | Some v => {["version" := Some v]}
                                 | None => ∅
                                 end)
          else ret (match ov with
                    | Some v => {["version" := Some v]}
                    | None => ∅
                    end)) k w
    = k ∅ w).
  { intros k. destruct ov as [v|].
    - rewrite bool_decide_eq_true_2 by (rewrite lookup_singleton_eq; eauto).
      unfold bind, py_del. rewrite lookup_singleton_eq. unfold ret.
      rewrite delete_singleton_eq. reflexivity.
    - rewrite bool_decide_eq_false_2
        by (rewrite lookup_empty; intros [x Hx]; discriminate).
      reflexivity. }
  rewrite Hkw. clear Hkw.
  rewrite lookup_empty.
  rewrite bool_decide_eq_false_2 by (intros [x Hx]; discriminate).
  unfold bind at 1, ret at 1.
  rewrite bool_decide_eq_true_2 by reflexivity. cbn [negb forM_].
  assert (Hv : mjoin ((match ov with
                       | Some v => {["version" := Some v]}
                       | None => ∅
                       end : gmap string (option string)) !! "version") = ov).
  { destruct ov as [v|]; [rewrite lookup_singleton_eq|rewrite lookup_empty];
      reflexivity. }
  assert (Hh : mjoin ((match ov with
                       | Some v => {["version" := Some v]}
                       | None => ∅
                       end : gmap string (option string)) !! "host") = None).
  { destruct ov as [v|];
      [rewrite lookup_singleton_ne by discriminate|rewrite lookup_empty];
      reflexivity. }
  rewrite Hv, Hh. clear Hv Hh.
  unfold do_require_one. cbn [String.eqb Ascii.eqb Bool.eqb andb isNone].
  unfold bind, get, ret, raise. rewrite Hcur.
  replace (if isNone ov then Some getPackageVersionString else ov)
    with (match ov with
          | Some v => Some v
          | None => Some getPackageVersionString
          end) by (destruct ov; reflexivity).
  destruct (findPackage' "panda3d" None _ _ _ w) as [w1 [[package|]|e]];
    try reflexivity.
  destruct (requirePackage' package w1) as [w2 [[]|e]]; reflexivity.
Qed.

(** C5, as the code has it: a [require] of [panda3d] looks the package
    up under the version asked for, or under the version string of the
    runtime when none is given. When the lookup finds a package the
    directive returns normally with the package among the requirements,
    and a version other than that of the runtime is only logged as a
    warning; the directive raises [PackagerError] when the lookup finds
    nothing. *)
Theorem do_require_panda3d (ov : option string) (w : Packager) (p : Package) :
  currentPackage w = Some p ->
  let kw : gmap string (option string) :=
    match ov with
    | Some v => {["version" := Some v]}
    | None => ∅
    end in
  let pversion :=
    match ov with
    | Some v => Some v
    | None => Some getPackageVersionString
    end in
  let looked :=
    findPackage' "panda3d" None pversion (Some getPackageHostUrl)
                 (requires p) w in
  let r := do_require' ["panda3d"] kw w in
  match snd looked with
  | Ok (Some package) =>
      snd r = Ok tt /\
      (exists p', currentPackage (fst r) = Some p' /\ package ∈ requires p') /\
      (imp_packageName package = "panda3d" ->
       imp_version package <> Some getPackageVersionString ->
       pk_notify (fst r)
       = (pk_notify w ++
          [Warning
             ("Requiring panda3d version " +:+ str_package package +:+
              ", which does not match the current build of Panda, which is version "
              +:+ getPackageVersionString +:+ ".")])%list)
  | Ok None =>
      r = (fst looked,
           Raise (PackagerError
                    ("Unknown package panda3d, version " +:+ dquote +:+
                     str_option ov +:+ dquote)))
  | Raise e => r = (fst looked, Raise e)
  end.
Proof.
  intros Hcur. cbv zeta. rewrite (do_require_panda3d_eq ov w p Hcur).
  pose proof (findPackage_keeps "panda3d" None
                (match ov with
                 | Some v => Some v
                 | None => Some getPackageVersionString
                 end) (Some getPackageHostUrl) (requires p) w) as (Hc & Hn).
  destruct (findPackage' "panda3d" None _ _ _ w) as [w1 [[package|]|e]];
    cbn [fst snd] in *; try reflexivity.
  rewrite Hcur in Hc.
  destruct (requirePackage_spec package w1 p Hc) as (Hok & Hin & Hlog).
  rewrite Hok. rewrite Hn in Hlog. auto.
Qed.

End RequireProperties.

(** A [require('panda3d')] without a version, by a runtime of version
    1.0.1, against a repository that only has version 1.0.0: the lookup
    is made for version 1.0.1 and finds nothing. *)
Lemma do_require_panda3d_witness :
  let w := defining (Package_init "app") in
  sample_require ["panda3d"] ∅ w
  = (w, Raise (PackagerError
                 ("Unknown package panda3d, version " +:+ dquote +:+ "None"
                  +:+ dquote))).
Proof.
  cbv zeta.
  pose proof (do_require_panda3d "1.0.1" "http://runtime.example/"
                "linux_amd64" ["/repo"] repo_glob repo_read no_host
                (fun p => imp_packageName p) None
                (defining (Package_init "app")) (Package_init "app") eq_refl)
    as H.
  cbv beta iota zeta in H.
  assert (E : findPackage "linux_amd64" ["/repo"] repo_glob repo_read no_host
                "panda3d" None (Some "1.0.1") (Some "http://runtime.example/")
                (requires (Package_init "app")) (defining (Package_init "app"))
              = (defining (Package_init "app"), Ok None))
    by (vm_compute; reflexivity).
  rewrite E in H. cbn [fst snd] in H.
  unfold sample_require. rewrite H. reflexivity.
Defined.

(** C5 as stated fails: a runtime of version 1.0.1 is asked for
    [panda3d] version 1.0.0, which the repository has. The directive
    returns normally, version 1.0.0 is required, and one warning is
    logged. *)
Lemma do_require_panda3d_other_version :
  let w := defining (Package_init "app") in
  let r := sample_require ["panda3d"] {["version" := Some "1.0.0"]} w in
  snd r = Ok tt /\
  (requires <$> currentPackage (fst r))
  = Some [imported "panda3d" "1.0.0" []] /\
  pk_notify (fst r)
  = [Warning
       "Requiring panda3d version panda3d, which does not match the current build of Panda, which is version 1.0.1."].
Proof. cbv zeta. repeat split; vm_compute; reflexivity. Qed.

(** *** The package descriptor *)

Lemma assoc_get_set_eq (k v : string) (l : list (string * string)) :
  assoc_get k (assoc_set k v l) = Some v.
Proof.
  induction l as [|[k' v'] l IH]; simpl.
  - rewrite String.eqb_refl. reflexivity.
  - destruct (String.eqb k' k) eqn:E; simpl.
    + rewrite String.eqb_refl. reflexivity.
    + rewrite E. exact IH.
Qed.

Lemma assoc_get_set_ne (k k' v : string) (l : list (string * string)) :
  k <> k' -> assoc_get k' (assoc_set k v l) = assoc_get k' l.
Proof.
  intros Hne. induction l as [|[k0 v0] l IH]; simpl.
  - apply String.eqb_neq in Hne. rewrite Hne. reflexivity.
  - destruct (String.eqb k0 k) eqn:E; simpl.
    + apply String.eqb_eq in E. subst k0.
      apply String.eqb_neq in Hne. rewrite Hne. reflexivity.
    + rewrite IH. reflexivity.
Qed.

Lemma Attribute_SetAttribute_eq (k v : string) (x : XmlElement) :
  Attribute (SetAttribute k v x) k = Some v.
Proof. apply assoc_get_set_eq. Qed.

Lemma Attribute_SetAttribute_ne (k k' v : string) (x : XmlElement) :
  k <> k' -> Attribute (SetAttribute k v x) k' = Attribute x k'.
Proof. apply assoc_get_set_ne. Qed.

(** Appending children leaves the tag and the attributes alone. *)
Lemma fold_InsertEndChild {A} (g : A -> XmlElement) (l : list A) (x : XmlElement) :
  fold_left (fun x e => InsertEndChild (g e) x) l x
  = XElem (xtag x) (xattrs x) (xchildren x ++ map g l).
Proof.
  revert x. induction l as [|e l IH]; intros x; simpl.
  - rewrite app_nil_r. destruct x; reflexivity.
  - rewrite IH. simpl. rewrite <- app_assoc. reflexivity.
Qed.

Lemma fold_SetAttribute_tag {A} (f : A -> string * string) (l : list A)
    (x : XmlElement) :
  xtag (fold_left (fun x e => SetAttribute (fst (f e)) (snd (f e)) x) l x)
  = xtag x.
Proof.
  revert x. induction l as [|e l IH]; intros x; simpl; [reflexivity|].
  rewrite IH. reflexivity.
Qed.

Lemma filter_tag_all (t : string) (l : list XmlElement) :
  Forall (fun x => xtag x = t) l ->
  List.filter (fun c => String.eqb (xtag c) t) l = l.
Proof.
  induction 1 as [|x l Hx Hl IH]; simpl; [reflexivity|].
  rewrite Hx, String.eqb_refl, IH. reflexivity.
Qed.

Lemma filter_tag_none (t : string) (l : list XmlElement) :
  Forall (fun x => xtag x <> t) l ->
  List.filter (fun c => String.eqb (xtag c) t) l = [].
Proof.
  induction 1 as [|x l Hx Hl IH]; simpl; [reflexivity|].
  apply String.eqb_neq in Hx. rewrite Hx. exact IH.
Qed.

Lemma insert_by_name_Forall (P : string * XmlElement -> Prop)
    (e : string * XmlElement) (l : list (string * XmlElement)) :
  P e -> Forall P l -> Forall P (insert_by_name e l).
Proof.
  intros He. induction 1 as [|u l Hu Hl IH]; simpl.
  - constructor; [exact He|constructor].
  - destruct (String.ltb (fst u) (fst e) || String.eqb (fst u) (fst e)).
    + constructor; assumption.
    + constructor; [exact He|]. constructor; assumption.
Qed.

(** Sorting the extract records keeps them extract records. *)
Lemma sort_by_name_Forall (P : string * XmlElement -> Prop)
    (l : list (string * XmlElement)) :
  Forall P l -> Forall P (sort_by_name l).
Proof.
  unfold sort_by_name. induction 1 as [|e l He Hl IH]; simpl.
  - constructor.
  - apply insert_by_name_Forall; assumption.
Qed.

Lemma xrequires_of_tag (p : Package) (package : ImportPackage) :
  xtag (xrequires_of p package) = "requires".
Proof.
  unfold xrequires_of.
  destruct (imp_platform package) as [pl|], (imp_version package) as [v|];
    repeat match goal with
           | |- context [if ?b then _ else _] => destruct b
           end; reflexivity.
Qed.

Lemma addConfigs_shape (p : Package) (x : XmlElement) :
  exists extra,
    addConfigs p x = XElem (xtag x) (xattrs x) (xchildren x ++ extra) /\
    Forall (fun c => xtag c <> "patch") extra.
Proof.
  unfold addConfigs. destruct (bool_decide (configs p = ∅)).
  - exists []. rewrite app_nil_r. split; [destruct x; reflexivity|constructor].
  - eexists [_]. split; [reflexivity|]. constructor; [|constructor].
    rewrite (fold_SetAttribute_tag (fun kv => (fst kv, config_text (snd kv)))).
    discriminate.
Qed.

(** The element [writeDescFile] builds: a [package] element without a
    [patch_version] attribute, with the patch version under
    [last_patch_version], and whose children are elements that are not
    patches, then the patches, then the extract records. *)
Lemma written_xpackage_shape (fs : FileSystem)
    (file_size file_timestamp file_hash : string -> string) (p : Package) :
  exists attrs before,
    written_xpackage fs file_size file_timestamp file_hash p
    = XElem "package" attrs
        (before ++ patches p ++ map snd (sort_by_name (extracts p))) /\
    assoc_get "patch_version" attrs = None /\
    assoc_get "last_patch_version" attrs = Some (patchVersion p) /\
    Forall (fun c => xtag c <> "patch") before.
Proof.
  unfold written_xpackage. cbv zeta.
  rewrite (fold_InsertEndChild snd).
  rewrite (fold_InsertEndChild (fun x : XmlElement => x)).
  set (x0 := SetAttribute "last_patch_version" (patchVersion p) _).
  assert (H0 : xtag x0 = "package" /\ xchildren x0 = [] /\
               assoc_get "patch_version" (xattrs x0) = None /\
               assoc_get "last_patch_version" (xattrs x0) = Some (patchVersion p)).
  { subst x0. destruct (truthy (platform p)), (truthy (version p));
      repeat split; try reflexivity; apply assoc_get_set_eq. }
  destruct H0 as (Ht & Hc & Ha1 & Ha2).
  destruct (addConfigs_shape p x0) as (extra & -> & Hextra).
  rewrite Ht, Hc. cbn [app].
  rewrite (fold_InsertEndChild (xrequires_of p)).
  cbn [xtag xattrs xchildren].
  set (reqs := map (xrequires_of p) (requires p)).
  assert (Hreqs : Forall (fun c => xtag c <> "patch") reqs).
  { subst reqs. apply Forall_forall. intros c Hc'.
    apply list_elem_of_fmap in Hc' as (package & -> & _).
    rewrite xrequires_of_tag. discriminate. }
  destruct (fs_exists fs (packageFullpath p +:+ ".base"));
    cbn [InsertEndChild xtag xattrs xchildren];
    rewrite map_id, <- (app_assoc _ (patches p));
    eexists _, _;
    (split; [reflexivity|]);
    (split; [exact Ha1|]); (split; [exact Ha2|]);
    rewrite !Forall_app; repeat split; try assumption;
    (constructor; [cbn; discriminate|constructor]).
Qed.

Section DescriptorProperties.

Context (fs : FileSystem) (installDir : string)
        (file_size file_timestamp file_hash : string -> string).

Local Notation writeDescFile' :=
  (writeDescFile fs installDir file_size file_timestamp file_hash).

(** [writeDescFile] sorts [extracts] and saves the declaration and the
    [package] element under the descriptor path. *)
Lemma writeDescFile_eq (st : PState) :
  writeDescFile' st
  = (mkPState (set_extracts (sort_by_name (extracts (self st))) (self st))
              (notify st)
              (<[Filename.join installDir (packageDesc (self st)) :=
                   [XDeclaration "1.0" "utf-8" EmptyString;
                    XElement (written_xpackage fs file_size file_timestamp
                                               file_hash (self st))]]>
                 (disk st)),
     Ok tt).
Proof. reflexivity. Qed.

(** What [readDescFile] does when the descriptor loads and has a
    [package] element. *)
Lemma readDescFile_loaded (st : PState) (doc : list XmlNode) (x : XmlElement) :
  disk st !! Filename.join installDir (packageDesc (self st)) = Some doc ->
  FirstChildElement "package" doc = Some x ->
  snd (readDescFile installDir st) = Ok tt /\
  patchVersion (self (fst (readDescFile installDir st)))
  = match (if truthy (Attribute x "patch_version")
           then Attribute x "patch_version"
           else Attribute x "last_patch_version") with
    | Some v => if String.eqb v EmptyString then "1" else v
    | None => "1"
    end /\
  patches (self (fst (readDescFile installDir st))) = ChildElements "patch" x.
Proof.
  intros Hdoc Hx.
  destruct (readDescFile installDir st) as [st' r] eqn:E.
  unfold readDescFile, bind, on_self, modify, get, ret in E.
  cbn [self disk notify packageDesc set_patches set_patchVersion] in E.
  rewrite Hdoc, Hx in E.
  destruct (if truthy (Attribute x "patch_version")
            then Attribute x "patch_version"
            else Attribute x "last_patch_version") as [v|];
    [destruct (String.eqb v EmptyString)|];
    cbn in E; injection E as <- <-; repeat split.
Qed.

(** [readDescFile] always leaves a patch state that is well formed. *)
Lemma readDescFile_patch_state_ok (st : PState) :
  patch_state_ok (self (fst (readDescFile installDir st))).
Proof.
  destruct (readDescFile installDir st) as [st' r] eqn:E.
  unfold readDescFile, bind, on_self, modify, get, ret in E.
  cbn [self disk notify packageDesc set_patches set_patchVersion] in E.
  destruct (disk st !! _) as [doc|];
    [destruct (FirstChildElement "package" doc) as [x|]|].
  - assert (Hp : Forall (fun c => xtag c = "patch") (ChildElements "patch" x)).
    { unfold ChildElements. apply Forall_forall. intros c Hc.
      apply list_elem_of_In, List.filter_In in Hc as [_ Hc].
      apply String.eqb_eq in Hc. exact Hc. }
    destruct (if truthy (Attribute x "patch_version")
              then Attribute x "patch_version"
              else Attribute x "last_patch_version") as [v|];
      [destruct (String.eqb v EmptyString) eqn:Ev|];
      cbn in E; injection E as <- <-; split; cbn; try discriminate;
      try exact Hp.
    apply String.eqb_neq in Ev. exact Ev.
  - cbn in E. injection E as <- <-. split; cbn; [discriminate|constructor].
  - cbn in E. injection E as <- <-. split; cbn; [discriminate|constructor].
Qed.

(** [addComponent] appends extract records only. *)
Lemma addComponent_extracts_ok (file : PackFile) (st : PState) :
  extracts_ok (self st) ->
  extracts_ok (self (fst (addComponent file_size file_timestamp file_hash
                                       file st))).
Proof.
  intros Hok. unfold addComponent, bind, get, multifile_call, on_self, modify, ret.
  destruct (truthy (text file)), (extract file); cbn; try exact Hok;
    apply Forall_app; (split; [exact Hok|]); repeat constructor.
Qed.

(** C8: a descriptor written by [writeDescFile] from a patch version
    and a list of patches as [readDescFile] leaves them, with extract
    records as [addComponent] leaves them, is read back by
    [readDescFile] from the same path by any package object, whatever
    patch version and patches that object held: the document loads,
    its [package] element is found, and the reader ends with the patch
    version and the list of patches that were written, in the same
    order. Nothing but the disk is shared between the writer and the
    reader. *)
Theorem writeDescFile_readDescFile (st : PState) (reader : Package)
    (log : list LogRecord) :
  patch_state_ok (self st) ->
  extracts_ok (self st) ->
  packageDesc reader = packageDesc (self st) ->
  let written := disk (fst (writeDescFile' st)) in
  let r := readDescFile installDir (mkPState reader log written) in
  snd (writeDescFile' st) = Ok tt /\
  snd r = Ok tt /\
  (exists doc x,
     written !! Filename.join installDir (packageDesc reader) = Some doc /\
     FirstChildElement "package" doc = Some x) /\
  patchVersion (self (fst r)) = patchVersion (self st) /\
  patches (self (fst r)) = patches (self st).
Proof.
  intros [Hv Hp] He Hpath. cbv zeta. rewrite writeDescFile_eq.
  cbn [fst snd disk].
  set (written := <[_ := _]> (disk st)).
  set (st1 := mkPState reader log written).
  destruct (written_xpackage_shape fs file_size file_timestamp file_hash (self st))
    as (attrs & before & Hx & Ha1 & Ha2 & Hb).
  assert (Hdoc : disk st1 !! Filename.join installDir (packageDesc (self st1))
                 = Some [XDeclaration "1.0" "utf-8" EmptyString;
                         XElement (written_xpackage fs file_size file_timestamp
                                                    file_hash (self st))]).
  { subst st1 written. cbn [disk self]. rewrite Hpath.
    apply lookup_insert_eq. }
  assert (Hfirst : FirstChildElement "package"
                     [XDeclaration "1.0" "utf-8" EmptyString;
                      XElement (written_xpackage fs file_size file_timestamp
                                                 file_hash (self st))]
                   = Some (written_xpackage fs file_size file_timestamp
                                            file_hash (self st))).
  { rewrite Hx. reflexivity. }
  destruct (readDescFile_loaded st1 _ _ Hdoc Hfirst) as (Hok & Hpv & Hpatches).
  split; [reflexivity|]. split; [exact Hok|].
  split; [eauto|].
  rewrite Hpv, Hpatches, Hx. unfold Attribute, ChildElements.
  cbn [xattrs xchildren]. rewrite Ha1, Ha2. cbn [truthy].
  split.
  - apply String.eqb_neq in Hv. rewrite Hv. reflexivity.
  - rewrite !List.filter_app.
    rewrite (filter_tag_none "patch" before Hb).
    rewrite (filter_tag_all "patch" (patches (self st)) Hp).
    rewrite (filter_tag_none "patch").
    + rewrite app_nil_r. reflexivity.
    + apply Forall_forall. intros c Hc.
      apply list_elem_of_fmap in Hc as (e & -> & Hin).
      pose proof (sort_by_name_Forall _ _ He) as Hs.
      rewrite Forall_forall in Hs. rewrite (Hs e Hin). discriminate.
Qed.

End DescriptorProperties.

(** *** The main module of an application *)

Lemma eq_but_freezer_refl (st : PState) : eq_but_freezer st st.
Proof. repeat split. Qed.

Lemma eq_but_freezer_trans (a b c : PState) :
  eq_but_freezer a b -> eq_but_freezer b c -> eq_but_freezer a c.
Proof. intros (H1 & H2 & H3) (K1 & K2 & K3). repeat split; congruence. Qed.

Lemma freezer_only_ret {A} (a : A) : freezer_only (ret a).
Proof. intros st. apply eq_but_freezer_refl. Qed.

Lemma freezer_only_raise {A} (e : PyExn) : freezer_only (@raise PState A e).
Proof. intros st. apply eq_but_freezer_refl. Qed.

Lemma freezer_only_lift {A} (r : Result A) : freezer_only (lift r).
Proof. intros st. apply eq_but_freezer_refl. Qed.

Lemma freezer_only_get : freezer_only get.
Proof. intros st. apply eq_but_freezer_refl. Qed.

Lemma freezer_only_call (c : FreezerCall) : freezer_only (freezer_call c).
Proof. intros st. repeat split. Qed.

Lemma freezer_only_bind {A B} (m : M PState A) (k : A -> M PState B) :
  freezer_only m -> (forall a, freezer_only (k a)) -> freezer_only (bind m k).
Proof.
  intros Hm Hk st. unfold bind. specialize (Hm st).
  destruct (m st) as [st1 [a|e]]; cbn [fst] in *; [|exact Hm].
  apply (eq_but_freezer_trans _ st1); [exact Hm|apply Hk].
Qed.

Lemma freezer_only_forM {A} (l : list A) (body : A -> M PState unit) :
  (forall x, freezer_only (body x)) -> freezer_only (forM_ l body).
Proof.
  intros Hb. induction l as [|x l IH]; simpl.
  - apply freezer_only_ret.
  - apply freezer_only_bind; [apply Hb|intros _; exact IH].
Qed.

Create HintDb freezer.

#[local] Hint Resolve freezer_only_ret freezer_only_raise freezer_only_lift
  freezer_only_get freezer_only_call : freezer.

Ltac freezer_step :=
  first [ apply freezer_only_bind; [|intros ?]
        | apply freezer_only_forM; intros ?
        | solve [auto with freezer]
        | match goal with
          | |- freezer_only (if ?b then _ else _) => destruct b
          | |- freezer_only (match ?o with Some _ => _ | None => _ end) =>
              destruct o
          | |- freezer_only (let '(_, _) := ?pr in _) => destruct pr
          end ].

Section MainModuleProperties.

Context (ext : Extensions)
        (glob_matches : GlobPattern -> string -> bool)
        (freezer_has_module : list FreezerCall -> string -> bool)
        (dc_read : string -> option (list (string * list string)))
        (dcClientSuffixes : list string)
        (temporary : string -> string -> string -> string)
        (installMultifile_rest : string -> M PState unit).

Local Notation addModuleFiles' :=
  (addModuleFiles ext glob_matches freezer_has_module dc_read dcClientSuffixes).
Local Notation installMultifile_begin' :=
  (installMultifile_begin ext glob_matches freezer_has_module dc_read
                          dcClientSuffixes temporary).
Local Notation installMultifile' :=
  (installMultifile ext glob_matches freezer_has_module dc_read
                    dcClientSuffixes temporary installMultifile_rest).

(** The first loop over the files only talks to the freezer. *)
Lemma addModuleFiles_freezer_only (l : list PackFile) :
  freezer_only (addModuleFiles' l).
Proof.
  unfold addModuleFiles, addPyFile, addDcImports.
  repeat freezer_step.
Qed.

(** The start of [installMultifile] adds no subfile and leaves the
    name, the application flag and the main module of the package. *)
Lemma installMultifile_begin_spec (st : PState) :
  let b := installMultifile_begin' st in
  subfiles (multifile (self (fst b))) = [] /\
  mainModule (self (fst b)) = mainModule (self st) /\
  p3dApplication (self (fst b)) = p3dApplication (self st) /\
  packageName (self (fst b)) = packageName (self st).
Proof.
  cbv zeta.
  assert (H : forall s : PState,
            subfiles (multifile (self s)) = [] ->
            mainModule (self s) = mainModule (self st) ->
            p3dApplication (self s) = p3dApplication (self st) ->
            packageName (self s) = packageName (self st) ->
            forall l stb' rb',
            (on_self (set_extracts []) ;;;
             on_self (set_components []) ;;;
             addModuleFiles' l ;;;
             ret (temporary EmptyString (packageName (self st) +:+ ".") ".mf")) s
            = (stb', rb') ->
            subfiles (multifile (self stb')) = [] /\
            mainModule (self stb') = mainModule (self st) /\
            p3dApplication (self stb') = p3dApplication (self st) /\
            packageName (self stb') = packageName (self st)).
  { intros s Hs Hm Hp Hn l stb' rb'.
    unfold bind, on_self, modify. cbn [self notify disk].
    match goal with
    | |- context [addModuleFiles ?a ?b ?c ?d ?e l ?s0] =>
        pose proof (addModuleFiles_freezer_only l s0) as (Hf & _ & _);
        destruct (addModuleFiles a b c d e l s0) as [stc [u|e']]
    end; cbn [fst self] in Hf; unfold ret; intros [= <- <-];
      repeat split.
    all: match goal with
         | |- subfiles _ = _ =>
             apply (f_equal (fun q => subfiles (multifile q))) in Hf
         | |- mainModule _ = _ => apply (f_equal mainModule) in Hf
         | |- p3dApplication _ = _ => apply (f_equal p3dApplication) in Hf
         | |- packageName _ = _ => apply (f_equal packageName) in Hf
         end.
    all: cbn [set_freezer set_extracts set_components self multifile
              mainModule p3dApplication packageName] in Hf; congruence. }
  set (name := temporary EmptyString (packageName (self st) +:+ ".") ".mf").
  assert (Heq : exists calls,
    subfiles calls = [] /\
    installMultifile_begin' st
    = (on_self (set_extracts []) ;;;
       on_self (set_components []) ;;;
       addModuleFiles' (files (self st)) ;;;
       ret name)
        (mkPState (set_multifile calls (self st)) (notify st) (disk st))).
  { unfold installMultifile_begin, bind, on_self, modify, get, multifile_call, ret.
    cbn [self notify disk p3dApplication packageName files set_multifile
         multifile app].
    destruct (p3dApplication (self st)); eexists; (split; [|reflexivity]);
      reflexivity. }
  destruct Heq as (calls & Hcalls & Heq). rewrite Heq.
  match goal with
  | |- context [?m (mkPState ?q ?n ?d)] =>
      destruct (m (mkPState q n d)) as [stb rb] eqn:E
  end.
  eapply H in E; [exact E|exact Hcalls|reflexivity|reflexivity|reflexivity].
Qed.

(** [installMultifile] on a package without a main module. For an
    application it always raises, in the state the start of the method
    leaves, where no subfile has been added to the Multifile and none of
    the later steps has run; when the start itself goes through, the
    exception is the [PackagerError] for the missing main module. For a
    package that is not an application the check lets it pass: the
    method goes on with its remaining steps. *)
Lemma installMultifile_without_main (st : PState) :
  mainModule (self st) = None ->
  let b := installMultifile_begin' st in
  let r := installMultifile' st in
  subfiles (multifile (self (fst b))) = [] /\
  (p3dApplication (self st) = true ->
   fst r = fst b /\
   snd r = match snd b with
           | Ok _ =>
               Raise (PackagerError
                        ("No main_module specified for application " +:+
                         packageName (self st)))
           | Raise e => Raise e
           end) /\
  (p3dApplication (self st) = false ->
   r = match snd b with
       | Ok multifileFilename =>
           installMultifile_rest multifileFilename (fst b)
       | Raise e => (fst b, Raise e)
       end).
Proof.
  intros Hmain. cbv zeta.
  destruct (installMultifile_begin_spec st) as (Hsub & Hm & Hp & Hn).
  cbv zeta in Hsub, Hm, Hp, Hn.
  unfold installMultifile, bind, get.
  destruct (installMultifile_begin' st) as [stb [name|e]];
    cbn [fst snd] in *.
  - rewrite Hm, Hmain, Hp, Hn. cbn [isNone andb].
    split; [exact Hsub|]. split; intros ->; [split|]; reflexivity.
  - split; [exact Hsub|]. split; intros _; [split|]; reflexivity.
Qed.

End MainModuleProperties.

(** The descriptor of [tools], written with patch version 3 and two
    patches, and read back by a package object for the same descriptor
    that holds another patch version and no patch: the reader ends
    with patch version 3 and the two patches, in order. *)
Lemma writeDescFile_readDescFile_witness :
  let written :=
    disk (fst (writeDescFile (sample_fs []) "/install" sample_stat sample_stat
                             sample_stat (fresh built_tools))) in
  let reader := set_patches [] (set_patchVersion "7" built_tools) in
  let r := readDescFile "/install" (mkPState reader [] written) in
  snd r = Ok tt /\
  patchVersion (self (fst r)) = "3" /\
  patches (self (fst r))
  = [XElem "patch" [("filename", "tools.1.0.mf.2.patch")] [];
     XElem "patch" [("filename", "tools.1.0.mf.3.patch")] []].
Proof.
  cbv zeta.
  pose proof (writeDescFile_readDescFile (sample_fs []) "/install" sample_stat
                sample_stat sample_stat (fresh built_tools)
                (set_patches [] (set_patchVersion "7" built_tools)) [])
    as H.
  cbv zeta in H.
  destruct H as (_ & Hok & _ & Hv & Hp).
  - split; [discriminate|]. repeat constructor.
  - repeat constructor.
  - reflexivity.
  - rewrite Hok, Hv, Hp. repeat split.
Defined.

(** *** More on exclusion and on adding files *)

(** X1: [isExcluded] raises in one situation only: the file was not
    added explicitly, is platform-specific, and the package has no
    [platformSpecificConfig] attribute yet, which [close] assigns. The
    exception is then the [AttributeError] for that attribute. *)
Theorem isExcluded_raises_only (ext : Extensions)
    (glob_matches : GlobPattern -> string -> bool)
    (f : PackFile) (package : Package) (e : PyExn) :
  isExcluded ext glob_matches f package = Raise e ->
  explicit f = false /\ platformSpecific f = true /\
  platformSpecificConfig package = None /\
  e = AttributeError
        "Package instance has no attribute 'platformSpecificConfig'".
Proof.
  unfold isExcluded.
  destruct (skipFilenames package !! newName f); [discriminate|].
  destruct (explicit f); cbn [negb]; [discriminate|].
  repeat match goal with
         | |- context [if ?b then Ok true else _] => destruct b; [discriminate|]
         end.
  destruct (platformSpecific f); [|discriminate].
  destruct (platformSpecificConfig package) as [[[|]|]|]; try discriminate.
  intros [= <-]. repeat split.
Qed.

(** A shared library found by a dependency scan before the package is
    closed: the exclusion test raises. *)
Lemma isExcluded_raises_only_witness :
  let f :=
    PackFile_init linux_extensions (sample_fs [])
      (file_args "lib/libfoo.so" (Some "libfoo.so") false) in
  isExcluded linux_extensions sample_glob_matches f (Package_init "tools")
  = Raise (AttributeError
             "Package instance has no attribute 'platformSpecificConfig'") /\
  explicit f = false /\ platformSpecific f = true.
Proof.
  cbv zeta.
  assert (E : isExcluded linux_extensions sample_glob_matches
                (PackFile_init linux_extensions (sample_fs [])
                   (file_args "lib/libfoo.so" (Some "libfoo.so") false))
                (Package_init "tools")
              = Raise (AttributeError
                         "Package instance has no attribute 'platformSpecificConfig'"))
    by (vm_compute; reflexivity).
  destruct (isExcluded_raises_only _ _ _ _ _ E) as (He & Hp & _ & _).
  auto.
Defined.

(** The three ways [addFile] can end: the file is turned away and the
    package is as before; the source is recorded but the file, missing
    and without text, is not added; or the file is added. *)
Lemma addFile_inv (ext : Extensions) (fs : FileSystem)
    (glob_matches : GlobPattern -> string -> bool)
    (a : PackFileArgs) (st : PState) :
  let file := PackFile_init ext fs a in
  let r := addFile ext fs glob_matches a st in
  let recorded :=
    set_sourceFilenames (<[filename file := file]> (sourceFilenames (self st)))
                        (self st) in
  disk (fst r) = disk st /\
  ((self (fst r) = self st /\ snd r = Ok tt) \/
   (sourceFilenames (self st) !! filename file = None /\
    targetFilenames (self st) !! newName file = None /\
    self (fst r) = recorded /\
    snd r = match isExcluded ext glob_matches file recorded with
            | Ok _ => Ok tt
            | Raise e => Raise e
            end) \/
   (sourceFilenames (self st) !! filename file = None /\
    targetFilenames (self st) !! newName file = None /\
    snd r = Ok tt /\
    self (fst r)
    = set_targetFilenames (<[newName file := file]> (targetFilenames (self st)))
        (set_files (files (self st) ++ [file]) recorded))).
Proof.
  cbv zeta.
  destruct (addFile ext fs glob_matches a st) as [st' r] eqn:E.
  revert E. name_file ext fs a file. revert E. run.
  destruct (sourceFilenames (self st) !! filename file) as [f|] eqn:Es.
  { intros [= <- <-]. auto. }
  destruct (targetFilenames (self st) !! newName file) as [f2|] eqn:Et.
  { intros [= <- <-]. cbn. auto. }
  cbn -[isExcluded].
  destruct (isNone (text file) && negb (fs_exists fs (filename file))).
  - destruct (isExcluded ext glob_matches file _) as [[|]|e] eqn:Ex;
      cbn; intros [= <- <-]; cbn; (split; [reflexivity|]);
      right; left; repeat split; rewrite Ex; reflexivity.
  - intros [= <- <-]. cbn. split; [reflexivity|]. right. right. auto.
Qed.

Lemma package_wf_init (name : string) : package_wf (Package_init name).
Proof.
  unfold package_wf. split; [|split; [|split; [|split]]]; cbn.
  - intros f Hf. inversion Hf.
  - intros f Hf. inversion Hf.
  - intros k f H. rewrite lookup_empty in H. discriminate.
  - constructor.
  - constructor.
Qed.

(** X2: [addFile] keeps the package well formed, whatever it does with
    the file: each file is the one recorded under its target name, each
    recorded target is a file of the package, and target names and
    sources stay pairwise distinct. *)
Theorem addFile_keeps_wf (ext : Extensions) (fs : FileSystem)
    (glob_matches : GlobPattern -> string -> bool)
    (a : PackFileArgs) (st : PState) :
  package_wf (self st) ->
  package_wf (self (fst (addFile ext fs glob_matches a st))).
Proof.
  intros (Hsrc & Hidx & Hfiles & Hnt & Hns).
  destruct (addFile_inv ext fs glob_matches a st) as (_ & H).
  cbv zeta in H. revert H.
  generalize (PackFile_init ext fs a). intros file.
  intros [(-> & _) | [(Es & Et & -> & _) | (Es & Et & _ & ->)]].
  - unfold package_wf. auto.
  - unfold package_wf. cbn [files targetFilenames set_sourceFilenames].
    split; [|auto].
    intros f Hf. cbn in Hf. cbn.
    destruct (decide (filename file = filename f)) as [->|Hne].
    + rewrite lookup_insert_eq. eauto.
    + rewrite lookup_insert_ne by exact Hne. apply Hsrc, Hf.
  - assert (Hfresh_t : forall f, f ∈ files (self st) -> newName f <> newName file).
    { intros f Hf E. rewrite <- E, (Hidx f Hf) in Et. discriminate. }
    assert (Hfresh_s : forall f, f ∈ files (self st) -> filename f <> filename file).
    { intros f Hf E. destruct (Hsrc f Hf) as [x Hx].
      rewrite E, Es in Hx. discriminate. }
    unfold package_wf.
    split; [|split; [|split; [|split]]]; cbn.
    + intros f Hf. cbn in Hf. cbn.
      apply elem_of_app in Hf as [Hf|Hf].
      * rewrite lookup_insert_ne by (intros E; apply (Hfresh_s f Hf); auto).
        apply Hsrc, Hf.
      * apply list_elem_of_singleton in Hf. subst f.
        rewrite lookup_insert_eq. eauto.
    + intros f Hf. apply elem_of_app in Hf as [Hf|Hf].
      * rewrite lookup_insert_ne by (intros E; apply (Hfresh_t f Hf); auto).
        apply Hidx, Hf.
      * apply list_elem_of_singleton in Hf. subst f.
        apply lookup_insert_eq.
    + intros k f H. destruct (decide (newName file = k)) as [<-|Hne].
      * rewrite lookup_insert_eq in H. injection H as <-. split; [|reflexivity].
        apply elem_of_app. right. apply list_elem_of_singleton. reflexivity.
      * rewrite lookup_insert_ne in H by exact Hne.
        destruct (Hfiles k f H) as [Hin Hk]. split; [|exact Hk].
        apply elem_of_app. left. exact Hin.
    + rewrite fmap_app. apply NoDup_app. split; [exact Hnt|]. split.
      * intros x Hx Hx'. apply list_elem_of_singleton in Hx'. subst x.
        apply list_elem_of_fmap in Hx as (f & E & Hf).
        apply (Hfresh_t f Hf). auto.
      * apply NoDup_singleton.
    + rewrite fmap_app. apply NoDup_app. split; [exact Hns|]. split.
      * intros x Hx Hx'. apply list_elem_of_singleton in Hx'. subst x.
        apply list_elem_of_fmap in Hx as (f & E & Hf).
        apply (Hfresh_s f Hf). auto.
      * apply NoDup_singleton.
Qed.

(** Two files added to an empty package: the package is well formed. *)
Lemma addFile_keeps_wf_witness :
  let fs := sample_fs ["a/logo.png"; "b/logo.png"] in
  package_wf
    (self (fst (addFile linux_extensions fs sample_glob_matches
                  (file_args "b/logo.png" (Some "logo.png") true)
                  (fst (addFile linux_extensions fs sample_glob_matches
                          (file_args "a/logo.png" (Some "logo.png") true)
                          (fresh (Package_init "art"))))))).
Proof.
  cbv zeta. apply addFile_keeps_wf. apply addFile_keeps_wf.
  apply package_wf_init.
Defined.

(** X3: [addFile] only ever extends a package: the files before are a
    prefix of the files after, at most one file is appended, and the
    entries of [sourceFilenames] and [targetFilenames] stay as they
    are, none removed and none replaced. *)
Theorem addFile_extends (ext : Extensions) (fs : FileSystem)
    (glob_matches : GlobPattern -> string -> bool)
    (a : PackFileArgs) (st : PState) :
  let p' := self (fst (addFile ext fs glob_matches a st)) in
  files (self st) `prefix_of` files p' /\
  length (files p') <= S (length (files (self st))) /\
  sourceFilenames (self st) ⊆ sourceFilenames p' /\
  targetFilenames (self st) ⊆ targetFilenames p'.
Proof.
  cbv zeta.
  destruct (addFile_inv ext fs glob_matches a st) as (_ & H).
  cbv zeta in H. revert H.
  generalize (PackFile_init ext fs a). intros file.
  intros [(-> & _) | [(Es & Et & -> & _) | (Es & Et & _ & ->)]]; cbn.
  - repeat split; [reflexivity|lia|reflexivity|reflexivity].
  - repeat split; [reflexivity|lia| |reflexivity].
    apply insert_subseteq, Es.
  - repeat split.
    + apply prefix_app_r. reflexivity.
    + rewrite length_app. cbn. lia.
    + apply insert_subseteq, Es.
    + apply insert_subseteq, Et.
Qed.

(** X4: [addFile] returns normally for every file added explicitly, and
    for every file once the package has its [platformSpecificConfig]:
    the only exception it can raise is the one of [isExcluded]. *)
Theorem addFile_returns (ext : Extensions) (fs : FileSystem)
    (glob_matches : GlobPattern -> string -> bool)
    (a : PackFileArgs) (st : PState) :
  a_explicit a = true \/ platformSpecificConfig (self st) <> None ->
  snd (addFile ext fs glob_matches a st) = Ok tt.
Proof.
  intros Hcase.
  destruct (addFile_inv ext fs glob_matches a st) as (_ & H).
  cbv zeta in H.
  assert (He : explicit (PackFile_init ext fs a) = a_explicit a) by reflexivity.
  revert H He. generalize (PackFile_init ext fs a). intros file H He.
  destruct H as [(_ & H) | [(_ & _ & _ & H) | (_ & _ & H & _)]];
    try exact H.
  rewrite H.
  destruct (isExcluded ext glob_matches file _) as [b|e] eqn:Ex;
    [reflexivity|].
  apply isExcluded_raises_only in Ex as (Hx & _ & Hc & _).
  cbn in Hc. destruct Hcase as [Hcase|Hcase]; congruence.
Qed.

(** The main script of an application, named but not on disk: added
    explicitly, so the call returns, with a warning. *)
Lemma addFile_returns_witness :
  let r :=
    addFile linux_extensions (sample_fs []) sample_glob_matches
            (file_args "src/main.py" (Some "main.py") true)
            (fresh (Package_init "game")) in
  snd r = Ok tt /\ notify (fst r) = [Warning "No such file: src/main.py"].
Proof.
  cbv zeta. split.
  - apply addFile_returns. left. reflexivity.
  - vm_compute. reflexivity.
Defined.

(** X5: once [excludeFile] has recorded a pattern, every file that was
    not added explicitly and whose source file name the pattern
    matches is excluded, whatever else the package holds. The pattern
    is matched against the source file name, or its basename for a
    pattern without a directory, not against the target name. *)
Theorem excludeFile_excludes (ext : Extensions) (fs : FileSystem)
    (glob_matches : GlobPattern -> string -> bool)
    (getPlatform pat : string) (f : PackFile) (st : PState) :
  explicit f = false ->
  exclude_matches glob_matches (ExcludeFilename_init fs getPlatform pat)
                  (filename f) = true ->
  isExcluded ext glob_matches f
             (self (fst (excludeFile fs getPlatform pat st)))
  = Ok true.
Proof.
  intros He Hm. unfold excludeFile, on_self, modify. cbn [fst self].
  unfold isExcluded. cbn [skipFilenames excludedFilenames set_excludedFilenames].
  destruct (skipFilenames (self st) !! newName f); [reflexivity|].
  rewrite He. cbn [negb].
  repeat match goal with
         | |- context [if ?b then Ok true else _] =>
             destruct b eqn:?; [reflexivity|]
         end.
  exfalso.
  match goal with
  | H : existsb _ (_ ++ _) = false |- _ =>
      rewrite existsb_app in H; apply orb_false_iff in H as [_ H];
      cbn in H; rewrite orb_false_r in H
  end.
  congruence.
Qed.

(** A package that excludes [*.txt]: [notes.txt], found in a directory
    and stored as [docs/notes], is excluded by its source name. *)
Lemma excludeFile_excludes_witness :
  let fs := sample_fs ["doc/notes.txt"] in
  let notes :=
    PackFile_init linux_extensions fs
      (file_args "doc/notes.txt" (Some "docs/notes") false) in
  isExcluded linux_extensions sample_glob_matches notes
    (self (fst (excludeFile fs "linux_amd64" "*.txt"
                  (fresh (Package_init "docs")))))
  = Ok true.
Proof.
  cbv zeta. apply excludeFile_excludes; reflexivity.
Defined.

(** *** More on requirements *)

(** A round of [Package.requirePackage] for a package that is required
    already does nothing. *)
Lemma Package_requirePackage_round_known (p2 : ImportPackage) (st : PState) :
  p2 ∈ requires (self st) ->
  Package_requirePackage_round p2 st = (st, Ok tt).
Proof.
  intros Hin. rewrite Package_requirePackage_round_eq.
  rewrite bool_decide_eq_true_2 by exact Hin. reflexivity.
Qed.

Lemma requirePackage_rounds_known (l : list ImportPackage) (st : PState) :
  (forall x, x ∈ l -> x ∈ requires (self st)) ->
  forM_ l Package_requirePackage_round st = (st, Ok tt).
Proof.
  induction l as [|p2 l IH]; intros Hall; [reflexivity|].
  cbn [forM_]. unfold bind.
  rewrite Package_requirePackage_round_known by (apply Hall; left).
  apply IH. intros x Hx. apply Hall. right. exact Hx.
Qed.

(** What the rounds of [Package.requirePackage] leave: every package
    of the list is required, the requirements before are kept, and
    requirements without duplicates stay so. *)
Lemma requirePackage_rounds (l : list ImportPackage) (st : PState) :
  (forall x, x ∈ l \/ x ∈ requires (self st) ->
     x ∈ requires (self (fst (forM_ l Package_requirePackage_round st)))) /\
  (forall x, x ∈ requires (self (fst (forM_ l Package_requirePackage_round st))) ->
     x ∈ l \/ x ∈ requires (self st)) /\
  (NoDup (requires (self st)) ->
   NoDup (requires (self (fst (forM_ l Package_requirePackage_round st))))).
Proof.
  revert st. induction l as [|p2 l IH]; intros st.
  - cbn. repeat split; auto. intros x [Hx|Hx]; [inversion Hx|exact Hx].
  - cbn [forM_]. unfold bind.
    assert (Hr : requires (self (fst (Package_requirePackage_round p2 st)))
                 = if bool_decide (p2 ∈ requires (self st))
                   then requires (self st)
                   else (requires (self st) ++ [p2])%list).
    { rewrite Package_requirePackage_round_eq.
      destruct (bool_decide (p2 ∈ requires (self st))); [reflexivity|].
      cbn [fst self]. rewrite !fold_left_keeps_requires by reflexivity.
      reflexivity. }
    pose proof (Package_requirePackage_round_spec p2 st) as (Hok & _).
    destruct (Package_requirePackage_round p2 st) as [st1 r1].
    cbn [fst snd] in *. subst r1.
    destruct (IH st1) as (IH1 & IH2 & IH3).
    destruct (bool_decide (p2 ∈ requires (self st))) eqn:E.
    + apply bool_decide_eq_true in E. rewrite Hr in *.
      repeat split.
      * intros x [Hx|Hx]; [apply elem_of_cons in Hx as [->|Hx]|]; apply IH1; auto.
      * intros x Hx. apply IH2 in Hx as [Hx|Hx]; [left; right; exact Hx|auto].
      * exact IH3.
    + apply bool_decide_eq_false in E. rewrite Hr in *.
      repeat split.
      * intros x [Hx|Hx]; [apply elem_of_cons in Hx as [->|Hx]|]; apply IH1;
          auto; right; apply elem_of_app; auto.
        right. apply list_elem_of_singleton. reflexivity.
      * intros x Hx. apply IH2 in Hx as [Hx|Hx]; [left; right; exact Hx|].
        apply elem_of_app in Hx as [Hx|Hx]; [auto|].
        apply list_elem_of_singleton in Hx. subst x. left. left.
      * intros Hnd. apply IH3. apply NoDup_app. split; [exact Hnd|]. split.
        -- intros x Hx Hx'. apply list_elem_of_singleton in Hx'. subst x.
           contradiction.
        -- apply NoDup_singleton.
Qed.

(** X6: [Package.requirePackage] is idempotent: requiring a package a
    second time changes nothing, neither the requirements nor the
    skip-sets. *)
Theorem Package_requirePackage_twice (package : ImportPackage) (st : PState) :
  Package_requirePackage package (fst (Package_requirePackage package st))
  = (fst (Package_requirePackage package st), Ok tt).
Proof.
  unfold Package_requirePackage.
  apply requirePackage_rounds_known.
  intros x Hx.
  apply (requirePackage_rounds (imp_requires package ++ [package])%list st).
  left. exact Hx.
Qed.

(** X7: [Package.requirePackage] adds the package and its own
    requirements and nothing else, and never lists a package twice:
    the requirements afterwards are exactly those before together with
    the package and its requirements, and they are free of duplicates
    when they were before. *)
Theorem Package_requirePackage_requires (package : ImportPackage) (st : PState) :
  NoDup (requires (self st)) ->
  let p' := self (fst (Package_requirePackage package st)) in
  NoDup (requires p') /\
  forall x, x ∈ requires p' <->
            x ∈ requires (self st) \/ x = package \/ x ∈ imp_requires package.
Proof.
  intros Hnd. cbv zeta. unfold Package_requirePackage.
  destruct (requirePackage_rounds (imp_requires package ++ [package])%list st)
    as (H1 & H2 & H3).
  split; [apply H3, Hnd|].
  intros x. split.
  - intros Hx. apply H2 in Hx as [Hx|Hx]; [|auto].
    apply elem_of_app in Hx as [Hx|Hx]; [auto|].
    apply list_elem_of_singleton in Hx. auto.
  - intros [Hx|[->|Hx]]; apply H1; auto; left; apply elem_of_app; auto.
    right. apply list_elem_of_singleton. reflexivity.
Qed.

(** [tools] requires [panda3d]; requiring both leaves two
    requirements. *)
Lemma Package_requirePackage_requires_witness :
  let panda := imported "panda3d" "1.0.0" [] in
  let tools := imported "tools" "1.0" [panda] in
  let st := fst (Package_requirePackage panda (fresh (Package_init "app"))) in
  NoDup (requires (self (fst (Package_requirePackage tools st)))) /\
  requires (self (fst (Package_requirePackage tools st))) = [panda; tools].
Proof.
  cbv zeta. split.
  - apply Package_requirePackage_requires.
    apply Package_requirePackage_requires. constructor.
  - vm_compute. reflexivity.
Defined.

Lemma fold_left_keeps {A B} (g : Package -> B) (l : list A)
    (f : A -> Package -> Package) (p : Package) :
  (forall x q, g (f x q) = g q) ->
  g (fold_left (fun q x => f x q) l p) = g p.
Proof.
  intros Hf. revert p. induction l as [|x l IH]; intros p; simpl;
    [reflexivity|]. rewrite IH. apply Hf.
Qed.

Lemma fold_left_skipFilenames (l : list string) (p : Package) :
  skipFilenames
    (fold_left (fun q fname =>
                  set_skipFilenames (<[fname := true]> (skipFilenames q)) q) l p)
  = fold_left (fun m fname => <[fname := true]> m) l (skipFilenames p).
Proof.
  revert p. induction l as [|x l IH]; intros p; simpl; [reflexivity|].
  rewrite IH. reflexivity.
Qed.

Lemma fold_left_insert_true (l : list string) (m : gmap string bool) (k : string) :
  is_Some (fold_left (fun m fname => <[fname := true]> m) l m !! k)
  <-> k ∈ l \/ is_Some (m !! k).
Proof.
  revert m. induction l as [|x l IH]; intros m; simpl.
  - split; [auto|]. intros [H|H]; [inversion H|exact H].
  - rewrite IH. split.
    + intros [H|H]; [left; right; exact H|].
      destruct (decide (x = k)) as [->|Hne]; [left; left|].
      rewrite lookup_insert_ne in H by exact Hne. auto.
    + intros [H|H].
      * apply elem_of_cons in H as [->|H]; [|auto].
        right. rewrite lookup_insert_eq. eauto.
      * right. destruct (decide (x = k)) as [->|Hne].
        -- rewrite lookup_insert_eq. eauto.
        -- rewrite lookup_insert_ne by exact Hne. exact H.
Qed.

(** A round of [Package.requirePackage] keeps the skip-set covering the
    target names of the requirements. *)
Lemma requirePackage_round_covers (p2 : ImportPackage) (st : PState) :
  skips_cover_requires (self st) ->
  skips_cover_requires (self (fst (Package_requirePackage_round p2 st))).
Proof.
  intros Hinv. rewrite Package_requirePackage_round_eq.
  destruct (bool_decide (p2 ∈ requires (self st))); [exact Hinv|].
  cbn [fst self]. intros q Hq fname Hf.
  rewrite !fold_left_keeps_requires in Hq by reflexivity.
  cbn [requires set_requires] in Hq.
  rewrite (fold_left_keeps skipFilenames (imp_moduleNames p2)
             (fun m q => set_skipModules (<[fst m := snd m]> (skipModules q)) q))
    by reflexivity.
  rewrite fold_left_skipFilenames.
  cbn [skipFilenames set_requires].
  apply fold_left_insert_true.
  apply elem_of_app in Hq as [Hq|Hq].
  - right. apply (Hinv q Hq fname Hf).
  - apply list_elem_of_singleton in Hq. subst q. left. exact Hf.
Qed.

(** X8: [Package.requirePackage] keeps the skip-set covering the
    requirements, so that afterwards every file whose target name is a
    file of the required package is excluded from this package,
    explicit or not. *)
Theorem Package_requirePackage_skips (ext : Extensions)
    (glob_matches : GlobPattern -> string -> bool)
    (package : ImportPackage) (st : PState) (f : PackFile) :
  skips_cover_requires (self st) ->
  newName f ∈ imp_targetFilenames package ->
  let p' := self (fst (Package_requirePackage package st)) in
  skips_cover_requires p' /\
  isExcluded ext glob_matches f p' = Ok true.
Proof.
  intros Hinv Hf. cbv zeta.
  assert (Hcov : skips_cover_requires
                   (self (fst (Package_requirePackage package st)))).
  { unfold Package_requirePackage.
    generalize (imp_requires package ++ [package])%list. intros l.
    revert st Hinv. induction l as [|p2 l IH]; intros st Hinv; [exact Hinv|].
    cbn [forM_]. unfold bind.
    pose proof (requirePackage_round_covers p2 st Hinv) as H1.
    pose proof (Package_requirePackage_round_spec p2 st) as (Hok & _).
    destruct (Package_requirePackage_round p2 st) as [st1 r1].
    cbn [fst snd] in *. subst r1. apply IH, H1. }
  split; [exact Hcov|].
  destruct (Package_requirePackage_spec package st) as (_ & _ & _ & Hin).
  destruct (Hcov package Hin (newName f) Hf) as [b Hb].
  unfold isExcluded. rewrite Hb. reflexivity.
Qed.

(** The application requires [panda3d], which ships [models/smiley.egg]:
    a file of the application for that target name is skipped. *)
Lemma Package_requirePackage_skips_witness :
  let panda :=
    {| imp_packageName := "panda3d"; imp_platform := None;
       imp_version := Some "1.0.0"; imp_host := None; imp_requires := [];
       imp_targetFilenames := ["models/smiley.egg"]; imp_moduleNames := [] |} in
  let f :=
    PackFile_init linux_extensions (sample_fs ["art/smiley.egg"])
      (file_args "art/smiley.egg" (Some "models/smiley.egg") true) in
  isExcluded linux_extensions sample_glob_matches f
    (self (fst (Package_requirePackage panda (fresh (Package_init "app")))))
  = Ok true.
Proof.
  cbv zeta.
  apply Package_requirePackage_skips.
  - intros q Hq. inversion Hq.
  - vm_compute. apply list_elem_of_singleton. reflexivity.
Defined.

(** *** More on finding packages *)

Section FindProperties.

Context (packager_platform : string) (installSearch : list string)
        (glob_glob : string -> list string)
        (readPackageImportDescFile : string -> option ImportPackage)
        (findPackageOnHost :
           string -> option string -> option string -> option string ->
           option ImportPackage).

Local Notation findPackage' :=
  (findPackage packager_platform installSearch glob_glob
               readPackageImportDescFile findPackageOnHost).

(** The two ways [findPackage] can end: without a package and with the
    packager as it was, or with a package, which is then in the table
    under the key asked for. *)
Lemma findPackage_inv (name : string) (pl v h : option string)
    (reqs : list ImportPackage) (w : Packager) :
  let r := findPackage' name pl v h reqs w in
  let key := (name, if truthy pl then pl else Some packager_platform, v, h) in
  (fst r = w /\ (snd r = Ok None \/ exists e, snd r = Raise e)) \/
  (fst r = w /\ exists p, snd r = Ok (Some p) /\ packages w !! key = Some p) \/
  (exists p found,
     snd r = Ok (Some p) /\ packages w !! key = None /\
     fst r = mkPackager (currentPackage w)
               (<[key := p]>
                  (<[(imp_packageName found, imp_platform found,
                      imp_version found, imp_host found) := p]> (packages w)))
               (pk_notify w) (pk_disk w) /\
     (packages w !! (imp_packageName found, imp_platform found,
                     imp_version found, imp_host found) = Some p \/
      packages w !! (imp_packageName found, imp_platform found,
                     imp_version found, imp_host found) = None)).
Proof.
  cbv zeta. unfold findPackage, bind, get, lift, ret, modify.
  destruct (packages w !! _) as [known|] eqn:Ek.
  { right. left. split; [reflexivity|]. exists known. auto. }
  destruct (findPackage_search _ _ _ _ _ _ _ _) as [[package|]|e];
    cbn [fst snd].
  - right. right.
    destruct (packages w !! (imp_packageName package, imp_platform package,
                             imp_version package, imp_host package))
      as [known|] eqn:Ec; cbn [fst snd]; eexists _, package;
      rewrite Ec; auto.
  - destruct (findPackageOnHost _ _ _ _) as [package|]; cbn [fst snd].
    + right. right.
      destruct (packages w !! (imp_packageName package, imp_platform package,
                               imp_version package, imp_host package))
        as [known|] eqn:Ec; cbn [fst snd]; eexists _, package;
        rewrite Ec; auto.
    + left. auto.
  - left. split; [reflexivity|]. right. eauto.
Qed.

(** X9: a package that [findPackage] has found is answered from the
    table from then on: the same request gives the same package
    without another search and without a change of the packager, and
    this whatever packages are required by then, as the table is
    consulted before the requirements are looked at. *)
Theorem findPackage_cached (name : string) (pl v h : option string)
    (reqs reqs' : list ImportPackage) (w : Packager) (p : ImportPackage) :
  snd (findPackage' name pl v h reqs w) = Ok (Some p) ->
  findPackage' name pl v h reqs' (fst (findPackage' name pl v h reqs w))
  = (fst (findPackage' name pl v h reqs w), Ok (Some p)).
Proof.
  intros Hfound.
  assert (Hkey : packages (fst (findPackage' name pl v h reqs w))
                 !! (name, if truthy pl then pl else Some packager_platform, v, h)
                 = Some p).
  { destruct (findPackage_inv name pl v h reqs w)
      as [(_ & [H|[e H]]) | [(-> & q & H & Hq) | (q & found & H & _ & -> & _)]];
      cbv zeta in *; rewrite Hfound in H; try discriminate;
      injection H as ->; [exact Hq|].
    cbn [packages]. apply lookup_insert_eq. }
  revert Hkey. generalize (fst (findPackage' name pl v h reqs w)). intros w1 Hkey.
  unfold findPackage, bind, get, ret. rewrite Hkey. reflexivity.
Qed.

(** The scan reads every file of its file list, and then looks for the
    first valid package. *)
Lemma scanPackageDir_eq (rootDir name : string) (pl v h : option string)
    (reqs : list ImportPackage) :
  scanPackageDir glob_glob readPackageImportDescFile rootDir name pl v h reqs
  = let packages :=
      map readPackageImportDescFile
          (scanPackageDir_filelist glob_glob rootDir name pl v) in
    match sortImportPackages packages with
    | Raise e => Raise e
    | Ok _ =>
        Ok (mjoin (List.find
              (fun c => match c with
                        | Some package => packageIsValid package reqs
                        | None => false
                        end) packages))
    end.
Proof.
  unfold scanPackageDir, scanPackageDir_filelist.
  destruct (match v with
            | Some v' => _
            | None => _
            end) as [packageDir basename].
  destruct (match pl with
            | Some pl' => _
            | None => _
            end) as [packageDir' basename'].
  reflexivity.
Qed.

(** [__sortImportPackages] raises on a file that could not be read. *)
Lemma sortImportPackages_read (packages : list (option ImportPackage))
    (sorted : list PyBuiltin) :
  sortImportPackages packages = Ok sorted ->
  Forall (fun c => exists q, c = Some q) packages.
Proof.
  unfold sortImportPackages.
  assert (H : forall tuples, sortImportPackages_tuples packages = Ok tuples ->
                             Forall (fun c => exists q, c = Some q) packages).
  { induction packages as [|[q|] l IH]; intros tuples Ht;
      [constructor| |discriminate].
    cbn [sortImportPackages_tuples] in Ht.
    destruct (imp_version q); [|discriminate].
    destruct (sortImportPackages_tuples l) as [tl|]; [|discriminate].
    constructor; [eauto|]. apply (IH tl). reflexivity. }
  destruct (sortImportPackages_tuples packages) as [tuples|]; [|discriminate].
  intros _. apply (H tuples). reflexivity.
Qed.

(** The first element of a mapped list that passes a test, with the
    elements before it. *)
Lemma find_map_split {A B} (g : A -> B) (f : B -> bool) (l : list A) (y : B) :
  List.find f (map g l) = Some y ->
  exists before x after,
    l = (before ++ x :: after)%list /\ g x = y /\ f y = true /\
    Forall (fun z => f (g z) = false) before.
Proof.
  induction l as [|a l IH]; intros Hf; [discriminate|].
  cbn [map List.find] in Hf. destruct (f (g a)) eqn:Ea.
  - injection Hf as <-. exists [], a, l. repeat split; [exact Ea|constructor].
  - destruct (IH Hf) as (before & x & after & -> & Hg & Hy & Hbefore).
    exists (a :: before), x, after. repeat split; try assumption.
    constructor; assumption.
Qed.

(** X11: a package that [__scanPackageDir] returns was read from a file
    of the file list of the scan, every file before it in the list was
    read as well and gave a package that is not valid, and the package
    itself is valid against the packages required so far: when both
    it, or one of its requirements, and the required packages name a
    [panda3d], the first of each have the same version. The scan
    answers with the first valid package in the order of the file
    list. *)
Theorem scanPackageDir_valid (rootDir name : string)
    (pl v h : option string) (reqs : list ImportPackage)
    (p : ImportPackage) :
  scanPackageDir glob_glob readPackageImportDescFile rootDir name pl v h reqs
  = Ok (Some p) ->
  exists before file after,
    scanPackageDir_filelist glob_glob rootDir name pl v
    = (before ++ file :: after)%list /\
    readPackageImportDescFile file = Some p /\
    Forall (fun f => exists q, readPackageImportDescFile f = Some q /\
                               packageIsValid q reqs = false) before /\
    packageIsValid p reqs = true /\
    forall p1 p2,
      findPackageInList "panda3d" (p :: imp_requires p) = Some p1 ->
      findPackageInList "panda3d" reqs = Some p2 ->
      imp_version p1 = imp_version p2.
Proof.
  rewrite scanPackageDir_eq. cbv zeta.
  set (filelist := scanPackageDir_filelist glob_glob rootDir name pl v).
  destruct (sortImportPackages (map readPackageImportDescFile filelist))
    as [sorted|] eqn:Es; [|discriminate].
  apply sortImportPackages_read in Es.
  intros [= Hfind].
  destruct (List.find _ (map readPackageImportDescFile filelist))
    as [[q|]|] eqn:E; try discriminate.
  injection Hfind as ->.
  apply find_map_split in E
    as (before & file & after & Hsplit & Hread & Hvalid & Hbefore).
  exists before, file, after.
  split; [exact Hsplit|]. split; [exact Hread|].
  split; [|split; [exact Hvalid|]].
  - rewrite Hsplit, map_app, Forall_app in Es. destruct Es as [Es _].
    rewrite Forall_forall in Hbefore. rewrite Forall_fmap in Es.
    rewrite Forall_forall in Es. apply Forall_forall. intros f Hf.
    destruct (Es f Hf) as [q Hq]. exists q. split; [exact Hq|].
    specialize (Hbefore f Hf). rewrite Hq in Hbefore. exact Hbefore.
  - intros p1 p2 H1 H2. unfold packageIsValid in Hvalid.
    destruct reqs as [|r0 reqs]; [discriminate|].
    cbn [app] in Hvalid. rewrite H1, H2 in Hvalid.
    apply bool_decide_eq_true in Hvalid. exact Hvalid.
Qed.

End FindProperties.

(** The sample repository, asked twice for [panda3d] 1.0.0: the second
    answer comes from the table, also when a package is required that
    needs another [panda3d]. *)
Lemma findPackage_cached_witness :
  let find reqs :=
    findPackage "linux_amd64" ["/repo"] repo_glob repo_read no_host
                "panda3d" None (Some "1.0.0") None reqs in
  let w1 := fst (find [] (defining (Package_init "app"))) in
  find [imported "panda3d" "1.0.1" []] w1
  = (w1, Ok (Some (imported "panda3d" "1.0.0" []))).
Proof.
  cbv zeta.
  apply (findPackage_cached "linux_amd64" ["/repo"] repo_glob repo_read no_host
           "panda3d" None (Some "1.0.0") None []).
  vm_compute. reflexivity.
Defined.

(** The scan for [tools] by a package that requires [panda3d] 1.0.1:
    version 1.0 of [tools], first in the file list, was built with
    another [panda3d] and is passed over, and the scan answers with
    version 2.0. *)
Lemma scanPackageDir_valid_witness :
  let reqs := [imported "panda3d" "1.0.1" []] in
  let tools2 := imported "tools" "2.0" [imported "panda3d" "1.0.1" []] in
  scanPackageDir repo_glob pinned_read "/repo" "tools" None None None reqs
  = Ok (Some tools2) /\
  exists before file after,
    scanPackageDir_filelist repo_glob "/repo" "tools" None None
    = (before ++ file :: after)%list /\
    pinned_read file = Some tools2 /\
    Forall (fun f => exists q, pinned_read f = Some q /\
                               packageIsValid q reqs = false) before /\
    packageIsValid tools2 reqs = true /\
    forall p1 p2,
      findPackageInList "panda3d" (tools2 :: imp_requires tools2) = Some p1 ->
      findPackageInList "panda3d" reqs = Some p2 ->
      imp_version p1 = imp_version p2.
Proof.
  cbv zeta.
  assert (Hscan :
    scanPackageDir repo_glob pinned_read "/repo" "tools" None None None
                   [imported "panda3d" "1.0.1" []]
    = Ok (Some (imported "tools" "2.0" [imported "panda3d" "1.0.1" []]))).
  { vm_compute. reflexivity. }
  split; [exact Hscan|].
  exact (scanPackageDir_valid repo_glob pinned_read "/repo" "tools"
           None None None [imported "panda3d" "1.0.1" []]
           (imported "tools" "2.0" [imported "panda3d" "1.0.1" []]) Hscan).
Defined.

(** *** More on the package descriptor *)

(** X12: when there is no descriptor to load, or the document has no
    [package] element, [readDescFile] returns normally with the patch
    version ["1"] and no patches, whatever the package held before. *)
Theorem readDescFile_defaults (installDir : string) (st : PState) :
  disk st !! Filename.join installDir (packageDesc (self st)) = None \/
  (exists doc,
     disk st !! Filename.join installDir (packageDesc (self st)) = Some doc /\
     FirstChildElement "package" doc = None) ->
  snd (readDescFile installDir st) = Ok tt /\
  patchVersion (self (fst (readDescFile installDir st))) = "1" /\
  patches (self (fst (readDescFile installDir st))) = [].
Proof.
  intros Hcase.
  destruct (readDescFile installDir st) as [st' r] eqn:E.
  unfold readDescFile, bind, on_self, modify, get, ret in E.
  cbn [self disk notify packageDesc set_patches set_patchVersion] in E.
  destruct Hcase as [Hnone|(doc & Hdoc & Hx)].
  - rewrite Hnone in E. injection E as <- <-. repeat split.
  - rewrite Hdoc, Hx in E. injection E as <- <-. repeat split.
Qed.

(** The first build of [tools]: nothing on disk, so patch version 1 and
    no patches, not the values of the package object. *)
Lemma readDescFile_defaults_witness :
  patchVersion (self (fst (readDescFile "/install" (fresh built_tools)))) = "1" /\
  patches (self (fst (readDescFile "/install" (fresh built_tools)))) = [].
Proof.
  destruct (readDescFile_defaults "/install" (fresh built_tools))
    as (_ & Hv & Hp).
  - left. apply lookup_empty.
  - split; assumption.
Defined.

(** X13: [readDescFile] starts from scratch each time: reading the
    descriptor a second time leaves the package as the first reading
    left it, so patches are never accumulated twice. *)
Theorem readDescFile_twice (installDir : string) (st : PState) :
  readDescFile installDir (fst (readDescFile installDir st))
  = (fst (readDescFile installDir st), Ok tt).
Proof.
  destruct st as [p n d]. destruct p.
  unfold readDescFile, bind, on_self, modify, get, ret.
  cbn [self disk notify packageDesc set_patches set_patchVersion patches].
  destruct (d !! _) as [doc|] eqn:Ed;
    [destruct (FirstChildElement "package" doc) as [x|] eqn:Ex|].
  - destruct (if truthy (Attribute x "patch_version")
              then Attribute x "patch_version"
              else Attribute x "last_patch_version") as [v|] eqn:Ev;
      [destruct (String.eqb v EmptyString) eqn:Ee|];
      cbn; rewrite Ed, Ex, Ev; try rewrite Ee; reflexivity.
  - cbn. rewrite Ed, Ex. reflexivity.
  - cbn. rewrite Ed. reflexivity.
Qed.

Lemma name_le_total (a b : string * XmlElement) : name_le a b \/ name_le b a.
Proof.
  unfold name_le, String.ltb.
  destruct (String.compare (fst a) (fst b)) eqn:E.
  - apply String.compare_eq_iff in E. left. rewrite E, String.eqb_refl.
    apply orb_true_r.
  - left. reflexivity.
  - right. rewrite String.compare_antisym, E. reflexivity.
Qed.

Lemma insert_by_name_perm (e : string * XmlElement)
    (l : list (string * XmlElement)) :
  insert_by_name e l ≡ₚ e :: l.
Proof.
  induction l as [|u l IH]; simpl; [reflexivity|].
  destruct (String.ltb (fst u) (fst e) || String.eqb (fst u) (fst e));
    [|reflexivity].
  rewrite IH. apply Permutation_swap.
Qed.

Lemma insert_by_name_sorted (e : string * XmlElement)
    (l : list (string * XmlElement)) :
  Sorted name_le l -> Sorted name_le (insert_by_name e l).
Proof.
  induction 1 as [|u l Hs IH Hhd]; simpl.
  - repeat constructor.
  - destruct (String.ltb (fst u) (fst e) || String.eqb (fst u) (fst e)) eqn:E.
    + constructor; [exact IH|].
      destruct l as [|u' l]; simpl.
      * constructor. exact E.
      * inversion Hhd; subst.
        destruct (String.ltb (fst u') (fst e) || String.eqb (fst u') (fst e));
          constructor; assumption.
    + constructor; [constructor; assumption|].
      constructor. destruct (name_le_total e u) as [H|H]; [exact H|].
      unfold name_le in H. congruence.
Qed.

(** X14: [writeDescFile] sorts the extract records of the package in
    place: afterwards [extracts] holds the same records, in
    non-decreasing order of their names, and nothing else of the
    package has changed. *)
Theorem writeDescFile_sorts_extracts (fs : FileSystem) (installDir : string)
    (file_size file_timestamp file_hash : string -> string) (st : PState) :
  let p' :=
    self (fst (writeDescFile fs installDir file_size file_timestamp
                             file_hash st)) in
  Sorted name_le (extracts p') /\
  extracts p' ≡ₚ extracts (self st) /\
  set_extracts [] p' = set_extracts [] (self st).
Proof.
  cbv zeta. rewrite writeDescFile_eq. cbn [fst self extracts set_extracts].
  split; [|split; [|reflexivity]].
  - unfold sort_by_name. induction (extracts (self st)) as [|e l IH]; simpl.
    + constructor.
    + apply insert_by_name_sorted, IH.
  - unfold sort_by_name. induction (extracts (self st)) as [|e l IH]; simpl.
    + reflexivity.
    + rewrite insert_by_name_perm, IH. reflexivity.
Qed.



Section DescriptorRecords.

Context (fs : FileSystem) (installDir : string)
        (file_size file_timestamp file_hash : string -> string).


End DescriptorRecords.


(** *** The platform of a package *)

Section PlatformProperties.

Context (ext : Extensions) (glob_matches : GlobPattern -> string -> bool)
        (getPlatform : string).

Local Notation considerPlatform' :=
  (considerPlatform ext glob_matches getPlatform).
Local Notation loop' := (considerPlatform_loop ext glob_matches).

(** Once [platformSpecificConfig] is assigned, the loop over the files
    goes through. *)
Lemma considerPlatform_loop_returns (package : Package) (l : list PackFile)
    (acc : option bool) :
  platformSpecificConfig package <> None ->
  exists found, loop' package l acc = Ok found.
Proof.
  intros Hc. revert acc. induction l as [|f l IH]; intros acc; simpl; [eauto|].
  destruct (isExcluded ext glob_matches f package) as [[|]|e] eqn:E;
    [apply IH|apply IH|].
  apply isExcluded_raises_only in E as (_ & _ & Hn & _). contradiction.
Qed.

Lemma considerPlatform_loop_true (package : Package) (l : list PackFile)
    (acc : option bool) :
  platformSpecificConfig package <> None ->
  acc = Some true \/
  (exists f, f ∈ l /\ platformSpecific f = true /\
             isExcluded ext glob_matches f package = Ok false) ->
  loop' package l acc = Ok (Some true).
Proof.
  intros Hc. revert acc. induction l as [|f l IH]; intros acc Hcase; simpl.
  - destruct Hcase as [->|(f & Hf & _)]; [reflexivity|inversion Hf].
  - destruct (isExcluded ext glob_matches f package) as [[|]|e] eqn:E.
    + apply IH. destruct Hcase as [->|(g & Hg & Hp & Hx)]; [auto|].
      apply elem_of_cons in Hg as [->|Hg]; [congruence|eauto].
    + apply IH. destruct Hcase as [->|(g & Hg & Hp & Hx)].
      * left. destruct (platformSpecific f); reflexivity.
      * apply elem_of_cons in Hg as [->|Hg]; [|eauto].
        left. rewrite Hp. reflexivity.
    + apply isExcluded_raises_only in E as (_ & _ & Hn & _). contradiction.
Qed.

(** X16: [considerPlatform] leaves a package as it is, and returns
    normally, when the package is configured as not platform-specific,
    whatever files it holds, and when the package already has a
    platform. *)
Theorem considerPlatform_keeps (st : PState) :
  platformSpecificConfig (self st) = Some (Some false) \/
  (platformSpecificConfig (self st) <> None /\
   truthy (platform (self st)) = true) ->
  considerPlatform' st = (st, Ok tt).
Proof.
  intros Hcase. unfold considerPlatform, bind, get, lift.
  destruct (platformSpecificConfig (self st)) as [config|] eqn:Ec.
  2:{ destruct Hcase as [H|[H _]]; [discriminate|contradiction]. }
  destruct (considerPlatform_loop_returns (self st) (files (self st)) config)
    as (found & ->); [rewrite Ec; discriminate|].
  destruct Hcase as [[= ->]|[_ Hp]].
  - rewrite (bool_decide_eq_true_2 (Some false = Some false)) by reflexivity.
    rewrite andb_false_r. reflexivity.
  - rewrite Hp. cbn [negb].
    destruct (bool_decide (found = Some true) && _); reflexivity.
Qed.

(** X17: [considerPlatform] gives a package without a platform the
    platform of the build when the package is configured as
    platform-specific, or is not configured either way and holds a
    platform-specific file that is not excluded; nothing else of the
    package changes. *)
Theorem considerPlatform_sets (st : PState) (config : option bool) :
  platformSpecificConfig (self st) = Some config ->
  config <> Some false ->
  truthy (platform (self st)) = false ->
  config = Some true \/
  (exists f, f ∈ files (self st) /\ platformSpecific f = true /\
             isExcluded ext glob_matches f (self st) = Ok false) ->
  considerPlatform' st
  = (mkPState (set_platform (Some getPlatform) (self st)) (notify st) (disk st),
     Ok tt).
Proof.
  intros Ec Hnf Hp Hcase. unfold considerPlatform, bind, get, lift.
  rewrite Ec.
  rewrite (considerPlatform_loop_true (self st) (files (self st)) config)
    by (rewrite ?Ec; auto; discriminate).
  rewrite bool_decide_eq_true_2 by reflexivity.
  rewrite bool_decide_eq_false_2 by exact Hnf.
  rewrite Hp. reflexivity.
Qed.

End PlatformProperties.

(** A package with a shared library: configured as not
    platform-specific it keeps no platform. *)
Lemma considerPlatform_keeps_witness :
  let st := fresh (tools_with_library (Some (Some false))) in
  considerPlatform linux_extensions sample_glob_matches "linux_amd64" st
  = (st, Ok tt).
Proof.
  cbv zeta. apply considerPlatform_keeps. left. reflexivity.
Defined.

(** The same package without a setting: it takes the platform of the
    build. *)
Lemma considerPlatform_sets_witness :
  let st := fresh (tools_with_library (Some None)) in
  platform (self (fst (considerPlatform linux_extensions sample_glob_matches
                                        "linux_amd64" st)))
  = Some "linux_amd64".
Proof.
  cbv zeta.
  rewrite (considerPlatform_sets linux_extensions sample_glob_matches
             "linux_amd64" _ None); try reflexivity; try discriminate.
  right. eexists. split; [apply list_elem_of_singleton; reflexivity|].
  split; reflexivity.
Defined.

(** *** The directives *)

(** [addFile] leaves the name, the application flag and the main module
    of the package. *)
Lemma addFile_keeps_identity (ext : Extensions) (fs : FileSystem)
    (glob_matches : GlobPattern -> string -> bool)
    (a : PackFileArgs) (st : PState) :
  packageName (self (fst (addFile ext fs glob_matches a st)))
  = packageName (self st) /\
  p3dApplication (self (fst (addFile ext fs glob_matches a st)))
  = p3dApplication (self st) /\
  mainModule (self (fst (addFile ext fs glob_matches a st)))
  = mainModule (self st).
Proof.
  destruct (addFile_inv ext fs glob_matches a st) as (_ & H).
  cbv zeta in H. revert H. generalize (PackFile_init ext fs a). intros file.
  intros [(-> & _) | [(_ & _ & -> & _) | (_ & _ & _ & ->)]];
    repeat split.
Qed.

Section MainModuleDirective.

Context (ext : Extensions) (fs : FileSystem)
        (glob_matches : GlobPattern -> string -> bool)
        (freezer_has_module : list FreezerCall -> string -> bool)
        (dc_read : string -> option (list (string * list string)))
        (dcClientSuffixes : list string)
        (temporary : string -> string -> string -> string)
        (installMultifile_rest : string -> M PState unit).

Local Notation installMultifile_begin' :=
  (installMultifile_begin ext glob_matches freezer_has_module dc_read
                          dcClientSuffixes temporary).
Local Notation installMultifile' :=
  (installMultifile ext glob_matches freezer_has_module dc_read
                    dcClientSuffixes temporary installMultifile_rest).

(** With a main module, [installMultifile] goes on after its start,
    for an application as for any other package. *)
Lemma installMultifile_with_main (st : PState) (m : string * string) :
  mainModule (self st) = Some m ->
  installMultifile' st
  = match installMultifile_begin' st with
    | (stb, Ok multifileFilename) => installMultifile_rest multifileFilename stb
    | (stb, Raise e) => (stb, Raise e)
    end.
Proof.
  intros Hmain.
  destruct (installMultifile_begin_spec ext glob_matches freezer_has_module
              dc_read dcClientSuffixes temporary st) as (_ & Hm & _ & _).
  cbv zeta in Hm. unfold installMultifile, bind, get.
  destruct (installMultifile_begin' st) as [stb [name|e]]; [|reflexivity].
  cbn [fst] in Hm. rewrite Hm, Hmain. reflexivity.
Qed.

(** X18: inside a package definition [do_mainModule] returns normally
    and leaves the pair of the module name and its new name, the module
    name itself when none is given, as the main module of the package,
    also when the file it is given is turned away by [addFile]. An
    application closed after it therefore passes the check of the main
    module in [installMultifile]. *)
Theorem do_mainModule_sets (moduleName : string) (newName_ fname : option string)
    (w : Packager) (p : Package) :
  currentPackage w = Some p ->
  let r := do_mainModule ext fs glob_matches moduleName newName_ fname w in
  snd r = Ok tt /\
  exists p',
    currentPackage (fst r) = Some p' /\
    mainModule p'
    = Some (moduleName,
            if truthy newName_ then str_option newName_ else moduleName) /\
    packageName p' = packageName p /\
    p3dApplication p' = p3dApplication p /\
    forall log d,
      installMultifile' (mkPState p' log d)
      = match installMultifile_begin' (mkPState p' log d) with
        | (stb, Ok multifileFilename) =>
            installMultifile_rest multifileFilename stb
        | (stb, Raise e) => (stb, Raise e)
        end.
Proof.
  intros Hcur. cbv zeta.
  assert (Heq : exists p1 log d,
    do_mainModule ext fs glob_matches moduleName newName_ fname w
    = (mkPackager
         (Some (set_mainModule
                  (Some (moduleName,
                         if truthy newName_ then str_option newName_
                         else moduleName)) p1))
         (packages w) log d, Ok tt) /\
    packageName p1 = packageName p /\ p3dApplication p1 = p3dApplication p).
  { unfold do_mainModule, bind at 1, get. rewrite Hcur.
    destruct w as [cur pk log dsk]. cbn in Hcur. subst cur.
    assert (Hwarn : exists log',
      (match mainModule p with
       | Some (old, _) =>
           if negb (String.eqb old moduleName)
           then pk_warning ("Replacing mainModule " +:+ old +:+ " with "
                            +:+ moduleName)
           else ret tt
       | None => ret tt
       end) (mkPackager (Some p) pk log dsk)
      = (mkPackager (Some p) pk log' dsk, Ok tt)).
    { destruct (mainModule p) as [[old n]|];
        [destruct (negb (String.eqb old moduleName))|]; eexists; reflexivity. }
    destruct Hwarn as (log' & Hwarn).
    unfold bind. rewrite Hwarn.
    destruct (truthy fname).
    - unfold onCurrent.
      cbn [currentPackage pk_notify pk_disk packages].
      match goal with
      | |- context [addFile ext fs glob_matches ?a ?s] =>
          pose proof (addFile_returns ext fs glob_matches a s
                        (or_introl eq_refl)) as Hok;
          pose proof (addFile_keeps_identity ext fs glob_matches a s)
            as (Hn & Hp & _);
          destruct (addFile ext fs glob_matches a s) as [st1 r1]
      end.
      cbn [fst snd self] in *. subst r1.
      unfold on_self, modify.
      cbn [currentPackage pk_notify pk_disk packages self notify disk].
      exists (self st1), (notify st1), (disk st1). auto.
    - unfold ret, onCurrent, on_self, modify.
      cbn [currentPackage pk_notify pk_disk packages self notify disk].
      exists p, log', dsk. auto. }
  destruct Heq as (p1 & log & d & -> & Hn & Hp).
  cbn [fst snd currentPackage].
  split; [reflexivity|]. eexists. split; [reflexivity|].
  cbn [mainModule packageName p3dApplication set_mainModule].
  repeat split; try assumption.
  intros log0 d0. eapply installMultifile_with_main. reflexivity.
Qed.

End MainModuleDirective.

(** The application [game]: after [mainModule('main')] the installation
    goes through the check of the main module. *)
Lemma do_mainModule_sets_witness :
  let w :=
    fst (do_mainModule linux_extensions (sample_fs ["src/main.py"])
           sample_glob_matches "main" None None (defining (game true))) in
  (mainModule <$> currentPackage w) = Some (Some ("main", "main")) /\
  (snd <$> (sample_installMultifile <$> (fresh <$> currentPackage w)))
  = Some (Ok tt).
Proof.
  cbv zeta.
  destruct (do_mainModule_sets linux_extensions (sample_fs ["src/main.py"])
              sample_glob_matches (fun _ _ => false) (fun _ => None) ["OV"]
              (fun d prefix suffix => "/tmp/" +:+ prefix +:+ "0" +:+ suffix)
              (fun _ => ret tt) "main" None None (defining (game true))
              (game true) eq_refl)
    as (_ & p' & Hc & Hm & _ & _ & Hinst).
  cbv zeta in Hc. rewrite Hc. cbn [fmap option_fmap option_map].
  split; [rewrite Hm; reflexivity|].
  unfold sample_installMultifile, fresh. rewrite Hinst.
  clear Hinst Hm. vm_compute in Hc. injection Hc as <-.
  vm_compute. reflexivity.
Defined.

Section DirectiveProperties.

Context (ext : Extensions) (fs : FileSystem)
        (glob_matches : GlobPattern -> string -> bool)
        (getPlatform : string)
        (remapExtensions : list (string * string))
        (glob_glob : string -> list string)
        (knownExtensions : list string)
        (vfs_entry : string -> DirEntry).

(** X19: outside of a package definition the directives [config],
    [exclude], [mainModule], [file] and [dir] raise
    [OutsideOfPackageError] and leave the packager as it is, whatever
    their arguments. *)
Theorem directives_outside_package (w : Packager)
    (kw : gmap string ConfigValue) (pat moduleName dirname : string)
    (newName_ fname text_ newDir : option string)
    (extract_ executable_ unprocessed_ : option bool)
    (deleteTemp_ literal : bool) (filenames : list string) :
  currentPackage w = None ->
  do_config kw w = (w, Raise OutsideOfPackageError) /\
  do_exclude fs getPlatform pat w = (w, Raise OutsideOfPackageError) /\
  do_mainModule ext fs glob_matches moduleName newName_ fname w
  = (w, Raise OutsideOfPackageError) /\
  addFiles ext fs glob_matches remapExtensions glob_glob filenames text_
           newName_ newDir extract_ executable_ deleteTemp_ literal w
  = (w, Raise OutsideOfPackageError) /\
  do_dir ext fs glob_matches knownExtensions vfs_entry dirname newDir
         unprocessed_ w
  = (w, Raise OutsideOfPackageError).
Proof.
  intros Hcur.
  unfold do_config, do_exclude, do_mainModule, addFiles, do_dir, bind, get.
  rewrite Hcur. repeat split.
Qed.

(** X20: [beginPackage] opens an empty package with the two flags it
    is given, and a second [beginPackage] before the package is closed
    raises a [PackagerError] that names the open package, which stays
    open and untouched. *)
Theorem beginPackage_twice (w : Packager) (name name' : string)
    (application solo_ application' solo' : bool) :
  currentPackage w = None ->
  let w1 := fst (beginPackage name application solo_ w) in
  currentPackage w1
  = Some (set_solo solo_ (set_p3dApplication application (Package_init name))) /\
  beginPackage name' application' solo' w1
  = (w1, Raise (PackagerError ("unclosed endPackage " +:+ name))).
Proof.
  intros Hcur. cbv zeta. unfold beginPackage, bind, get, modify.
  rewrite Hcur. cbn [fst currentPackage]. split; reflexivity.
Qed.

Lemma do_config_loop (l : list (string * ConfigValue)) (p : Package)
    (pk : gmap (string * option string * option string * option string)
               ImportPackage)
    (log : list LogRecord) (d : gmap string (list XmlNode)) :
  NoDup (l.*1) ->
  forM_ l (fun kv =>
    onCurrent (on_self (fun p =>
      set_configs (<[fst kv := snd kv]> (configs p)) p)))
    (mkPackager (Some p) pk log d)
  = (mkPackager (Some (set_configs (list_to_map l ∪ configs p) p)) pk log d,
     Ok tt).
Proof.
  revert p. induction l as [|[k v] l IH]; intros p Hnd.
  - cbn. rewrite (left_id_L ∅ (∪)). destruct p; reflexivity.
  - cbn [forM_]. unfold bind, onCurrent at 1, on_self at 1, modify at 1.
    cbn [currentPackage pk_notify pk_disk packages self notify disk fst snd].
    apply NoDup_cons in Hnd as [Hk Hnd].
    rewrite IH by exact Hnd.
    cbn [configs set_configs list_to_map foldr fmap list_fmap].
    rewrite <- insert_union_r
      by (apply not_elem_of_list_to_map_1; exact Hk).
    rewrite insert_union_l. reflexivity.
Qed.

(** X21: inside a package definition [do_config] gives the keywords of
    the call their values in the configuration of the package and
    leaves every other variable, and everything else of the package, as
    it is. *)
Theorem do_config_sets (kw : gmap string ConfigValue) (w : Packager)
    (p : Package) :
  currentPackage w = Some p ->
  do_config kw w
  = (mkPackager (Some (set_configs (kw ∪ configs p) p)) (packages w)
                (pk_notify w) (pk_disk w), Ok tt).
Proof.
  intros Hcur. unfold do_config, bind at 1, get. rewrite Hcur.
  destruct w as [cur pk log d]. cbn in Hcur. subst cur.
  rewrite do_config_loop by apply NoDup_fst_map_to_list.
  rewrite list_to_map_to_list. reflexivity.
Qed.

End DirectiveProperties.

(** A [config] outside of any package. *)
Lemma directives_outside_package_witness :
  do_config {["auto_start" := CBool true]} idle
  = (idle, Raise OutsideOfPackageError).
Proof.
  apply (directives_outside_package linux_extensions (sample_fs [])
           sample_glob_matches "linux_amd64" [] (fun _ => []) []
           (fun n => DirFile n) idle {["auto_start" := CBool true]}
           "" "" "" None None None None None None None false false []).
  reflexivity.
Defined.

(** A package [game] begun twice. *)
Lemma beginPackage_twice_witness :
  beginPackage "other" false false (fst (beginPackage "game" true false idle))
  = (fst (beginPackage "game" true false idle),
     Raise (PackagerError "unclosed endPackage game")).
Proof.
  apply (beginPackage_twice idle "game" "other" true false false false).
  reflexivity.
Defined.

(** Two settings on the package [game], one of them given before. *)
Lemma do_config_sets_witness :
  let w :=
    fst (do_config {["auto_start" := CBool true]} (defining (game true))) in
  (configs <$> currentPackage
     (fst (do_config (<["auto_start" := CBool false]>
                        {["display_name" := CUnicode "Game"]}) w)))
  = Some (<["auto_start" := CBool false]>
            {["display_name" := CUnicode "Game"]}).
Proof.
  cbv zeta.
  rewrite (do_config_sets _ (defining (game true)) (game true) eq_refl).
  cbn [fst].
  erewrite do_config_sets by reflexivity.
  vm_compute. reflexivity.
Defined.

(** *** Files and directories *)

Lemma extended_implicitly_refl (p : Package) : extended_implicitly p p.
Proof. exists []. rewrite app_nil_r. split; [reflexivity|constructor]. Qed.

Lemma extended_implicitly_trans (p q r : Package) :
  extended_implicitly p q -> extended_implicitly q r -> extended_implicitly p r.
Proof.
  intros (a1 & E1 & H1) (a2 & E2 & H2). exists (a1 ++ a2)%list.
  rewrite E2, E1, app_assoc. split; [reflexivity|].
  apply Forall_app. auto.
Qed.

(** A file that is not explicit, handed to [addFile] of the current
    package: the package is extended by files that are not explicit,
    whether the call returns or raises. *)
Lemma onCurrent_addFile_implicit (ext : Extensions) (fs : FileSystem)
    (glob_matches : GlobPattern -> string -> bool)
    (a : PackFileArgs) (w : Packager) (p : Package) :
  a_explicit a = false ->
  currentPackage w = Some p ->
  exists p',
    currentPackage (fst (onCurrent (addFile ext fs glob_matches a) w)) = Some p' /\
    extended_implicitly p p'.
Proof.
  intros He Hcur. unfold onCurrent. rewrite Hcur.
  destruct (addFile_inv ext fs glob_matches a (mkPState p (pk_notify w) (pk_disk w)))
    as (_ & H).
  cbv zeta in H.
  assert (Hx : explicit (PackFile_init ext fs a) = false) by exact He.
  revert H Hx. generalize (PackFile_init ext fs a). intros file H Hx.
  destruct (addFile ext fs glob_matches a _) as [st1 r1].
  cbn [fst snd self currentPackage] in *.
  exists (self st1). split; [reflexivity|].
  destruct H as [(-> & _) | [(_ & _ & -> & _) | (_ & _ & _ & ->)]].
  - apply extended_implicitly_refl.
  - exists []. cbn. rewrite app_nil_r. split; [reflexivity|constructor].
  - exists [file]. cbn. split; [reflexivity|]. repeat constructor. exact Hx.
Qed.

Section FileProperties.

Context (ext : Extensions) (fs : FileSystem)
        (glob_matches : GlobPattern -> string -> bool)
        (remapExtensions : list (string * string))
        (glob_glob : string -> list string)
        (knownExtensions : list string)
        (vfs_entry : string -> DirEntry).

Local Notation addFiles_expand' := (addFiles_expand remapExtensions glob_glob).
Local Notation addFiles' :=
  (addFiles ext fs glob_matches remapExtensions glob_glob).
Local Notation recurseDir' := (recurseDir ext fs glob_matches knownExtensions).
Local Notation do_dir' :=
  (do_dir ext fs glob_matches knownExtensions vfs_entry).

(** Every name of [addFiles] stands for one file at least. *)
Lemma addFiles_expand_length (literal : bool) (filenames files : list string)
    (e : bool) (x : option bool) :
  length files + length filenames
  <= length (fst (fst (addFiles_expand' literal filenames files e x))) /\
  (filenames = [] ->
   fst (fst (addFiles_expand' literal filenames files e x)) = files).
Proof.
  revert files e x. induction filenames as [|fname rest IH]; intros files e x.
  - cbn. split; [lia|reflexivity].
  - cbn [addFiles_expand]. split; [|discriminate].
    set (step := if literal then _ else _).
    assert (Hstep : 1 <= length (fst step)).
    { subst step. destruct literal; [cbn; lia|].
      destruct (glob_glob _); cbn; lia. }
    destruct step as [thisFiles x']. cbn [fst] in Hstep.
    destruct (IH (files ++ thisFiles)%list
                 (if (1 <? length thisFiles)%nat then false else e) x')
      as [Hlen _].
    rewrite length_app in Hlen. cbn [length]. lia.
Qed.

(** X22: [addFiles] with a target name and not exactly one file name
    raises a [PackagerError] before any file is added: the packager is
    left as it was. A target name can only be given to a single
    file. *)
Theorem addFiles_newName_many (filenames : list string)
    (text_ newName_ newDir : option string) (extract_ executable_ : option bool)
    (deleteTemp_ literal : bool) (w : Packager) (p : Package) :
  currentPackage w = Some p ->
  truthy newName_ = true ->
  length filenames <> 1 ->
  addFiles' filenames text_ newName_ newDir extract_ executable_ deleteTemp_
            literal w
  = (w, Raise (PackagerError
                 ("Cannot install multiple files on target filename " +:+
                  str_option newName_))).
Proof.
  intros Hcur Hn Hlen. unfold addFiles, bind, get. rewrite Hcur.
  destruct (addFiles_expand_length literal filenames [] true executable_)
    as [Hge Hnil].
  destruct (addFiles_expand' literal filenames [] true executable_)
    as [[files e] x]. cbn [fst length] in *.
  rewrite Hn. cbn [andb].
  assert (Hne : (length files =? 1)%nat = false).
  { apply Nat.eqb_neq. destruct filenames as [|f1 [|f2 rest]].
    - rewrite Hnil by reflexivity. discriminate.
    - contradiction.
    - cbn in Hge. lia. }
  rewrite Hne. reflexivity.
Qed.

(** When one of the names stands for several files, the first loop of
    [addFiles] leaves [explicit] false. *)
Lemma addFiles_expand_implicit (filenames files : list string) (e : bool)
    (x : option bool) (fname : string) :
  e = false \/
  (fname ∈ filenames /\
   2 <= length (glob_glob
                  match assoc_get (Filename.getExtension fname) remapExtensions with
                  | Some newExt => setExtension newExt fname
                  | None => fname
                  end)) ->
  snd (fst (addFiles_expand' false filenames files e x)) = false.
Proof.
  revert files e x. induction filenames as [|f rest IH]; intros files e x Hcase.
  - destruct Hcase as [->|[Hin _]]; [reflexivity|inversion Hin].
  - cbn [addFiles_expand].
    set (name := match assoc_get (Filename.getExtension f) remapExtensions with
                 | Some newExt => setExtension newExt f
                 | None => f
                 end).
    destruct (glob_glob name) as [|g1 gs] eqn:Eg.
    + apply IH. destruct Hcase as [->|[Hin Hlen]]; [left; reflexivity|].
      apply elem_of_cons in Hin as [->|Hin]; [|right; auto].
      fold name in Hlen. rewrite Eg in Hlen. cbn in Hlen. lia.
    + apply IH. destruct Hcase as [->|[Hin Hlen]].
      * left. destruct (1 <? length (g1 :: gs))%nat; reflexivity.
      * apply elem_of_cons in Hin as [->|Hin]; [|right; auto].
        left. fold name in Hlen. rewrite Eg in Hlen.
        destruct (Nat.ltb_spec 1 (length (g1 :: gs))); [reflexivity|lia].
Qed.

(** X23: when one of the names given to [addFiles] stands for several
    files, every file of the call is added as not explicit, also the
    files named one by one: the package is extended by files that are
    not explicit, so that the exclusions of the package apply to
    them. *)
Theorem addFiles_glob_implicit (filenames : list string) (fname : string)
    (text_ newName_ newDir : option string) (extract_ executable_ : option bool)
    (deleteTemp_ : bool) (w : Packager) (p : Package) :
  currentPackage w = Some p ->
  fname ∈ filenames ->
  2 <= length (glob_glob
                 match assoc_get (Filename.getExtension fname) remapExtensions with
                 | Some newExt => setExtension newExt fname
                 | None => fname
                 end) ->
  exists p',
    currentPackage
      (fst (addFiles' filenames text_ newName_ newDir extract_ executable_
                      deleteTemp_ false w)) = Some p' /\
    extended_implicitly p p'.
Proof.
  intros Hcur Hin Hglob. unfold addFiles, bind at 1, get. rewrite Hcur.
  pose proof (addFiles_expand_implicit filenames [] true executable_ fname
                (or_intror (conj Hin Hglob))) as He.
  destruct (addFiles_expand' false filenames [] true executable_)
    as [[files e] x]. cbn [fst snd] in He. subst e.
  destruct (truthy newName_ && negb (length files =? 1)%nat);
    [exists p; split; [exact Hcur|apply extended_implicitly_refl]|].
  destruct (truthy text_ && negb (length files =? 1)%nat);
    [exists p; split; [exact Hcur|apply extended_implicitly_refl]|].
  generalize (if truthy text_ && negb (truthy newName_)
              then Some (hd EmptyString filenames) else newName_).
  intros name.
  clear Hin Hglob. revert w p Hcur.
  induction files as [|f files IH]; intros w p Hcur.
  - exists p. split; [exact Hcur|apply extended_implicitly_refl].
  - cbn [forM_]. unfold bind.
    match goal with
    | |- context [onCurrent (addFile ext fs glob_matches ?a) w] =>
        destruct (onCurrent_addFile_implicit ext fs glob_matches a w p
                    eq_refl Hcur) as (p1 & Hc1 & He1);
        destruct (onCurrent (addFile ext fs glob_matches a) w) as [w1 [[]|err]]
    end; cbn [fst] in *.
    + destruct (IH w1 p1 Hc1) as (p2 & Hc2 & He2).
      exists p2. split; [exact Hc2|].
      apply (extended_implicitly_trans _ p1); assumption.
    + exists p1. auto.
Qed.

End FileProperties.

(** [file('a.txt', 'b.txt', newName = 'c.txt')] *)
Lemma addFiles_newName_many_witness :
  addFiles linux_extensions (sample_fs []) sample_glob_matches []
           (fun _ => []) ["a.txt"; "b.txt"] None (Some "c.txt") None None None
           false false (defining (Package_init "docs"))
  = (defining (Package_init "docs"),
     Raise (PackagerError
              "Cannot install multiple files on target filename c.txt")).
Proof.
  apply (addFiles_newName_many linux_extensions (sample_fs [])
           sample_glob_matches [] (fun _ => []) ["a.txt"; "b.txt"] None
           (Some "c.txt") None None None false false
           (defining (Package_init "docs")) (Package_init "docs"));
    [reflexivity|reflexivity|discriminate].
Defined.

(** [file('doc/*.txt', 'readme.md')] where the pattern matches two
    files: all three files are added as not explicit. *)
Lemma addFiles_glob_implicit_witness :
  let globbed pat :=
    if String.eqb pat "doc/*.txt" then ["doc/a.txt"; "doc/b.txt"] else [] in
  let fs := sample_fs ["doc/a.txt"; "doc/b.txt"; "readme.md"] in
  exists p',
    currentPackage
      (fst (addFiles linux_extensions fs sample_glob_matches [] globbed
                     ["doc/*.txt"; "readme.md"] None None None None None
                     false false (defining (Package_init "docs")))) = Some p' /\
    extended_implicitly (Package_init "docs") p'.
Proof.
  cbv zeta.
  apply (addFiles_glob_implicit linux_extensions
           (sample_fs ["doc/a.txt"; "doc/b.txt"; "readme.md"])
           sample_glob_matches []
           (fun pat => if String.eqb pat "doc/*.txt"
                       then ["doc/a.txt"; "doc/b.txt"] else [])
           ["doc/*.txt"; "readme.md"] "doc/*.txt").
  - reflexivity.
  - left.
  - cbn. lia.
Defined.

Lemma DirEntry_nested_ind (P : DirEntry -> Prop) :
  (forall path, P (DirFile path)) ->
  (forall path entries, Forall P entries -> P (DirDir path entries)) ->
  forall entry, P entry.
Proof.
  intros Hfile Hdir. fix IH 1. intros [path|path entries].
  - apply Hfile.
  - apply Hdir. induction entries as [|e l IHl]; constructor.
    + apply IH.
    + exact IHl.
Qed.

Section DirProperties.

Context (ext : Extensions) (fs : FileSystem)
        (glob_matches : GlobPattern -> string -> bool)
        (knownExtensions : list string)
        (vfs_entry : string -> DirEntry).

Local Notation recurseDir' := (recurseDir ext fs glob_matches knownExtensions).
Local Notation do_dir' :=
  (do_dir ext fs glob_matches knownExtensions vfs_entry).

Lemma recurseDir_file_implicit (fname newName_ : string)
    (unprocessed_ : option bool) (w : Packager) (p : Package) :
  currentPackage w = Some p ->
  exists p',
    currentPackage
      (fst (recurseDir_file ext fs glob_matches knownExtensions fname newName_
                            unprocessed_ w)) = Some p' /\
    extended_implicitly p p'.
Proof.
  intros Hcur. unfold recurseDir_file.
  repeat match goal with
         | |- context [if ?b then _ else _] => destruct b
         end;
    first [ apply onCurrent_addFile_implicit; [reflexivity|exact Hcur]
          | exists p; split; [exact Hcur|apply extended_implicitly_refl] ].
Qed.

(** [__recurseDir] extends the current package by files that are not
    explicit. *)
Lemma recurseDir_implicit (entry : DirEntry) :
  forall (newName_ : string) (unprocessed_ : option bool)
         (w : Packager) (p : Package),
  currentPackage w = Some p ->
  exists p',
    currentPackage (fst (recurseDir' entry newName_ unprocessed_ w)) = Some p' /\
    extended_implicitly p p'.
Proof.
  induction entry as [path|path entries IH] using DirEntry_nested_ind;
    intros newName_ unprocessed_ w p Hcur.
  - apply recurseDir_file_implicit, Hcur.
  - destruct entries as [|sub subs].
    + apply recurseDir_file_implicit, Hcur.
    + assert (Hloop : forall (prefix : string) (l : list DirEntry),
        Forall (fun entry => forall newName_ unprocessed_ w p,
                  currentPackage w = Some p ->
                  exists p',
                    currentPackage
                      (fst (recurseDir' entry newName_ unprocessed_ w)) = Some p' /\
                    extended_implicitly p p') l ->
        forall w p, currentPackage w = Some p ->
        exists p',
          currentPackage
            (fst ((fix each (l : list DirEntry) : M Packager unit :=
                     match l with
                     | [] => ret tt
                     | subfile :: l' =>
                         recurseDir' subfile
                           (prefix +:+
                            Filename.getBasename (entry_path subfile)) None ;;;
                         each l'
                     end) l w)) = Some p' /\
          extended_implicitly p p').
      { clear. intros prefix l Hall.
        induction Hall as [|e l He Hl IHl]; intros w p Hcur.
        - exists p. split; [exact Hcur|apply extended_implicitly_refl].
        - unfold bind at 1.
          destruct (He (prefix +:+ Filename.getBasename (entry_path e)) None
                       w p Hcur) as (p1 & Hc1 & He1).
          destruct (recurseDir' e _ None w) as [w1 [[]|err]]; cbn [fst] in *.
          + destruct (IHl w1 p1 Hc1) as (p2 & Hc2 & He2).
            exists p2. split; [exact Hc2|].
            apply (extended_implicitly_trans _ p1); assumption.
          + exists p1. auto. }
      exact (Hloop (with_slash newName_) (sub :: subs) IH w p Hcur).
Qed.

(** X24: [do_dir] extends the current package by files that are not
    explicit, however deep the directory is, so that the exclusions of
    the package apply to all of them; and for a directory that holds
    an entry the [unprocessed] argument has no effect, as the walk
    does not hand it down to the entries. *)
Theorem do_dir_implicit (dirname : string) (newDir : option string)
    (unprocessed_ : option bool) (w : Packager) (p : Package) :
  currentPackage w = Some p ->
  (exists p',
     currentPackage (fst (do_dir' dirname newDir unprocessed_ w)) = Some p' /\
     extended_implicitly p p') /\
  match vfs_entry dirname with
  | DirDir _ (_ :: _) =>
      do_dir' dirname newDir unprocessed_ w = do_dir' dirname newDir None w
  | _ => True
  end.
Proof.
  intros Hcur. unfold do_dir, bind, get. rewrite Hcur. split.
  - apply recurseDir_implicit, Hcur.
  - destruct (vfs_entry dirname) as [path|path [|sub subs]]; try exact I.
    reflexivity.
Qed.

End DirProperties.

(** [dir('art', unprocessed = True)] on the sample tree: the model and
    the script are added, not the file of an unknown extension, and
    both as not explicit and without the [unprocessed] flag. *)
Lemma do_dir_implicit_witness :
  let fs := sample_fs ["art/tree.egg"; "art/notes.doc"; "art/scripts/grow.py"] in
  let w :=
    fst (do_dir linux_extensions fs sample_glob_matches ["egg"; "bam"; "txt"]
                (fun _ => art_tree) "art" None (Some true)
                (defining (Package_init "art"))) in
  (exists p', currentPackage w = Some p' /\
              extended_implicitly (Package_init "art") p') /\
  (map (fun f => (newName f, explicit f, unprocessed f)) <$>
     (files <$> currentPackage w))
  = Some [("tree.egg", false, false); ("scripts/grow.py", false, false)].
Proof.
  cbv zeta. split.
  - apply (do_dir_implicit linux_extensions
             (sample_fs ["art/tree.egg"; "art/notes.doc"; "art/scripts/grow.py"])
             sample_glob_matches ["egg"; "bam"; "txt"] (fun _ => art_tree)
             "art" None (Some true) (defining (Package_init "art"))
             (Package_init "art") eq_refl).
  - vm_compute. reflexivity.
Defined.

(** *** Keywords of the require directive *)

(** X25: inside a package definition, a [require] with a keyword other
    than [version], and without the [host] keyword, raises [TypeError]
    before any package is looked up: the message names a keyword that
    was given and is not [version], the packager is left as it was and
    nothing is required, whatever packages are named. *)
Theorem do_require_unexpected_keyword
    (getPackageVersionString getPackageHostUrl packager_platform : string)
    (installSearch : list string)
    (glob_glob : string -> list string)
    (readPackageImportDescFile : string -> option ImportPackage)
    (findPackageOnHost :
       string -> option string -> option string -> option string ->
       option ImportPackage)
    (str_package : ImportPackage -> string)
    (args : list string) (kw : gmap string (option string)) (k : string)
    (w : Packager) (p : Package) :
  currentPackage w = Some p ->
  kw !! "host" = None ->
  is_Some (kw !! k) ->
  k <> "version" ->
  exists key,
    is_Some (kw !! key) /\ key <> "version" /\
    do_require getPackageVersionString getPackageHostUrl packager_platform
               installSearch glob_glob readPackageImportDescFile
               findPackageOnHost str_package args kw w
    = (w, Raise (TypeError
                   ("do_require() got an unexpected keyword argument '" +:+
                    key +:+ "'"))).
Proof.
  intros Hcur Hhost Hk Hkv.
  assert (Hstep : exists kw2,
    kw2 !! "version" = None /\ kw2 ⊆ kw /\ is_Some (kw2 !! k) /\
    do_require getPackageVersionString getPackageHostUrl packager_platform
               installSearch glob_glob readPackageImportDescFile
               findPackageOnHost str_package args kw w
    = (w, Raise (TypeError
                   ("do_require() got an unexpected keyword argument '" +:+
                    match map_to_list kw2 with
                    | (key, _) :: _ => key
                    | [] => EmptyString
                    end +:+ "'")))).
  { unfold do_require, bind, get, raise. rewrite Hcur.
    destruct (kw !! "version") as [v|] eqn:Ev.
    - exists (delete "version" kw).
      rewrite bool_decide_eq_true_2 by eauto.
      unfold py_del at 1. rewrite Ev. unfold ret.
      rewrite bool_decide_eq_false_2
        by (rewrite lookup_delete_ne by discriminate; rewrite Hhost;
            intros [x Hx]; discriminate).
      assert (Hne : delete "version" kw <> ∅).
      { intros He. destruct Hk as [x Hx].
        assert (Hd : delete "version" kw !! k = Some x)
          by (rewrite lookup_delete_ne by congruence; exact Hx).
        rewrite He in Hd. rewrite lookup_empty in Hd. discriminate. }
      rewrite bool_decide_eq_false_2 by exact Hne. cbn [negb].
      split; [apply lookup_delete_eq|].
      split; [apply delete_subseteq|].
      split; [rewrite lookup_delete_ne by congruence; exact Hk|reflexivity].
    - exists kw.
      rewrite bool_decide_eq_false_2 by (intros [x Hx]; discriminate).
      unfold ret.
      rewrite bool_decide_eq_false_2
        by (rewrite Hhost; intros [x Hx]; discriminate).
      assert (Hne : kw <> ∅).
      { intros He. destruct Hk as [x Hx]. rewrite He in Hx.
        rewrite lookup_empty in Hx. discriminate. }
      rewrite bool_decide_eq_false_2 by exact Hne. cbn [negb].
      split; [exact Ev|]. split; [reflexivity|]. split; [exact Hk|reflexivity]. }
  destruct Hstep as (kw2 & Hv & Hsub & Hk2 & Heq).
  destruct (map_to_list kw2) as [|[key x] l] eqn:El.
  - apply map_to_list_empty_iff in El. subst kw2.
    destruct Hk2 as [y Hy]. rewrite lookup_empty in Hy. discriminate.
  - exists key.
    assert (Hkey : kw2 !! key = Some x).
    { apply elem_of_map_to_list. rewrite El. left. }
    split; [|split].
    + exists x. eapply lookup_weaken; eassumption.
    + intros ->. rewrite Hv in Hkey. discriminate.
    + exact Heq.
Qed.

(** [require('tools', version = '2.0', optional = True)] inside a
    package definition *)
Lemma do_require_unexpected_keyword_witness :
  let w := defining (Package_init "app") in
  let kw : gmap string (option string) :=
    <["version" := Some "2.0"]> {["optional" := Some "True"]} in
  exists key,
    is_Some (kw !! key) /\ key <> "version" /\
    sample_require ["tools"] kw w
    = (w, Raise (TypeError
                   ("do_require() got an unexpected keyword argument '" +:+
                    key +:+ "'"))).
Proof.
  cbv zeta. unfold sample_require.
  apply (do_require_unexpected_keyword _ _ _ _ _ _ _ _ _ _ "optional" _
           (Package_init "app")).
  - reflexivity.
  - rewrite lookup_insert_ne by discriminate.
    rewrite lookup_singleton_ne by discriminate. reflexivity.
  - rewrite lookup_insert_ne by discriminate.
    rewrite lookup_singleton_eq. eauto.
  - discriminate.
Defined.

(** *** Versions that are numbers *)

Lemma scan_while_all_digits (s : string) :
  all_digits s = true -> scan_while is_digit s = (s, EmptyString).
Proof.
  induction s as [|c s IH]; intros H; [reflexivity|].
  cbn [all_digits] in H. apply andb_prop in H as [Hc Hs].
  cbn [scan_while]. rewrite Hc, (IH Hs). reflexivity.
Qed.

Lemma makeVersionTuple_all_digits (a : string) :
  all_digits a = true -> a <> EmptyString ->
  makeVersionTuple a = [WStr EmptyString; WInt (int_of_digits a)].
Proof.
  intros Ha Hne. destruct a as [|c a]; [congruence|].
  pose proof Ha as Hall. cbn [all_digits] in Ha.
  apply andb_prop in Ha as [Hc _].
  unfold makeVersionTuple. cbn [String.length makeVersionTuple_loop].
  cbn [scan_while]. rewrite Hc. cbn [negb].
  rewrite (scan_while_all_digits _ Hall). cbn [String.eqb].
  destruct (String.length a); reflexivity.
Qed.

(** X26: a version that is a number, a non-empty string of digits,
    becomes the pair of an empty word and that number, so two such
    versions compare as numbers, whatever their lengths and leading
    zeros. *)
Theorem makeVersionTuple_numeric (a b : string) :
  all_digits a = true -> a <> EmptyString ->
  all_digits b = true -> b <> EmptyString ->
  makeVersionTuple a = [WStr EmptyString; WInt (int_of_digits a)] /\
  tuple_gt (makeVersionTuple a) (makeVersionTuple b)
  = (int_of_digits b <? int_of_digits a)%N.
Proof.
  intros Ha Hae Hb Hbe.
  rewrite (makeVersionTuple_all_digits a Ha Hae).
  rewrite (makeVersionTuple_all_digits b Hb Hbe).
  split; [reflexivity|].
  unfold tuple_gt. cbn [cmp_tuple cmp_word String.compare].
  unfold N.ltb. rewrite (N.compare_antisym (int_of_digits a) (int_of_digits b)).
  destruct (int_of_digits a ?= int_of_digits b)%N; reflexivity.
Qed.

(** Versions "10" and "9", and "010" and "9": the greater number is
    the greater version, although "10" and "010" sort before "9" as
    strings. *)
Lemma makeVersionTuple_numeric_witness :
  (makeVersionTuple "10" = [WStr EmptyString; WInt 10] /\
   tuple_gt (makeVersionTuple "10") (makeVersionTuple "9") = true) /\
  (makeVersionTuple "010" = [WStr EmptyString; WInt 10] /\
   tuple_gt (makeVersionTuple "010") (makeVersionTuple "9") = true).
Proof.
  split.
  - exact (makeVersionTuple_numeric "10" "9" eq_refl
             ltac:(discriminate) eq_refl ltac:(discriminate)).
  - exact (makeVersionTuple_numeric "010" "9" eq_refl
             ltac:(discriminate) eq_refl ltac:(discriminate)).
Defined.

(** *** Closing a package *)

Lemma same_build_refl (p : Package) : same_build p p.
Proof. repeat split. Qed.

Lemma same_build_trans (a b c : Package) :
  same_build a b -> same_build b c -> same_build a c.
Proof.
  intros (H1 & H2 & H3 & H4 & H5) (K1 & K2 & K3 & K4 & K5).
  repeat split; congruence.
Qed.

Lemma keeps_build_ret {A} (a : A) : keeps_build (ret a).
Proof. intros st. apply same_build_refl. Qed.

Lemma keeps_build_raise {A} (e : PyExn) : keeps_build (@raise PState A e).
Proof. intros st. apply same_build_refl. Qed.

Lemma keeps_build_get : keeps_build get.
Proof. intros st. apply same_build_refl. Qed.

Lemma keeps_build_on_self (f : Package -> Package) :
  (forall p, same_build p (f p)) -> keeps_build (on_self f).
Proof. intros Hf st. apply Hf. Qed.

Lemma keeps_build_bind {A B} (m : M PState A) (k : A -> M PState B) :
  keeps_build m -> (forall a, keeps_build (k a)) -> keeps_build (bind m k).
Proof.
  intros Hm Hk st. unfold bind. specialize (Hm st).
  destruct (m st) as [st1 [a|e]]; cbn [fst] in *; [|exact Hm].
  apply (same_build_trans _ (self st1)); [exact Hm|apply Hk].
Qed.

Lemma keeps_build_forM {A} (l : list A) (body : A -> M PState unit) :
  (forall x, keeps_build (body x)) -> keeps_build (forM_ l body).
Proof.
  intros Hb. induction l as [|x l IH]; simpl.
  - apply keeps_build_ret.
  - apply keeps_build_bind; [apply Hb|intros _; exact IH].
Qed.

Ltac build_step :=
  first [ apply keeps_build_bind; [|intros ?]
        | apply keeps_build_on_self; intros ?; repeat split
        | apply keeps_build_ret
        | apply keeps_build_raise
        | apply keeps_build_get
        | match goal with
          | |- keeps_build (if ?b then _ else _) => destruct b
          | |- keeps_build (match ?o with Some _ => _ | None => _ end) =>
              destruct o
          end ].

Lemma Package_requirePackage_keeps_build (package : ImportPackage) :
  keeps_build (Package_requirePackage package).
Proof.
  apply keeps_build_forM. intros p2 st.
  rewrite Package_requirePackage_round_eq.
  destruct (bool_decide (p2 ∈ requires (self st))); [apply same_build_refl|].
  cbn [fst self]. unfold same_build.
  rewrite !(fold_left_keeps packageName) by reflexivity.
  rewrite !(fold_left_keeps p3dApplication) by reflexivity.
  rewrite !(fold_left_keeps solo) by reflexivity.
  rewrite !(fold_left_keeps mainModule) by reflexivity.
  rewrite !(fold_left_keeps multifile) by reflexivity.
  repeat split.
Qed.

Lemma pk_keeps_build_ret {A} (a : A) : pk_keeps_build (ret a).
Proof. intros w p Hcur. exists p. split; [exact Hcur|apply same_build_refl]. Qed.

Lemma pk_keeps_build_raise {A} (e : PyExn) :
  pk_keeps_build (@raise Packager A e).
Proof. intros w p Hcur. exists p. split; [exact Hcur|apply same_build_refl]. Qed.

Lemma pk_keeps_build_get : pk_keeps_build get.
Proof. intros w p Hcur. exists p. split; [exact Hcur|apply same_build_refl]. Qed.

Lemma pk_keeps_build_bind {A B} (m : M Packager A) (k : A -> M Packager B) :
  pk_keeps_build m -> (forall a, pk_keeps_build (k a)) ->
  pk_keeps_build (bind m k).
Proof.
  intros Hm Hk w p Hcur. unfold bind.
  destruct (Hm w p Hcur) as (p1 & Hc1 & Hb1).
  destruct (m w) as [w1 [a|e]]; cbn [fst] in *; [|eauto].
  destruct (Hk a w1 p1 Hc1) as (p2 & Hc2 & Hb2).
  exists p2. split; [exact Hc2|].
  apply (same_build_trans _ p1); assumption.
Qed.

Lemma pk_keeps_build_onCurrent {A} (m : M PState A) :
  keeps_build m -> pk_keeps_build (onCurrent m).
Proof.
  intros Hm w p Hcur. unfold onCurrent. rewrite Hcur.
  specialize (Hm (mkPState p (pk_notify w) (pk_disk w))).
  destruct (m _) as [st r]. cbn [fst self currentPackage] in *. eauto.
Qed.

Lemma pk_keeps_build_warning (msg : string) : pk_keeps_build (pk_warning msg).
Proof. intros w p Hcur. exists p. split; [exact Hcur|apply same_build_refl]. Qed.

Section CloseProperties.

Context (ext : Extensions)
        (glob_matches : GlobPattern -> string -> bool)
        (getPlatform getPackageVersionString getPackageHostUrl : string)
        (packager_platform : string) (installSearch : list string)
        (glob_glob : string -> list string)
        (readPackageImportDescFile : string -> option ImportPackage)
        (findPackageOnHost :
           string -> option string -> option string -> option string ->
           option ImportPackage)
        (str_package : ImportPackage -> string)
        (freezer_has_module : list FreezerCall -> string -> bool)
        (dc_read : string -> option (list (string * list string)))
        (dcClientSuffixes : list string)
        (temporary : string -> string -> string -> string)
        (installMultifile_rest : string -> M PState unit)
        (installDir packager_host : string)
        (other_is_None other_truthy : string -> bool)
        (scanDirectory : string -> list string)
        (installSolo_rest : string -> string -> PackFile -> M PState unit).

Local Notation close_configs' :=
  (close_configs getPackageVersionString getPackageHostUrl packager_host
                 other_is_None other_truthy).
Local Notation close_begin' :=
  (close_begin getPackageVersionString getPackageHostUrl packager_platform
               installSearch glob_glob readPackageImportDescFile
               findPackageOnHost str_package packager_host other_is_None
               other_truthy).
Local Notation close' :=
  (close ext glob_matches getPlatform getPackageVersionString
         getPackageHostUrl packager_platform installSearch glob_glob
         readPackageImportDescFile findPackageOnHost str_package
         freezer_has_module dc_read dcClientSuffixes temporary
         installMultifile_rest installDir packager_host other_is_None
         other_truthy scanDirectory installSolo_rest).
Local Notation installMultifile_begin' :=
  (installMultifile_begin ext glob_matches freezer_has_module dc_read
                          dcClientSuffixes temporary).
Local Notation installMultifile' :=
  (installMultifile ext glob_matches freezer_has_module dc_read
                    dcClientSuffixes temporary installMultifile_rest).

Lemma close_configs_keeps_build : keeps_build close_configs'.
Proof. unfold close_configs. repeat build_step. Qed.

Lemma close_inherit_keeps_build : keeps_build close_inherit.
Proof. unfold close_inherit. repeat build_step. Qed.

Lemma requirePackage_keeps_build (package : ImportPackage) :
  pk_keeps_build
    (requirePackage getPackageVersionString getPackageHostUrl str_package
                    package).
Proof.
  unfold requirePackage.
  apply pk_keeps_build_bind; [apply pk_keeps_build_get|intros w0].
  destruct (currentPackage w0); [|apply pk_keeps_build_raise].
  apply pk_keeps_build_bind.
  - repeat match goal with
           | |- pk_keeps_build (if ?b then _ else _) => destruct b
           end;
      first [apply pk_keeps_build_warning|apply pk_keeps_build_ret].
  - intros _. apply pk_keeps_build_onCurrent, Package_requirePackage_keeps_build.
Qed.

(** The [require] of [panda3d] that [close] makes for an application
    leaves the current package in place. *)
Lemma do_require_panda3d_keeps_build :
  pk_keeps_build
    (do_require getPackageVersionString getPackageHostUrl packager_platform
                installSearch glob_glob readPackageImportDescFile
                findPackageOnHost str_package ["panda3d"] ∅).
Proof.
  intros w p Hcur.
  pose proof (do_require_panda3d_eq getPackageVersionString getPackageHostUrl
                packager_platform installSearch glob_glob
                readPackageImportDescFile findPackageOnHost str_package
                None w p Hcur) as Heq.
  cbn iota in Heq. rewrite Heq. clear Heq.
  pose proof (findPackage_keeps packager_platform installSearch glob_glob
                readPackageImportDescFile findPackageOnHost "panda3d" None
                (Some getPackageVersionString) (Some getPackageHostUrl)
                (requires p) w) as [Hc _].
  destruct (findPackage _ _ _ _ _ _ _ _ _ _ w) as [w1 [[package|]|e]];
    cbn [fst] in Hc; rewrite Hcur in Hc.
  - cbn [fst]. apply requirePackage_keeps_build, Hc.
  - exists p. split; [exact Hc|apply same_build_refl].
  - exists p. split; [exact Hc|apply same_build_refl].
Qed.

(** [close] leaves the current package in place up to the choice of
    the installer, with its name, its flags and its main module. *)
Lemma close_begin_keeps_build : pk_keeps_build close_begin'.
Proof.
  unfold close_begin.
  apply pk_keeps_build_bind;
    [apply pk_keeps_build_onCurrent, close_configs_keeps_build|intros _].
  apply pk_keeps_build_bind; [apply pk_keeps_build_get|intros w0].
  apply pk_keeps_build_bind;
    [|intros _; apply pk_keeps_build_onCurrent, close_inherit_keeps_build].
  destruct (currentPackage w0) as [p0|]; [|apply pk_keeps_build_ret].
  destruct (p3dApplication p0); [|apply pk_keeps_build_ret].
  apply pk_keeps_build_bind; [|intros _; apply do_require_panda3d_keeps_build].
  apply pk_keeps_build_onCurrent, keeps_build_on_self.
  intros q. repeat split.
Qed.

(** For a package that is not solo, [close] is its first part followed
    by [installMultifile]. *)
Lemma close_not_solo (w : Packager) (p : Package) :
  currentPackage w = Some p ->
  solo p = false ->
  close' w = (close_begin' ;;; onCurrent installMultifile') w.
Proof.
  intros Hcur Hsolo.
  destruct (close_begin_keeps_build w p Hcur) as (p1 & Hc1 & _ & _ & Hs & _).
  unfold close, bind at 1 3.
  destruct (close_begin' w) as [w1 [[]|e]]; [|reflexivity].
  cbn [fst] in Hc1. unfold onCurrent. rewrite Hc1.
  unfold bind at 1, get. cbn [self]. rewrite Hs, Hsolo. reflexivity.
Qed.

(** C9: a package without a main module that is not solo is closed
    through [installMultifile]. For an application [close] always
    raises, and the current package is left with a Multifile to which
    no subfile has been added; when the steps before the check of the
    main module go through, those of [close] and the start of
    [installMultifile], the exception is the [PackagerError] for the
    missing main module. For a package that is not an application the
    check lets it pass: [close] is its first part, the start of
    [installMultifile] and the remaining steps of [installMultifile],
    which decide how it ends. *)
Theorem close_main_module (w : Packager) (p : Package) :
  currentPackage w = Some p ->
  mainModule p = None ->
  solo p = false ->
  subfiles (multifile p) = [] ->
  (p3dApplication p = true ->
   (exists e, snd (close' w) = Raise e) /\
   (exists p', currentPackage (fst (close' w)) = Some p' /\
               subfiles (multifile p') = []) /\
   (forall multifileFilename,
      snd ((close_begin' ;;; onCurrent installMultifile_begin') w)
      = Ok multifileFilename ->
      snd (close' w)
      = Raise (PackagerError
                 ("No main_module specified for application " +:+
                  packageName p)))) /\
  (p3dApplication p = false ->
   close' w
   = (close_begin' ;;;
      onCurrent (let* multifileFilename := installMultifile_begin' in
                 installMultifile_rest multifileFilename)) w).
Proof.
  intros Hcur Hmain Hsolo Hsub.
  rewrite (close_not_solo w p Hcur Hsolo).
  destruct (close_begin_keeps_build w p Hcur)
    as (p1 & Hc1 & Hn & Ha & _ & Hm & Hmf).
  unfold bind.
  destruct (close_begin' w) as [w1 [[]|e]]; cbn [fst] in Hc1.
  - unfold onCurrent. rewrite Hc1.
    set (st := mkPState p1 (pk_notify w1) (pk_disk w1)).
    assert (Hmain1 : mainModule (self st) = None)
      by (subst st; cbn [self]; congruence).
    pose proof (installMultifile_without_main ext glob_matches
                  freezer_has_module dc_read dcClientSuffixes temporary
                  installMultifile_rest st Hmain1) as H.
    cbv zeta in H. destruct H as (Hsubb & Happ & Hlib).
    split; intros Hflag.
    + assert (Ha1 : p3dApplication (self st) = true)
        by (subst st; cbn [self]; congruence).
      destruct (Happ Ha1) as (Hst & Hres).
      destruct (installMultifile' st) as [st2 r2].
      destruct (installMultifile_begin' st) as [stb rb].
      cbn [fst snd] in *. subst st2 r2.
      split; [|split].
      * destruct rb; eauto.
      * cbn [currentPackage]. eauto.
      * intros name Hname. destruct rb as [n|e]; [|discriminate].
        subst st. cbn [self]. rewrite Hn. reflexivity.
    + assert (Ha1 : p3dApplication (self st) = false)
        by (subst st; cbn [self]; congruence).
      rewrite (Hlib Ha1).
      destruct (installMultifile_begin' st) as [stb [n|e]]; reflexivity.
  - split; intros Hflag; [|reflexivity].
    cbn [fst snd]. split; [eauto|]. split.
    + exists p1. split; [exact Hc1|]. rewrite Hmf. exact Hsub.
    + intros name Hname. discriminate.
Qed.

End CloseProperties.

(** The application [game] closed without a main module: [panda3d] is
    found and required, the start of [installMultifile] goes through,
    and [close] ends with the error for the missing main module; no
    subfile has been added to the Multifile. *)
Lemma close_main_module_witness :
  snd (sample_close (defining (game true)))
  = Raise (PackagerError "No main_module specified for application game") /\
  exists p', currentPackage (fst (sample_close (defining (game true))))
             = Some p' /\
             subfiles (multifile p') = [].
Proof.
  unfold sample_close.
  destruct (close_main_module linux_extensions sample_glob_matches "linux_amd64"
              "1.0.0" "http://runtime.example/" "linux_amd64" ["/repo"]
              repo_glob repo_read no_host (fun p => imp_packageName p)
              (fun _ _ => false) (fun _ => None) ["OV"]
              (fun d prefix suffix => "/tmp/" +:+ prefix +:+ "0" +:+ suffix)
              (fun _ => ret tt)
              "/install" "http://runtime.example/"
              (fun s => String.eqb s "None") (fun _ => true)
              (fun _ => []) (fun _ _ _ => ret tt)
              (defining (game true)) (game true)
              eq_refl eq_refl eq_refl eq_refl) as [Happ _].
  destruct (Happ eq_refl) as (_ & Hp & Hmsg).
  split; [|exact Hp].
  apply (Hmsg "/tmp/game.0.mf"). vm_compute. reflexivity.
Defined.

(** C9 as stated fails on both sides. An application that is solo is
    closed through [installSolo], which does not look at the main
    module: the package [launcher], an application and solo, without
    a main module and without files, is closed normally. And a package
    that is not an application does not always close normally: the
    package [panda3d] with a [version] config that differs from the
    version of the build is turned away by [close]. *)
Lemma close_solo_application :
  let launcher :=
    set_solo true (set_p3dApplication true (Package_init "launcher")) in
  let core :=
    set_configs {["version" := CUnicode "0.9"]} (Package_init "panda3d") in
  (p3dApplication launcher = true /\ mainModule launcher = None /\
   snd (sample_close (defining launcher)) = Ok tt) /\
  (p3dApplication core = false /\ mainModule core = None /\
   snd (sample_close (defining core))
   = Raise (PackagerError
              "mismatched Panda3D version: requested 0.9, but Panda3D is built as 1.0.0")).
Proof. cbv zeta. repeat split; vm_compute; reflexivity. Qed.
